(** * BPS enrollment dashboard: the seeding pipelines

    A shallow embedding of the four seed scripts
    ([scripts/seed_attendance.py], [scripts/seed_enrollment.py],
    [scripts/seed_mcas.py], [scripts/seed_schools.py]): field coercion,
    row validation, extraction, deduplication, the batch loader with its
    per-record fallback, and the pipeline driver.

    Text is ASCII text ([string]); integers are Python's unbounded [int]
    ([Z]).  A parsed [float] is kept as the decimal number its text
    denotes (sign, decimal mantissa, decimal exponent): Python rounds that
    number to the nearest binary64, which is a function of the denoted
    number only, and two texts that denote different numbers may round to
    the same float.  Cells of a data frame are text, integers, the float NaN
    that pandas uses for a missing cell, or [None] (what [row.get] gives
    for an absent column); other float cells and boolean cells are not part
    of the model. *)

From Stdlib Require Import ZArith List String Ascii Bool Lia Arith.
Import ListNotations.

Open Scope string_scope.
Open Scope Z_scope.

(* ====================================================================== *)
(** ** Python built-ins used by the scripts *)
(* ====================================================================== *)

Module Py.

(** Outcome of a call that may raise. *)
Inductive result (A : Type) : Type :=
| Ret (a : A)
| Raise (exn : string).
Arguments Ret {A} a.
Arguments Raise {A} exn.

Definition code (c : ascii) : nat := nat_of_ascii c.

Definition is_digit (c : ascii) : bool :=
  ((48 <=? code c) && (code c <=? 57))%nat.

Definition digit_val (c : ascii) : Z := Z.of_nat (code c) - 48.

Definition digit_char (d : Z) : ascii := ascii_of_nat (Z.to_nat (d + 48)).

(** [str.isspace] on ASCII: TAB..CR, FS..US and the space. *)
Definition is_space (c : ascii) : bool :=
  (((9 <=? code c) && (code c <=? 13))
   || ((28 <=? code c) && (code c <=? 32)))%nat.

(** [str.lower] on ASCII. *)
Definition lower_char (c : ascii) : ascii :=
  if ((65 <=? code c) && (code c <=? 90))%nat
  then ascii_of_nat (code c + 32) else c.

Fixpoint lower (s : string) : string :=
  match s with
  | EmptyString => EmptyString
  | String c r => String (lower_char c) (lower r)
  end.

Fixpoint lstrip (s : string) : string :=
  match s with
  | EmptyString => EmptyString
  | String c r => if is_space c then lstrip r else s
  end.

Fixpoint rstrip (s : string) : string :=
  match s with
  | EmptyString => EmptyString
  | String c r =>
      match rstrip r with
      | EmptyString => if is_space c then EmptyString else String c EmptyString
      | r' => String c r'
      end
  end.

(** [s.strip()] *)
Definition strip (s : string) : string := rstrip (lstrip s).

(** The white space that [int] and [float] skip around an ASCII text:
    TAB..CR and the space (C's [isspace]); unlike [str.strip] they do not
    skip FS..US. *)
Definition is_c_space (c : ascii) : bool :=
  (((9 <=? code c) && (code c <=? 13)) || (code c =? 32))%nat.

Fixpoint c_lstrip (s : string) : string :=
  match s with
  | EmptyString => EmptyString
  | String c r => if is_c_space c then c_lstrip r else s
  end.

Fixpoint c_rstrip (s : string) : string :=
  match s with
  | EmptyString => EmptyString
  | String c r =>
      match c_rstrip r with
      | EmptyString => if is_c_space c then EmptyString else String c EmptyString
      | r' => String c r'
      end
  end.

Definition c_strip (s : string) : string := c_rstrip (c_lstrip s).

(** [s.replace(c, '')] for a one-character [c]. *)
Fixpoint remove_char (x : ascii) (s : string) : string :=
  match s with
  | EmptyString => EmptyString
  | String c r =>
      if Ascii.eqb c x then remove_char x r else String c (remove_char x r)
  end.

(** [needle in s] *)
Fixpoint contains (needle s : string) : bool :=
  match s with
  | EmptyString => String.prefix needle EmptyString
  | String _ r => String.prefix needle s || contains needle r
  end.

(** Truthiness of a [str]: [not s] is [is_empty s]. *)
Definition is_empty (s : string) : bool :=
  match s with EmptyString => true | _ => false end.

(** [sep.join(l)] *)
Fixpoint join (sep : string) (l : list string) : string :=
  match l with
  | [] => ""
  | [x] => x
  | x :: r => x ++ sep ++ join sep r
  end.

(** *** [str(int)] *)

Fixpoint show_digits (fuel : nat) (n : Z) (acc : string) : string :=
  match fuel with
  | O => acc
  | S f =>
      let acc' := String (digit_char (n mod 10)) acc in
      if n <? 10 then acc' else show_digits f (n / 10) acc'
  end.

Definition show_nonneg (n : Z) : string :=
  show_digits (S (Z.to_nat (Z.log2 n))) n "".

Definition str_of_int (z : Z) : string :=
  if z <? 0 then String "-" (show_nonneg (- z)) else show_nonneg z.

(** *** [int(str)], base ten *)

(** Digits with single underscores between digits: [digit (["_"] digit)*].
    [prev] tells that the previous character was a digit. *)
Fixpoint digits_us (prev : bool) (acc : Z) (s : string) : option Z :=
  match s with
  | EmptyString => if prev then Some acc else None
  | String c r =>
      if is_digit c then digits_us true (acc * 10 + digit_val c) r
      else if Ascii.eqb c "_" then
             if prev then digits_us false acc r else None
           else None
  end.

Definition split_sign (s : string) : bool * string :=
  match s with
  | String "-" r => (true, r)
  | String "+" r => (false, r)
  | _ => (false, s)
  end.

(** [int(s)]: [None] stands for [ValueError].  The interpreter's optional
    cap on the number of digits ([sys.int_max_str_digits]) is not
    modelled. *)
Definition int_of_str (s : string) : option Z :=
  let '(neg, body) := split_sign (c_strip s) in
  match digits_us false 0 body with
  | Some n => Some (if neg then - n else n)
  | None => None
  end.

(** *** [float(str)] *)

(** What the text given to [float] denotes.  [FFinite neg m e] is the
    decimal number (-1)^neg * m * 10^e as written; the float Python
    returns is that number rounded to the nearest binary64 (infinity
    beyond the binary64 range), so it equals the number written only when
    the number is a binary64, as every integer up to 2^53 in magnitude
    is. *)
Inductive pyfloat : Type :=
| FFinite (neg : bool) (mant : Z) (exp10 : Z)
| FInf (neg : bool)
| FNan.

(** Underscores may only stand between two digits; they are dropped. *)
Fixpoint drop_underscores (prev : option ascii) (s : string) : option string :=
  match s with
  | EmptyString =>
      match prev with
      | Some "_"%char => None
      | _ => Some EmptyString
      end
  | String c r =>
      if Ascii.eqb c "_" then
        match prev with
        | Some p => if is_digit p then drop_underscores (Some c) r else None
        | None => None
        end
      else
        let ok := match prev with
                  | Some "_"%char => is_digit c
                  | _ => true
                  end in
        if ok then
          match drop_underscores (Some c) r with
          | Some r' => Some (String c r')
          | None => None
          end
        else None
  end.

Fixpoint read_digits (acc cnt : Z) (s : string) : Z * Z * string :=
  match s with
  | EmptyString => (acc, cnt, s)
  | String c r =>
      if is_digit c then read_digits (acc * 10 + digit_val c) (cnt + 1) r
      else (acc, cnt, s)
  end.

(** [digits ["." digits] [("e"|"E") [sign] digits]] with at least one
    mantissa digit, up to the end of the text. *)
Definition parse_number (s : string) : option (Z * Z) :=
  let '(ip, ni, r1) := read_digits 0 0 s in
  let '(m, nf, r2) :=
    match r1 with
    | String "." r => read_digits ip 0 r
    | _ => (ip, 0, r1)
    end in
  if ni + nf =? 0 then None
  else
    match r2 with
    | EmptyString => Some (m, - nf)
    | String c r3 =>
        if Ascii.eqb (lower_char c) "e" then
          let '(eneg, r4) := split_sign r3 in
          let '(ev, ne, r5) := read_digits 0 0 r4 in
          if (ne =? 0) || negb (is_empty r5) then None
          else Some (m, (if eneg then - ev else ev) - nf)
        else None
    end.

(** [float(s)]: [None] stands for [ValueError]. *)
Definition float_of_str (s : string) : option pyfloat :=
  match drop_underscores None (c_strip s) with
  | None => None
  | Some t =>
      let '(neg, body) := split_sign t in
      let lb := lower body in
      if String.eqb lb "inf" || String.eqb lb "infinity" then Some (FInf neg)
      else if String.eqb lb "nan" then Some FNan
      else match parse_number body with
           | Some (m, e) => Some (FFinite neg m e)
           | None => None
           end
  end.

(** *** Cells of a data frame and rows *)

Inductive cell : Type :=
| CStr (s : string)     (* text *)
| CInt (z : Z)          (* integer column *)
| CNaN                  (* pandas' missing value *)
| CNone.                (* Python's None *)

(** [pd.isna(v)] *)
Definition isna (v : cell) : bool :=
  match v with
  | CNaN | CNone => true
  | _ => false
  end.

(** [str(v)] *)
Definition str (v : cell) : string :=
  match v with
  | CStr s => s
  | CInt z => str_of_int z
  | CNaN => "nan"
  | CNone => "None"
  end.

(** [v == t] for a text literal [t] *)
Definition eq_text (v : cell) (t : string) : bool :=
  match v with
  | CStr s => String.eqb s t
  | _ => false
  end.

(** [int(v)]: [None] stands for the [ValueError] or [TypeError] raised. *)
Definition int_of (v : cell) : option Z :=
  match v with
  | CStr s => int_of_str s
  | CInt z => Some z
  | CNaN => None
  | CNone => None
  end.

Definition cell_eqb (a b : cell) : bool :=
  match a, b with
  | CStr s, CStr t => String.eqb s t
  | CInt x, CInt y => x =? y
  | CNaN, CNaN => true
  | CNone, CNone => true
  | _, _ => false
  end.

(** A row ([pd.Series]): column labels with their cells. *)
Definition row : Type := list (string * cell).

(** [row.get(col, default)] *)
Fixpoint get (r : row) (col : string) (default : cell) : cell :=
  match r with
  | [] => default
  | (k, v) :: r' => if String.eqb k col then v else get r' col default
  end.

End Py.

(* ====================================================================== *)
(** ** Data shared by the four pipelines *)
(* ====================================================================== *)

Open Scope list_scope.

(** What a validator gives back.  Python returns the record, or [None]
    after logging the accumulated reasons in one warning. *)
Inductive validation (A : Type) : Type :=
| Valid (r : A)
| Rejected (errors : list string).
Arguments Valid {A} r.
Arguments Rejected {A} errors.

Definition valid_record {A} (v : validation A) : option A :=
  match v with
  | Valid r => Some r
  | Rejected _ => None
  end.

(** Values of the dictionaries sent to the sink. *)
Inductive pyval : Type :=
| VStr (s : string)
| VInt (z : Z)
| VFloat (f : Py.pyfloat)
| VNull.

Definition pydict : Type := list (string * pyval).

Definition v_int (o : option Z) : pyval :=
  match o with Some z => VInt z | None => VNull end.

Definition v_float (o : option Py.pyfloat) : pyval :=
  match o with Some f => VFloat f | None => VNull end.

(** What reading a CSV file gives: the file is absent, [pd.read_csv]
    raises, or a data frame (its column labels and its rows of cells). *)
Record dataframe : Type := {
  df_columns : list string;
  df_data : list (list Py.cell)
}.

Inductive source : Type :=
| FileMissing
| ReadError
| Frame (df : dataframe).

(** [df.iterrows()] *)
Definition iterrows (df : dataframe) : list Py.row :=
  map (fun cells => combine (df_columns df) cells) (df_data df).

(** The common body of the extraction loops: validate every row, keep the
    valid records in row order. *)
Fixpoint validate_rows {A} (validate : Py.row -> validation A)
    (rows : list Py.row) : list A :=
  match rows with
  | [] => []
  | r :: rest =>
      match validate r with
      | Valid rec => rec :: validate_rows validate rest
      | Rejected _ => validate_rows validate rest
      end
  end.

(* ====================================================================== *)
(** ** The batch loader ([insert_*]) and the driver ([main]) *)
(* ====================================================================== *)

(** One [supabase.table(t).upsert(payload, on_conflict=...).execute()]. *)
Inductive payload : Type :=
| Rows (batch : list pydict)
| OneRow (record : pydict).

Record upsert_call : Type := {
  uc_table : string;
  uc_payload : payload;
  uc_on_conflict : option string
}.

(** The logger calls of the loader, one constructor per call site (the
    separator lines are left out); the text logged is a function of the
    fields carried. *)
Inductive log_event (R : Type) : Type :=
| LogHeader (dry_run : bool) (count : nat)
| LogDryRunMode
| LogSample (i : nat) (record : R)
| LogEllipsis
| LogProcessing (batch_num total_batches size : nat)
| LogBatchOk (batch_num : nat)
| LogBatchError (batch_num : nat) (exn : string)
| LogAttemptIndividual
| LogRecordFailed (record : pydict) (exn : string)
| LogComplete (inserted errors : nat).
Arguments LogHeader {R}.
Arguments LogDryRunMode {R}.
Arguments LogSample {R}.
Arguments LogEllipsis {R}.
Arguments LogProcessing {R}.
Arguments LogBatchOk {R}.
Arguments LogBatchError {R}.
Arguments LogAttemptIndividual {R}.
Arguments LogRecordFailed {R}.
Arguments LogComplete {R}.

(** The sink: a state and what one upsert call does to it; [Some msg] is
    the exception the call raises. *)
Record sink : Type := {
  sink_state : Type;
  execute : sink_state -> upsert_call -> sink_state * option string
}.

Section Loader.

Variable K : sink.
Variable R : Type.
Variable to_dict : R -> pydict.
Variable table : string.
Variable conflict_target : string.

Record load_state : Type := {
  ls_sink : sink_state K;
  ls_calls : list upsert_call;
  total_inserted : nat;
  total_errors : nat;
  ls_log : list (log_event R)
}.

Definition init_state (s : sink_state K) (log : list (log_event R)) : load_state :=
  {| ls_sink := s; ls_calls := []; total_inserted := 0; total_errors := 0;
     ls_log := log |}.

(** Body of [for record in batch]: one upsert of the single record. *)
Definition retry_record (st : load_state) (record : pydict) : load_state :=
  let c := {| uc_table := table; uc_payload := OneRow record;
              uc_on_conflict := None |} in
  let '(s', r) := execute K (ls_sink st) c in
  match r with
  | None =>
      {| ls_sink := s'; ls_calls := ls_calls st ++ [c];
         total_inserted := (total_inserted st + 1)%nat;
         total_errors := total_errors st;
         ls_log := ls_log st |}
  | Some exn =>
      {| ls_sink := s'; ls_calls := ls_calls st ++ [c];
         total_inserted := total_inserted st;
         total_errors := (total_errors st + 1)%nat;
         ls_log := ls_log st ++ [LogRecordFailed record exn] |}
  end.

(** Body of [for i in range(0, len(record_dicts), batch_size)]. *)
Definition process_batch (record_dicts : list pydict) (batch_size : nat)
    (st : load_state) (i : nat) : load_state :=
  let batch := firstn batch_size (skipn i record_dicts) in
  let batch_num := (i / batch_size + 1)%nat in
  let total_batches :=
    ((List.length record_dicts + batch_size - 1) / batch_size)%nat in
  let log1 :=
    ls_log st
    ++ [LogProcessing batch_num total_batches (List.length batch)] in
  let c := {| uc_table := table; uc_payload := Rows batch;
              uc_on_conflict := Some conflict_target |} in
  let '(s', r) := execute K (ls_sink st) c in
  match r with
  | None =>
      {| ls_sink := s'; ls_calls := ls_calls st ++ [c];
         total_inserted := (total_inserted st + List.length batch)%nat;
         total_errors := total_errors st;
         ls_log := log1 ++ [LogBatchOk batch_num] |}
  | Some exn =>
      fold_left retry_record batch
        {| ls_sink := s'; ls_calls := ls_calls st ++ [c];
           total_inserted := total_inserted st;
           total_errors := (total_errors st + List.length batch)%nat;
           ls_log := log1 ++ [LogBatchError batch_num exn;
                              LogAttemptIndividual] |}
  end.

(** [range(0, n, step)] *)
Definition range_step (n : nat) (step : Z) : Py.result (list nat) :=
  if step =? 0 then Py.Raise "ValueError"
  else if step <? 0 then Py.Ret []
  else
    let k := Z.to_nat step in
    Py.Ret (map (fun j => (j * k)%nat) (seq 0 ((n + k - 1) / k)%nat)).

(** [enumerate(l, 1)] *)
Definition enumerate1 {A} (l : list A) : list (nat * A) :=
  combine (seq 1 (List.length l)) l.

(** [insert_*(supabase, records, batch_size, dry_run)]: the value
    returned and the state the loader ends in. *)
Definition insert (s : sink_state K) (records : list R) (batch_size : Z)
    (dry_run : bool) : Py.result (bool * load_state) :=
  let log0 : list (log_event R) := [LogHeader dry_run (List.length records)] in
  if dry_run then
    let samples :=
      map (fun p => LogSample (fst p) (snd p)) (enumerate1 (firstn 5 records)) in
    Py.Ret (true,
            init_state s (log0 ++ [LogDryRunMode] ++ samples ++ [LogEllipsis]))
  else
    let record_dicts := map to_dict records in
    match range_step (List.length record_dicts) batch_size with
    | Py.Raise e => Py.Raise e
    | Py.Ret starts =>
        let st :=
          fold_left (process_batch record_dicts (Z.to_nat batch_size))
            starts (init_state s log0) in
        let st' :=
          {| ls_sink := ls_sink st; ls_calls := ls_calls st;
             total_inserted := total_inserted st;
             total_errors := total_errors st;
             ls_log := ls_log st
                       ++ [LogComplete (total_inserted st) (total_errors st)] |} in
        Py.Ret (Nat.eqb (total_errors st) 0, st')
    end.

(** *** The driver *)

(** The process environment and the client library: the two settings
    read with [os.getenv], and whether [create_client] returns (rather
    than raises) for given settings. *)
Record environment : Type := {
  SUPABASE_URL : option string;
  SUPABASE_SERVICE_KEY : option string;
  create_client : string -> string -> bool
}.

(** [get_supabase_client()]: whether a client is returned, and how many
    times [create_client] was called. *)
Definition get_supabase_client (env : environment) : bool * nat :=
  match SUPABASE_URL env with
  | None => (false, O)
  | Some url =>
      if Py.is_empty url then (false, O)
      else
        match SUPABASE_SERVICE_KEY env with
        | None => (false, O)
        | Some key =>
            if Py.is_empty key then (false, O)
            else (create_client env url key, 1%nat)
        end
  end.

(** What a run of [main] does: its exit status, the number of clients
    created, and the loader's final state when the loader ran. *)
Record run : Type := {
  exit_code : Z;
  clients_created : nat;
  loaded : option (bool * load_state)
}.

(** [main()], given the records the extraction step produced. *)
Definition main_from (records : list R) (env : environment)
    (s : sink_state K) (dry_run : bool) : Py.result run :=
  match records with
  | [] => Py.Ret {| exit_code := 1; clients_created := 0; loaded := None |}
  | _ =>
      let '(supabase, n) := get_supabase_client env in
      if negb supabase then
        Py.Ret {| exit_code := 1; clients_created := n; loaded := None |}
      else
        match insert s records 100 dry_run with
        | Py.Raise e => Py.Raise e
        | Py.Ret (success, st) =>
            Py.Ret {| exit_code := if success then 0 else 1;
                      clients_created := n;
                      loaded := Some (success, st) |}
        end
  end.

End Loader.

Arguments ls_sink {K R}.
Arguments ls_calls {K R}.
Arguments total_inserted {K R}.
Arguments total_errors {K R}.
Arguments ls_log {K R}.
Arguments exit_code {K R}.
Arguments clients_created {K R}.
Arguments loaded {K R}.

(* ====================================================================== *)
(** ** The fact-table pipelines *)
(* ====================================================================== *)

(** [not s or s == 'nan'], the test applied to every identifier field. *)
Definition blank (s : string) : bool := Py.is_empty s || String.eqb s "nan".

(** [errors.append(msg)] under a condition. *)
Definition append_if (b : bool) (msg : string) (errors : list string) : list string :=
  if b then errors ++ [msg] else errors.

Definition missing_year_msg : string := "Missing SY (school_year)".

(** [f"Invalid school_year {school_year} (must be 2000-2100)"] *)
Definition invalid_year_msg (y : Z) : string :=
  ("Invalid school_year " ++ Py.str_of_int y ++ " (must be 2000-2100)")%string.

(** The lines that validate [school_year], the same in the three fact-table
    scripts: missing when the coercion gave [None], invalid outside
    2000..2100. *)
Definition check_school_year (school_year : option Z) (errors : list string)
    : list string :=
  match school_year with
  | None => errors ++ [missing_year_msg]
  | Some y =>
      if (y <? 2000) || (y >? 2100) then errors ++ [invalid_year_msg y]
      else errors
  end.

Module Attendance.


(** [parse_decimal(value)] *)
Definition parse_decimal (value : Py.cell) : option Py.pyfloat :=
  if Py.isna value || Py.eq_text value "" || Py.eq_text value "N" then None
  else
    let value_str := Py.remove_char "," (Py.remove_char "%" (Py.str value)) in
    Py.float_of_str value_str.

Record AttendanceRecord : Type := {
  school_year : option Z;
  attendance_period : string;
  school_id : string;
  student_group : string;
  attendance_rate : option Py.pyfloat;
  avg_days_absent : option Py.pyfloat;
  absent_10plus_days_pct : option Py.pyfloat;
  chronic_absent_10_pct : option Py.pyfloat;
  chronic_absent_20_pct : option Py.pyfloat;
  unexcused_absent_10_pct : option Py.pyfloat
}.

Definition to_dict (r : AttendanceRecord) : pydict :=
  [("school_year", v_int (school_year r));
   ("attendance_period", VStr (attendance_period r));
   ("school_id", VStr (school_id r));
   ("student_group", VStr (student_group r));
   ("attendance_rate", v_float (attendance_rate r));
   ("avg_days_absent", v_float (avg_days_absent r));
   ("absent_10plus_days_pct", v_float (absent_10plus_days_pct r));
   ("chronic_absent_10_pct", v_float (chronic_absent_10_pct r));
   ("chronic_absent_20_pct", v_float (chronic_absent_20_pct r));
   ("unexcused_absent_10_pct", v_float (unexcused_absent_10_pct r))].

(** [validate_attendance_record(row)] *)
Definition validate_attendance_record (row : Py.row) : validation AttendanceRecord :=
  let school_year_raw := Py.get row "SY" Py.CNone in
  let school_year_v :=
    if negb (Py.isna school_year_raw) then Py.int_of school_year_raw else None in
  let attendance_period_v := Py.strip (Py.str (Py.get row "ATTEND_PERIOD" (Py.CStr ""))) in
  let school_id_v := Py.strip (Py.str (Py.get row "ORG_CODE" (Py.CStr ""))) in
  let student_group_v := Py.strip (Py.str (Py.get row "STU_GRP" (Py.CStr ""))) in
  let errors := check_school_year school_year_v [] in
  let errors := append_if (blank attendance_period_v) "Missing ATTEND_PERIOD" errors in
  let errors := append_if (blank school_id_v) "Missing ORG_CODE (school_id)" errors in
  let errors := append_if (blank student_group_v) "Missing STU_GRP (student_group)" errors in
  match errors with
  | _ :: _ => Rejected errors
  | [] =>
      Valid
        {| school_year := school_year_v;
           attendance_period := attendance_period_v;
           school_id := school_id_v;
           student_group := student_group_v;
           attendance_rate := parse_decimal (Py.get row "ATTEND_RATE" Py.CNone);
           avg_days_absent := parse_decimal (Py.get row "CNT_AVG_ABS" Py.CNone);
           absent_10plus_days_pct := parse_decimal (Py.get row "PCT_ABS_10_DAYS" Py.CNone);
           chronic_absent_10_pct := parse_decimal (Py.get row "PCT_CHRON_ABS_10" Py.CNone);
           chronic_absent_20_pct := parse_decimal (Py.get row "PCT_CHRON_ABS_20" Py.CNone);
           unexcused_absent_10_pct := parse_decimal (Py.get row "PCT_UNEXC_10_DAYS" Py.CNone) |}
  end.

(** [extract_attendance_records()], given what reading the CSV file gives. *)
Definition extract_attendance_records (src : source) : list AttendanceRecord :=
  match src with
  | FileMissing => []
  | ReadError => []
  | Frame df => validate_rows validate_attendance_record (iterrows df)
  end.

Definition table : string := "attendance".
Definition on_conflict : string := "school_id,school_year,attendance_period,student_group".

(** [insert_attendance_records(supabase, records, batch_size, dry_run)] *)
Definition insert_attendance_records (K : sink) (supabase : sink_state K)
    (records : list AttendanceRecord) (batch_size : Z) (dry_run : bool)
    : Py.result (bool * load_state K AttendanceRecord) :=
  insert K AttendanceRecord to_dict table on_conflict supabase records batch_size dry_run.

(** [main()]: [dry_run] is whether [--dry-run] is among the arguments. *)
Definition main (K : sink) (src : source) (env : environment)
    (supabase : sink_state K) (dry_run : bool) : Py.result (run K AttendanceRecord) :=
  main_from K AttendanceRecord to_dict table on_conflict
    (extract_attendance_records src) env supabase dry_run.

End Attendance.

Module Mcas.


(** [parse_int(value)] *)
Definition parse_int (value : Py.cell) : option Z :=
  if Py.isna value || Py.eq_text value "" || Py.eq_text value "N" then None
  else Py.int_of_str (Py.remove_char "," (Py.str value)).

(** [parse_decimal(value)] *)
Definition parse_decimal (value : Py.cell) : option Py.pyfloat :=
  if Py.isna value || Py.eq_text value "" || Py.eq_text value "N" then None
  else
    let value_str := Py.remove_char "," (Py.remove_char "%" (Py.str value)) in
    Py.float_of_str value_str.

Record McasRecord : Type := {
  school_year : option Z;
  school_id : string;
  test_grade : string;
  subject_code : string;
  student_group : string;
  meeting_exceeding_count : option Z;
  meeting_exceeding_pct : option Py.pyfloat;
  exceeding_count : option Z;
  exceeding_pct : option Py.pyfloat;
  meeting_count : option Z;
  meeting_pct : option Py.pyfloat;
  partially_meeting_count : option Z;
  partially_meeting_pct : option Py.pyfloat;
  not_meeting_count : option Z;
  not_meeting_pct : option Py.pyfloat;
  student_count : option Z;
  student_participation_pct : option Py.pyfloat;
  avg_scaled_score : option Py.pyfloat;
  avg_student_growth_percentile : option Py.pyfloat;
  avg_sgp_included : option Py.pyfloat;
  achievement_percentile : option Z
}.

Definition to_dict (r : McasRecord) : pydict :=
  [("school_year", v_int (school_year r));
   ("school_id", VStr (school_id r));
   ("test_grade", VStr (test_grade r));
   ("subject_code", VStr (subject_code r));
   ("student_group", VStr (student_group r));
   ("meeting_exceeding_count", v_int (meeting_exceeding_count r));
   ("meeting_exceeding_pct", v_float (meeting_exceeding_pct r));
   ("exceeding_count", v_int (exceeding_count r));
   ("exceeding_pct", v_float (exceeding_pct r));
   ("meeting_count", v_int (meeting_count r));
   ("meeting_pct", v_float (meeting_pct r));
   ("partially_meeting_count", v_int (partially_meeting_count r));
   ("partially_meeting_pct", v_float (partially_meeting_pct r));
   ("not_meeting_count", v_int (not_meeting_count r));
   ("not_meeting_pct", v_float (not_meeting_pct r));
   ("student_count", v_int (student_count r));
   ("student_participation_pct", v_float (student_participation_pct r));
   ("avg_scaled_score", v_float (avg_scaled_score r));
   ("avg_student_growth_percentile", v_float (avg_student_growth_percentile r));
   ("avg_sgp_included", v_float (avg_sgp_included r));
   ("achievement_percentile", v_int (achievement_percentile r))].

(** [validate_mcas_record(row)] *)
Definition validate_mcas_record (row : Py.row) : validation McasRecord :=
  let school_year_raw := Py.get row "SY" Py.CNone in
  let school_year_v :=
    if negb (Py.isna school_year_raw) then Py.int_of school_year_raw else None in
  let school_id_v := Py.strip (Py.str (Py.get row "ORG_CODE" (Py.CStr ""))) in
  let test_grade_v := Py.strip (Py.str (Py.get row "TEST_GRADE" (Py.CStr ""))) in
  let subject_code_v := Py.strip (Py.str (Py.get row "SUBJECT_CODE" (Py.CStr ""))) in
  let student_group_v := Py.strip (Py.str (Py.get row "STU_GRP" (Py.CStr ""))) in
  let errors := check_school_year school_year_v [] in
  let errors := append_if (blank school_id_v) "Missing ORG_CODE (school_id)" errors in
  let errors := append_if (blank test_grade_v) "Missing TEST_GRADE" errors in
  let errors := append_if (blank subject_code_v) "Missing SUBJECT_CODE" errors in
  let errors := append_if (blank student_group_v) "Missing STU_GRP (student_group)" errors in
  match errors with
  | _ :: _ => Rejected errors
  | [] =>
      Valid
        {| school_year := school_year_v;
           school_id := school_id_v;
           test_grade := test_grade_v;
           subject_code := subject_code_v;
           student_group := student_group_v;
           meeting_exceeding_count := parse_int (Py.get row "M_PLUS_E_CNT" Py.CNone);
           meeting_exceeding_pct := parse_decimal (Py.get row "M_PLUS_E_PCT" Py.CNone);
           exceeding_count := parse_int (Py.get row "E_CNT" Py.CNone);
           exceeding_pct := parse_decimal (Py.get row "E_PCT" Py.CNone);
           meeting_count := parse_int (Py.get row "M_CNT" Py.CNone);
           meeting_pct := parse_decimal (Py.get row "M_PCT" Py.CNone);
           partially_meeting_count := parse_int (Py.get row "PM_CNT" Py.CNone);
           partially_meeting_pct := parse_decimal (Py.get row "PM_PCT" Py.CNone);
           not_meeting_count := parse_int (Py.get row "NM_CNT" Py.CNone);
           not_meeting_pct := parse_decimal (Py.get row "NM_PCT" Py.CNone);
           student_count := parse_int (Py.get row "STU_CNT" Py.CNone);
           student_participation_pct := parse_decimal (Py.get row "STU_PART_PCT" Py.CNone);
           avg_scaled_score := parse_decimal (Py.get row "AVG_SCALED_SCORE" Py.CNone);
           avg_student_growth_percentile := parse_decimal (Py.get row "AVG_SGP" Py.CNone);
           avg_sgp_included := parse_decimal (Py.get row "AVG_SGP_INCL" Py.CNone);
           achievement_percentile := parse_int (Py.get row "ACH_PERCENTILE" Py.CNone) |}
  end.

(** [extract_mcas_records()], given what reading the CSV file gives. *)
Definition extract_mcas_records (src : source) : list McasRecord :=
  match src with
  | FileMissing => []
  | ReadError => []
  | Frame df => validate_rows validate_mcas_record (iterrows df)
  end.

Definition table : string := "mcas_results".
Definition on_conflict : string := "school_id,school_year,test_grade,subject_code,student_group".

(** [insert_mcas_records(supabase, records, batch_size, dry_run)] *)
Definition insert_mcas_records (K : sink) (supabase : sink_state K)
    (records : list McasRecord) (batch_size : Z) (dry_run : bool)
    : Py.result (bool * load_state K McasRecord) :=
  insert K McasRecord to_dict table on_conflict supabase records batch_size dry_run.

(** [main()]: [dry_run] is whether [--dry-run] is among the arguments. *)
Definition main (K : sink) (src : source) (env : environment)
    (supabase : sink_state K) (dry_run : bool) : Py.result (run K McasRecord) :=
  main_from K McasRecord to_dict table on_conflict
    (extract_mcas_records src) env supabase dry_run.

End Mcas.

Module Enrollment.


(** [parse_int(value)] *)
Definition parse_int (value : Py.cell) : option Z :=
  if Py.isna value || Py.eq_text value "" || Py.eq_text value "N" then None
  else Py.int_of_str (Py.remove_char "," (Py.str value)).

(** [parse_pct(value)] *)
Definition parse_pct (value : Py.cell) : option Py.pyfloat :=
  if Py.isna value || Py.eq_text value "" || Py.eq_text value "N" then None
  else Py.float_of_str (Py.remove_char "%" (Py.str value)).

Record EnrollmentRecord : Type := {
  school_year : option Z;
  school_id : string;
  total_enrollment : option Z;
  pk_count : option Z;
  k_count : option Z;
  grade_1_count : option Z;
  grade_2_count : option Z;
  grade_3_count : option Z;
  grade_4_count : option Z;
  grade_5_count : option Z;
  grade_6_count : option Z;
  grade_7_count : option Z;
  grade_8_count : option Z;
  grade_9_count : option Z;
  grade_10_count : option Z;
  grade_11_count : option Z;
  grade_12_count : option Z;
  sp_count : option Z;
  american_indian_pct : option Py.pyfloat;
  asian_pct : option Py.pyfloat;
  black_african_american_pct : option Py.pyfloat;
  hispanic_latino_pct : option Py.pyfloat;
  multi_race_non_hisp_pct : option Py.pyfloat;
  native_hawaiian_pacific_pct : option Py.pyfloat;
  white_pct : option Py.pyfloat;
  female_pct : option Py.pyfloat;
  male_pct : option Py.pyfloat;
  non_binary_pct : option Py.pyfloat;
  english_learner_count : option Z;
  english_learner_pct : option Py.pyfloat;
  former_english_learner_count : option Z;
  former_english_learner_pct : option Py.pyfloat;
  high_needs_count : option Z;
  high_needs_pct : option Py.pyfloat;
  low_income_count : option Z;
  low_income_pct : option Py.pyfloat;
  economically_disadvantaged_count : option Z;
  economically_disadvantaged_pct : option Py.pyfloat;
  students_with_disabilities_count : option Z;
  students_with_disabilities_pct : option Py.pyfloat
}.

Definition to_dict (r : EnrollmentRecord) : pydict :=
  [("school_year", v_int (school_year r));
   ("school_id", VStr (school_id r));
   ("total_enrollment", v_int (total_enrollment r));
   ("pk_count", v_int (pk_count r));
   ("k_count", v_int (k_count r));
   ("grade_1_count", v_int (grade_1_count r));
   ("grade_2_count", v_int (grade_2_count r));
   ("grade_3_count", v_int (grade_3_count r));
   ("grade_4_count", v_int (grade_4_count r));
   ("grade_5_count", v_int (grade_5_count r));
   ("grade_6_count", v_int (grade_6_count r));
   ("grade_7_count", v_int (grade_7_count r));
   ("grade_8_count", v_int (grade_8_count r));
   ("grade_9_count", v_int (grade_9_count r));
   ("grade_10_count", v_int (grade_10_count r));
   ("grade_11_count", v_int (grade_11_count r));
   ("grade_12_count", v_int (grade_12_count r));
   ("sp_count", v_int (sp_count r));
   ("american_indian_pct", v_float (american_indian_pct r));
   ("asian_pct", v_float (asian_pct r));
   ("black_african_american_pct", v_float (black_african_american_pct r));
   ("hispanic_latino_pct", v_float (hispanic_latino_pct r));
   ("multi_race_non_hisp_pct", v_float (multi_race_non_hisp_pct r));
   ("native_hawaiian_pacific_pct", v_float (native_hawaiian_pacific_pct r));
   ("white_pct", v_float (white_pct r));
   ("female_pct", v_float (female_pct r));
   ("male_pct", v_float (male_pct r));
   ("non_binary_pct", v_float (non_binary_pct r));
   ("english_learner_count", v_int (english_learner_count r));
   ("english_learner_pct", v_float (english_learner_pct r));
   ("former_english_learner_count", v_int (former_english_learner_count r));
   ("former_english_learner_pct", v_float (former_english_learner_pct r));
   ("high_needs_count", v_int (high_needs_count r));
   ("high_needs_pct", v_float (high_needs_pct r));
   ("low_income_count", v_int (low_income_count r));
   ("low_income_pct", v_float (low_income_pct r));
   ("economically_disadvantaged_count", v_int (economically_disadvantaged_count r));
   ("economically_disadvantaged_pct", v_float (economically_disadvantaged_pct r));
   ("students_with_disabilities_count", v_int (students_with_disabilities_count r));
   ("students_with_disabilities_pct", v_float (students_with_disabilities_pct r))].

(** [validate_enrollment_record(row)] *)
Definition validate_enrollment_record (row : Py.row) : validation EnrollmentRecord :=
  let school_year_v := parse_int (Py.get row "SY" Py.CNone) in
  let school_id_v := Py.strip (Py.str (Py.get row "ORG_CODE" (Py.CStr ""))) in
  let errors := check_school_year school_year_v [] in
  let errors := append_if (blank school_id_v) "Missing ORG_CODE (school_id)" errors in
  match errors with
  | _ :: _ => Rejected errors
  | [] =>
      Valid
        {| school_year := school_year_v;
           school_id := school_id_v;
           total_enrollment := parse_int (Py.get row "TOTAL_CNT" Py.CNone);
           pk_count := parse_int (Py.get row "PK_CNT" Py.CNone);
           k_count := parse_int (Py.get row "K_CNT" Py.CNone);
           grade_1_count := parse_int (Py.get row "G1_CNT" Py.CNone);
           grade_2_count := parse_int (Py.get row "G2_CNT" Py.CNone);
           grade_3_count := parse_int (Py.get row "G3_CNT" Py.CNone);
           grade_4_count := parse_int (Py.get row "G4_CNT" Py.CNone);
           grade_5_count := parse_int (Py.get row "G5_CNT" Py.CNone);
           grade_6_count := parse_int (Py.get row "G6_CNT" Py.CNone);
           grade_7_count := parse_int (Py.get row "G7_CNT" Py.CNone);
           grade_8_count := parse_int (Py.get row "G8_CNT" Py.CNone);
           grade_9_count := parse_int (Py.get row "G9_CNT" Py.CNone);
           grade_10_count := parse_int (Py.get row "G10_CNT" Py.CNone);
           grade_11_count := parse_int (Py.get row "G11_CNT" Py.CNone);
           grade_12_count := parse_int (Py.get row "G12_CNT" Py.CNone);
           sp_count := parse_int (Py.get row "SP_CNT" Py.CNone);
           american_indian_pct := parse_pct (Py.get row "AIAN_PCT" Py.CNone);
           asian_pct := parse_pct (Py.get row "AS_PCT" Py.CNone);
           black_african_american_pct := parse_pct (Py.get row "BAA_PCT" Py.CNone);
           hispanic_latino_pct := parse_pct (Py.get row "HL_PCT" Py.CNone);
           multi_race_non_hisp_pct := parse_pct (Py.get row "MNHL_PCT" Py.CNone);
           native_hawaiian_pacific_pct := parse_pct (Py.get row "NHPI_PCT" Py.CNone);
           white_pct := parse_pct (Py.get row "WH_PCT" Py.CNone);
           female_pct := parse_pct (Py.get row "FE_PCT" Py.CNone);
           male_pct := parse_pct (Py.get row "MA_PCT" Py.CNone);
           non_binary_pct := parse_pct (Py.get row "NB_PCT" Py.CNone);
           english_learner_count := parse_int (Py.get row "EL_CNT" Py.CNone);
           english_learner_pct := parse_pct (Py.get row "EL_PCT" Py.CNone);
           former_english_learner_count := parse_int (Py.get row "FLNE_CNT" Py.CNone);
           former_english_learner_pct := parse_pct (Py.get row "FLNE_PCT" Py.CNone);
           high_needs_count := parse_int (Py.get row "HN_CNT" Py.CNone);
           high_needs_pct := parse_pct (Py.get row "HN_PCT" Py.CNone);
           low_income_count := parse_int (Py.get row "LI_CNT" Py.CNone);
           low_income_pct := parse_pct (Py.get row "LI_PCT" Py.CNone);
           economically_disadvantaged_count := parse_int (Py.get row "ECD_CNT" Py.CNone);
           economically_disadvantaged_pct := parse_pct (Py.get row "ECD_PCT" Py.CNone);
           students_with_disabilities_count := parse_int (Py.get row "SWD_CNT" Py.CNone);
           students_with_disabilities_pct := parse_pct (Py.get row "SWD_PCT" Py.CNone) |}
  end.

(** [extract_enrollment_records()], given what reading the CSV file gives. *)
Definition extract_enrollment_records (src : source) : list EnrollmentRecord :=
  match src with
  | FileMissing => []
  | ReadError => []
  | Frame df => validate_rows validate_enrollment_record (iterrows df)
  end.

Definition table : string := "enrollment".
Definition on_conflict : string := "school_id,school_year".

(** [insert_enrollment_records(supabase, records, batch_size, dry_run)] *)
Definition insert_enrollment_records (K : sink) (supabase : sink_state K)
    (records : list EnrollmentRecord) (batch_size : Z) (dry_run : bool)
    : Py.result (bool * load_state K EnrollmentRecord) :=
  insert K EnrollmentRecord to_dict table on_conflict supabase records batch_size dry_run.

(** [main()]: [dry_run] is whether [--dry-run] is among the arguments. *)
Definition main (K : sink) (src : source) (env : environment)
    (supabase : sink_state K) (dry_run : bool) : Py.result (run K EnrollmentRecord) :=
  main_from K EnrollmentRecord to_dict table on_conflict
    (extract_enrollment_records src) env supabase dry_run.

End Enrollment.
(* ====================================================================== *)
(** ** The school directory pipeline *)
(* ====================================================================== *)

(** A Python [dict] with text keys: the entries in insertion order, each
    key once. *)
Module Dict.

Definition t (A : Type) : Type := list (string * A).

Fixpoint get {A} (d : t A) (k : string) : option A :=
  match d with
  | [] => None
  | (k', v) :: r => if String.eqb k' k then Some v else get r k
  end.

(** [k in d] *)
Definition mem {A} (d : t A) (k : string) : bool :=
  match get d k with Some _ => true | None => false end.

(** [d[k] = v]: an existing key keeps its place, a new one goes last. *)
Fixpoint set {A} (d : t A) (k : string) (v : A) : t A :=
  match d with
  | [] => [(k, v)]
  | (k', v') :: r =>
      if String.eqb k' k then (k', v) :: r else (k', v') :: set r k v
  end.

(** [d.values()] *)
Definition values {A} (d : t A) : list A := map snd d.

Definition keys {A} (d : t A) : list string := map fst d.

End Dict.

Module Schools.

Definition VALID_ORG_TYPES : list string := ["School"; "District"; "State"].

Definition CSV_SOURCES : list string :=
  ["enrollment/Enrollment__Grade,_Race_Ethnicity,_Gender,_and_Selected_Populations_20251204.csv";
   "mcas_achievement_results/MCAS_Achievement_Results_20251204.csv";
   "student_attendance/Student_Attendance_20251204.csv";
   "class_size/Class_Size_by_Gender,_Race_Ethnicity,_and_Selected_Populations_20251204.csv";
   "student_attrition/Student_Attrition_20251204.csv";
   "student_discipline/Student_Discipline_20251204.csv";
   "student_mobility_rate/Student_Mobility_Rate_20251204.csv";
   "graduation_rates/High_School_Graduation_Rates_20251204.csv"].

(** [normalize_org_type(org_type)] *)
Definition normalize_org_type (org_type : string) : string :=
  let org_type_lower := Py.strip (Py.lower org_type) in
  if String.eqb org_type_lower "state" then "State"
  else if Py.contains "district" org_type_lower then "District"
  else if Py.contains "school" org_type_lower then "School"
  else org_type.

Record SchoolRecord : Type := {
  school_id : string;
  school_name : string;
  district_code : string;
  district_name : string;
  org_type : string;
  source_file : string
}.

Definition to_dict (r : SchoolRecord) : pydict :=
  [("school_id", VStr (school_id r));
   ("school_name", VStr (school_name r));
   ("district_code", VStr (district_code r));
   ("district_name", VStr (district_name r));
   ("org_type", VStr (org_type r))].

(** [org_type in VALID_ORG_TYPES] *)
Definition is_valid_org_type (org_type : string) : bool :=
  existsb (String.eqb org_type) VALID_ORG_TYPES.

(** [f"Invalid ORG_TYPE '{org_type}'. Must be one of: {VALID_ORG_TYPES}"];
    the order in which Python prints the members of the set is not fixed. *)
Definition invalid_org_type_msg (org_type : string) : string :=
  ("Invalid ORG_TYPE '" ++ org_type
   ++ "'. Must be one of: {'School', 'District', 'State'}")%string.

(** [validate_school_record(row, source_file)] *)
Definition validate_school_record (row : Py.row) (source_file_v : string)
    : validation SchoolRecord :=
  let school_id_v := Py.strip (Py.str (Py.get row "ORG_CODE" (Py.CStr ""))) in
  let school_name_v := Py.strip (Py.str (Py.get row "ORG_NAME" (Py.CStr ""))) in
  let district_code_v := Py.strip (Py.str (Py.get row "DIST_CODE" (Py.CStr ""))) in
  let district_name_v := Py.strip (Py.str (Py.get row "DIST_NAME" (Py.CStr ""))) in
  let org_type_raw := Py.strip (Py.str (Py.get row "ORG_TYPE" (Py.CStr ""))) in
  let org_type_v :=
    if negb (Py.is_empty org_type_raw) && negb (String.eqb org_type_raw "nan")
    then normalize_org_type org_type_raw else "" in
  let errors := [] in
  let errors := append_if (blank school_id_v) "Missing ORG_CODE (school_id)" errors in
  let errors := append_if (blank school_name_v) "Missing ORG_NAME (school_name)" errors in
  let errors := append_if (blank district_code_v) "Missing DIST_CODE (district_code)" errors in
  let errors := append_if (blank district_name_v) "Missing DIST_NAME (district_name)" errors in
  let errors :=
    if blank org_type_v then errors ++ ["Missing ORG_TYPE (org_type)"]
    else if negb (is_valid_org_type org_type_v)
         then errors ++ [invalid_org_type_msg org_type_v]
         else errors in
  match errors with
  | _ :: _ => Rejected errors
  | [] =>
      Valid {| school_id := school_id_v;
               school_name := school_name_v;
               district_code := district_code_v;
               district_name := district_name_v;
               org_type := org_type_v;
               source_file := source_file_v |}
  end.

(** [df[cols]]: the frame reduced to the columns [cols]; a row too short
    for a column holds the missing value there. *)
Definition select (df : dataframe) (cols : list string) : dataframe :=
  {| df_columns := cols;
     df_data :=
       map (fun cells =>
              map (fun c => Py.get (combine (df_columns df) cells) c Py.CNaN) cols)
           (df_data df) |}.

Fixpoint cells_eqb (a b : list Py.cell) : bool :=
  match a, b with
  | [], [] => true
  | x :: a', y :: b' => Py.cell_eqb x y && cells_eqb a' b'
  | _, _ => false
  end.

(** [rows.drop_duplicates()]: the first of equal rows is kept. *)
Fixpoint drop_duplicates (rows : list (list Py.cell)) : list (list Py.cell) :=
  match rows with
  | [] => []
  | r :: rest =>
      r :: filter (fun r' => negb (cells_eqb r r')) (drop_duplicates rest)
  end.

Definition school_cols : list string :=
  ["ORG_CODE"; "ORG_NAME"; "DIST_CODE"; "DIST_NAME"; "ORG_TYPE"].

(** [extract_schools_from_csv(csv_path)], given the file's name and what
    reading it gives. *)
Definition extract_schools_from_csv (name : string) (src : source)
    : list SchoolRecord :=
  match src with
  | FileMissing => []
  | ReadError => []
  | Frame df =>
      let missing_cols :=
        filter (fun col => negb (existsb (String.eqb col) (df_columns df)))
               school_cols in
      match missing_cols with
      | _ :: _ => []
      | [] =>
          let sel := select df school_cols in
          let unique_schools :=
            {| df_columns := df_columns sel;
               df_data := drop_duplicates (df_data sel) |} in
          validate_rows (fun row => validate_school_record row name)
                        (iterrows unique_schools)
      end
  end.

(** [Path.name]: the text after the last slash. *)
Fixpoint basename_from (acc s : string) : string :=
  match s with
  | EmptyString => acc
  | String c r =>
      if Ascii.eqb c "/" then basename_from r r else basename_from acc r
  end.

Definition basename (path : string) : string := basename_from path path.

(** Body of [for school in schools]: count a key already present, then
    store the record under its key. *)
Definition add_school (acc : Dict.t SchoolRecord * nat) (school : SchoolRecord)
    : Dict.t SchoolRecord * nat :=
  let '(all_schools, duplicate_count) := acc in
  let duplicate_count :=
    if Dict.mem all_schools (school_id school)
    then (duplicate_count + 1)%nat else duplicate_count in
  (Dict.set all_schools (school_id school) school, duplicate_count).

(** Body of [for csv_relative_path in CSV_SOURCES]. *)
Definition add_source (files : string -> source)
    (acc : Dict.t SchoolRecord * nat) (csv_relative_path : string)
    : Dict.t SchoolRecord * nat :=
  match files csv_relative_path with
  | FileMissing => acc
  | src =>
      let schools := extract_schools_from_csv (basename csv_relative_path) src in
      fold_left add_school schools acc
  end.

(** The fold of [collect_all_schools] over a list of sources. *)
Definition collect_from (files : string -> source) (sources : list string)
    : Dict.t SchoolRecord * nat :=
  fold_left (add_source files) sources ([], O).

(** [collect_all_schools()], with the duplicate count it logs; [files]
    tells what reading each path under the data directory gives. *)
Definition collect_all_schools (files : string -> source)
    : Dict.t SchoolRecord * nat :=
  collect_from files CSV_SOURCES.

Definition table : string := "schools".
Definition on_conflict : string := "school_id".

(** [insert_schools(supabase, schools, batch_size, dry_run)] *)
Definition insert_schools (K : sink) (supabase : sink_state K)
    (schools : Dict.t SchoolRecord) (batch_size : Z) (dry_run : bool)
    : Py.result (bool * load_state K SchoolRecord) :=
  insert K SchoolRecord to_dict table on_conflict supabase
         (Dict.values schools) batch_size dry_run.

(** [main()] *)
Definition main (K : sink) (files : string -> source) (env : environment)
    (supabase : sink_state K) (dry_run : bool) : Py.result (run K SchoolRecord) :=
  let schools := fst (collect_all_schools files) in
  main_from K SchoolRecord to_dict table on_conflict
    (Dict.values schools) env supabase dry_run.

End Schools.
(* ====================================================================== *)
(** ** Test doubles and sample data *)
(* ====================================================================== *)

(** A sink that follows a script: the outcome of each successive call, the
    head first; once the script is used up every call succeeds. *)
Definition scripted_sink : sink :=
  {| sink_state := list (option string);
     execute := fun script _ =>
       match script with
       | [] => ([], None)
       | outcome :: rest => (rest, outcome)
       end |}.

(** An attendance row with the given school-year cell and school code. *)
Definition attendance_row (sy : Py.cell) (org : string) : Py.row :=
  [("SY", sy); ("ATTEND_PERIOD", Py.CStr "End of year");
   ("ORG_CODE", Py.CStr org); ("STU_GRP", Py.CStr "All");
   ("ATTEND_RATE", Py.CStr "93.2%"); ("CNT_AVG_ABS", Py.CStr "11.9")].

(** The same row without its school-year column. *)
Definition attendance_row_no_year (org : string) : Py.row :=
  [("ATTEND_PERIOD", Py.CStr "End of year");
   ("ORG_CODE", Py.CStr org); ("STU_GRP", Py.CStr "All");
   ("ATTEND_RATE", Py.CStr "93.2%"); ("CNT_AVG_ABS", Py.CStr "11.9")].

Definition mcas_row (sy : Py.cell) : Py.row :=
  [("SY", sy); ("ORG_CODE", Py.CStr "00350000"); ("TEST_GRADE", Py.CStr "03");
   ("SUBJECT_CODE", Py.CStr "ELA"); ("STU_GRP", Py.CStr "All");
   ("M_PLUS_E_CNT", Py.CStr "1,234"); ("M_PLUS_E_PCT", Py.CStr "41%")].

Definition enrollment_row (sy : Py.cell) : Py.row :=
  [("SY", sy); ("ORG_CODE", Py.CStr "00350000");
   ("TOTAL_CNT", Py.CStr "915,932"); ("FE_PCT", Py.CStr "48.7%")].

Definition school_row (code name org : string) : list Py.cell :=
  [Py.CStr code; Py.CStr name; Py.CStr "0035"; Py.CStr "Boston"; Py.CStr org].

Definition school_frame (rows : list (list Py.cell)) : source :=
  Frame {| df_columns := Schools.school_cols; df_data := rows |}.

(** Two attendance records, as the validator builds them. *)
Definition two_attendance_records : list Attendance.AttendanceRecord :=
  Attendance.extract_attendance_records
    (Frame {| df_columns := map fst (attendance_row (Py.CInt 2024) "00350000");
              df_data := [map snd (attendance_row (Py.CInt 2024) "00350000");
                          map snd (attendance_row (Py.CInt 2024) "00350005")] |}).

(** An environment in which the client is configured and created. *)
Definition good_env : environment :=
  {| SUPABASE_URL := Some "https://example.supabase.co";
     SUPABASE_SERVICE_KEY := Some "service-key";
     create_client := fun _ _ => true |}.

(** A file system holding the first two directory sources only. *)
Definition two_sources (a b : source) (path : string) : source :=
  if String.eqb path (nth 0 Schools.CSV_SOURCES "") then a
  else if String.eqb path (nth 1 Schools.CSV_SOURCES "") then b
  else FileMissing.

(** The last record of [l] filed under school id [k]. *)
Fixpoint last_with_id (k : string) (l : list Schools.SchoolRecord)
    : option Schools.SchoolRecord :=
  match l with
  | [] => None
  | r :: rest =>
      match last_with_id k rest with
      | Some r' => Some r'
      | None => if String.eqb (Schools.school_id r) k then Some r else None
      end
  end.

(** Every record the directory sources yield, in processing order. *)
Definition all_records (files : string -> source) (sources : list string)
    : list Schools.SchoolRecord :=
  flat_map (fun p => Schools.extract_schools_from_csv (Schools.basename p) (files p))
           sources.

(** The property of an identifier field that a validated record has. *)
Definition key_ok (s : string) : Prop :=
  s <> "" /\ s <> "nan" /\ Py.strip s = s.

Definition year_ok (y : option Z) : Prop :=
  exists n, y = Some n /\ 2000 <= n <= 2100.

(** The reasons a validator gave ([[]] for an accepted row). *)
Definition errors_of {A} (v : validation A) : list string :=
  match v with
  | Valid _ => []
  | Rejected errors => errors
  end.

(** A reason that concerns the school year. *)
Definition year_reason (e : string) : Prop :=
  e = missing_year_msg \/ exists n, e = invalid_year_msg n.

(** The inputs for which the coercion functions answer null without
    parsing: the empty text, the sentinel N, and the missing value. *)
Definition null_input (v : Py.cell) : bool :=
  match v with
  | Py.CStr s => String.eqb s "" || String.eqb s "N"
  | Py.CInt _ => false
  | Py.CNaN => true
  | Py.CNone => true
  end.

(** The specification's [parse_integer]: null for a null input or text
    that is not an integer once the thousands separators are taken out,
    the integer otherwise. *)
Definition spec_parse_integer (v : Py.cell) : option Z :=
  if null_input v then None
  else Py.int_of_str (Py.remove_char "," (Py.str v)).

(** The specification's [parse_decimal], with the percent signs and the
    thousands separators taken out. *)
Definition spec_parse_decimal (v : Py.cell) : option Py.pyfloat :=
  if null_input v then None
  else Py.float_of_str (Py.remove_char "," (Py.remove_char "%" (Py.str v))).

(** Decimal [m * 10^e], non-negative. *)
Definition dec (m e : Z) : Py.pyfloat := Py.FFinite false m e.

(** Every character of [s] satisfies [p]. *)
Fixpoint all_chars (p : ascii -> bool) (s : string) : bool :=
  match s with
  | EmptyString => true
  | String c r => p c && all_chars p r
  end.

Definition not_space (c : ascii) : bool := negb (Py.is_space c).

Definition not_c_space (c : ascii) : bool := negb (Py.is_c_space c).

Definition sign_or_digit (c : ascii) : bool := Py.is_digit c || Ascii.eqb c "-".


(** What the integer coercion of a domain has to do. *)
Definition integer_coercion_ok (parse : Py.cell -> option Z) : Prop :=
  (forall v, parse v = spec_parse_integer v)
  /\ parse (Py.CStr "") = None /\ parse (Py.CStr "N") = None
  /\ parse Py.CNaN = None /\ parse Py.CNone = None
  /\ (forall v, Py.int_of_str (Py.remove_char "," (Py.str v)) = None ->
                parse v = None)
  /\ (forall v, null_input v = false ->
                parse v = Py.int_of_str (Py.remove_char "," (Py.str v)))
  /\ (forall a b, parse (Py.CStr (a ++ "," ++ b)%string)
                  = parse (Py.CStr (a ++ b)%string))
  /\ (forall z, parse (Py.CStr (Py.str_of_int z)) = Some z)
  /\ (forall z, parse (Py.CInt z) = Some z)
  /\ parse (Py.CStr "1,234") = Some 1234
  /\ parse (Py.CStr "7") = Some 7
  /\ parse (Py.CStr "abc") = None.

(** What every decimal coercion does: the null inputs, percent signs
    dropped wherever they stand, the two examples, text that is no
    number. *)
Definition percent_coercion_ok (parse : Py.cell -> option Py.pyfloat) : Prop :=
  parse (Py.CStr "") = None /\ parse (Py.CStr "N") = None
  /\ parse Py.CNaN = None /\ parse Py.CNone = None
  /\ (forall s, parse (Py.CStr (s ++ "%")%string) = parse (Py.CStr s))
  /\ (forall a b, parse (Py.CStr (a ++ "%" ++ b)%string)
                  = parse (Py.CStr (a ++ b)%string))
  /\ parse (Py.CStr "93.2%") = Some (dec 932 (-1))
  /\ parse (Py.CStr "11.9") = Some (dec 119 (-1))
  /\ parse (Py.CStr "abc") = None.

(** What [parse_decimal] does on top of that: thousands separators are
    dropped too. *)
Definition comma_coercion_ok (parse : Py.cell -> option Py.pyfloat) : Prop :=
  (forall v, parse v = spec_parse_decimal v)
  /\ (forall a b, parse (Py.CStr (a ++ "," ++ b)%string)
                  = parse (Py.CStr (a ++ b)%string))
  /\ parse (Py.CStr "1,234.5") = Some (dec 12345 (-1)).

(** The school year as the attendance and assessment validators coerce
    it: [int(raw) if pd.notna(raw) else None], with [None] also when
    [int] raises. *)
Definition int_year (row : Py.row) : option Z :=
  let school_year_raw := Py.get row "SY" Py.CNone in
  if negb (Py.isna school_year_raw) then Py.int_of school_year_raw else None.

(** The school year as the enrollment validator coerces it. *)
Definition enrollment_year (row : Py.row) : option Z :=
  Enrollment.parse_int (Py.get row "SY" Py.CNone).

(** The rule a validator applies to the coerced school year [y], read off
    the reasons [errors] it gives: no reason concerns the year exactly
    when [y] is an integer in 2000..2100; an integer outside that range
    gets the range reason and not the missing-year reason; a year that
    could not be coerced gets the missing-year reason. *)
Definition year_rule (y : option Z) (errors : list string) : Prop :=
  ((forall e, In e errors -> ~ year_reason e) <-> year_ok y)
  /\ (forall n, y = Some n -> ~ (2000 <= n <= 2100) ->
        In (invalid_year_msg n) errors /\ ~ In missing_year_msg errors)
  /\ (y = None -> In missing_year_msg errors).

(** Key completeness of a validated record, domain by domain. *)
Definition attendance_keys_ok (r : Attendance.AttendanceRecord) : Prop :=
  year_ok (Attendance.school_year r)
  /\ key_ok (Attendance.attendance_period r)
  /\ key_ok (Attendance.school_id r)
  /\ key_ok (Attendance.student_group r).

Definition mcas_keys_ok (r : Mcas.McasRecord) : Prop :=
  year_ok (Mcas.school_year r)
  /\ key_ok (Mcas.school_id r)
  /\ key_ok (Mcas.test_grade r)
  /\ key_ok (Mcas.subject_code r)
  /\ key_ok (Mcas.student_group r).

Definition enrollment_keys_ok (r : Enrollment.EnrollmentRecord) : Prop :=
  year_ok (Enrollment.school_year r) /\ key_ok (Enrollment.school_id r).

Definition school_keys_ok (r : Schools.SchoolRecord) : Prop :=
  key_ok (Schools.school_id r)
  /\ key_ok (Schools.school_name r)
  /\ key_ok (Schools.district_code r)
  /\ key_ok (Schools.district_name r)
  /\ key_ok (Schools.org_type r)
  /\ In (Schools.org_type r) Schools.VALID_ORG_TYPES.

(** The two directory sources of the specification's example: both hold
    the school 1234, under different names. *)
Definition older_source : source :=
  school_frame [school_row "1234" "Old Name" "Public School";
                school_row "0042" "Other" "Charter School"].

Definition newer_source : source :=
  school_frame [school_row "1234" "New Name" "Public School"].

(** The state a dry run ends in: the sink as it was, no call made, and in
    the log the header, the dry-run notice, one sample line for each of
    the first five records, and the closing dots. *)
Definition dry_run_state (K : sink) {R : Type} (s : sink_state K)
    (records : list R) : load_state K R :=
  {| ls_sink := s; ls_calls := []; total_inserted := 0; total_errors := 0;
     ls_log := [LogHeader true (List.length records); LogDryRunMode]
               ++ map (fun p => LogSample (fst p) (snd p))
                      (combine (seq 1 (List.length (firstn 5 records)))
                               (firstn 5 records))
               ++ [LogEllipsis] |}.

(** The records a log previews. *)
Fixpoint sampled {R : Type} (log : list (log_event R)) : list R :=
  match log with
  | [] => []
  | LogSample _ r :: rest => r :: sampled rest
  | _ :: rest => sampled rest
  end.

(** The conflict target each kind of call carries: the batch call names
    the natural key, the single-record call names none. *)
Definition conflict_target_as_coded (natural_key : string) (c : upsert_call) : Prop :=
  match uc_payload c with
  | Rows _ => uc_on_conflict c = Some natural_key
  | OneRow _ => uc_on_conflict c = None
  end.

(** The rule the driver follows, stated on the records extracted, the
    loader's answer on them, and the driver's result. *)
Definition driver_rule {K : sink} {R : Type} (records : list R)
    (env : environment) (loader : Py.result (bool * load_state K R))
    (result : Py.result (run K R)) : Prop :=
  (records = [] ->
     result = Py.Ret {| exit_code := 1; clients_created := 0; loaded := None |})
  /\ (records <> [] -> fst (get_supabase_client env) = false ->
        exists n, result = Py.Ret {| exit_code := 1; clients_created := n;
                                     loaded := None |})
  /\ (records <> [] -> fst (get_supabase_client env) = true ->
        exists ok st r,
          loader = Py.Ret (ok, st) /\ result = Py.Ret r
          /\ loaded r = Some (ok, st)
          /\ (exit_code r = 0 <-> ok = true)
          /\ (exit_code r = 1 <-> ok = false)).

(** The records whose single upsert failed, as the log tells. *)
Fixpoint failed_records {R : Type} (log : list (log_event R)) : list pydict :=
  match log with
  | [] => []
  | LogRecordFailed d _ :: rest => d :: failed_records rest
  | _ :: rest => failed_records rest
  end.

Definition enrollment_records_sample : list Enrollment.EnrollmentRecord :=
  Enrollment.extract_enrollment_records
    (Frame {| df_columns := map fst (enrollment_row (Py.CInt 2024));
              df_data := [map snd (enrollment_row (Py.CInt 2024))] |}).

Definition schools_sample : Dict.t Schools.SchoolRecord :=
  fst (Schools.collect_all_schools (two_sources older_source newer_source)).

(* ====================================================================== *)
(** ** Reading the loader's call log *)
(* ====================================================================== *)

(** The batches sent by the batch calls among [calls], in call order. *)
Fixpoint batch_payloads (calls : list upsert_call) : list (list pydict) :=
  match calls with
  | [] => []
  | c :: rest =>
      match uc_payload c with
      | Rows b => b :: batch_payloads rest
      | OneRow _ => batch_payloads rest
      end
  end.

(** The records sent by the single-record calls among [calls]. *)
Fixpoint single_payloads (calls : list upsert_call) : list pydict :=
  match calls with
  | [] => []
  | c :: rest =>
      match uc_payload c with
      | Rows _ => single_payloads rest
      | OneRow d => d :: single_payloads rest
      end
  end.

(** The batch call and the fallback call as the loader writes them. *)
Definition batch_call (table conflict_target : string) (batch : list pydict)
    : upsert_call :=
  {| uc_table := table; uc_payload := Rows batch;
     uc_on_conflict := Some conflict_target |}.

Definition single_call (table : string) (record : pydict) : upsert_call :=
  {| uc_table := table; uc_payload := OneRow record; uc_on_conflict := None |}.

(** A sink that accepts every call and keeps the calls it received. *)
Definition accepting_sink : sink :=
  {| sink_state := list upsert_call;
     execute := fun received c => (received ++ [c], None) |}.

(** A sink that refuses every batch of more than [limit] rows and accepts
    everything else; its state counts the rows it stored. *)
Definition size_limited_sink (limit : nat) : sink :=
  {| sink_state := nat;
     execute := fun stored c =>
       match uc_payload c with
       | Rows b =>
           if (limit <? List.length b)%nat then (stored, Some "payload too large")
           else ((stored + List.length b)%nat, None)
       | OneRow _ => (S stored, None)
       end |}.

(** What the loader's counters and call log satisfy at every turn of the
    batch loop. *)
Definition tally_ok {K : sink} {R : Type} (st : load_state K R) : Prop :=
  (total_inserted st + total_errors st
   = List.length (List.concat (batch_payloads (ls_calls st)))
     + List.length (single_payloads (ls_calls st)))%nat
  /\ (total_inserted st
      <= List.length (List.concat (batch_payloads (ls_calls st))))%nat
  /\ (total_errors st = O -> single_payloads (ls_calls st) = []).

(** The slices [record_dicts[i:i+k]] for i = 0, k, 2k, ... *)
Definition slices {A : Type} (k : nat) (l : list A) : list (list A) :=
  map (fun j => firstn k (skipn (j * k) l))
      (seq 0 ((List.length l + k - 1) / k)).

(** Five attendance records. *)
Definition five_attendance_records : list Attendance.AttendanceRecord :=
  two_attendance_records ++ two_attendance_records
  ++ firstn 1 two_attendance_records.

(* ====================================================================== *)
(** ** Reading the validators' verdicts *)
(* ====================================================================== *)

(** The trimmed text of an identifier cell, as every validator takes it:
    [str(row.get(col, '')).strip()]. *)
Definition text_of (row : Py.row) (col : string) : string :=
  Py.strip (Py.str (Py.get row col (Py.CStr ""))).

(** Two rows hold the same cell in column [col]. *)
Definition same_cell (row row' : Py.row) (col : string) : Prop :=
  forall default, Py.get row col default = Py.get row' col default.

(** The organization type a directory row is given before the checks. *)
Definition org_type_of (row : Py.row) : string :=
  let raw := text_of row "ORG_TYPE" in
  if negb (Py.is_empty raw) && negb (String.eqb raw "nan")
  then Schools.normalize_org_type raw else "".

Definition attendance_key_columns : list string :=
  ["SY"; "ATTEND_PERIOD"; "ORG_CODE"; "STU_GRP"].

Definition mcas_key_columns : list string :=
  ["SY"; "ORG_CODE"; "TEST_GRADE"; "SUBJECT_CODE"; "STU_GRP"].

Definition enrollment_key_columns : list string := ["SY"; "ORG_CODE"].

(** Every entry of a dictionary outside the fields [keys] is null. *)
Definition null_outside (keys : list string) (d : pydict) : Prop :=
  Forall (fun kv => In (fst kv) keys \/ snd kv = VNull) d.

(** An attendance row that has its key columns only. *)
Definition attendance_keys_only_row : Py.row :=
  [("SY", Py.CInt 2024); ("ATTEND_PERIOD", Py.CStr "End of year");
   ("ORG_CODE", Py.CStr "00350000"); ("STU_GRP", Py.CStr "All")].

(** The ids of [ids] in the order in which each is met first, leaving out
    those already in [seen]. *)
Fixpoint first_seen (seen : list string) (ids : list string) : list string :=
  match ids with
  | [] => []
  | k :: rest =>
      if existsb (String.eqb k) seen then first_seen seen rest
      else k :: first_seen (seen ++ [k]) rest
  end.

(** The extraction loop with both of its accumulators, as the scripts
    write it: a valid record is appended to [valid_records], an invalid
    row adds one to [invalid_count]. *)
Definition extract_loop {A} (validate : Py.row -> validation A)
    (rows : list Py.row) : list A * nat :=
  fold_left
    (fun acc row =>
       match validate row with
       | Valid record => (fst acc ++ [record], snd acc)
       | Rejected _ => (fst acc, S (snd acc))
       end)
    rows ([], O).

(** The comma-separated names of a conflict target. *)
Fixpoint split_commas (s : string) : list string :=
  match s with
  | EmptyString => [EmptyString]
  | String c r =>
      if Ascii.eqb c "," then EmptyString :: split_commas r
      else match split_commas r with
           | [] => [String c EmptyString]
           | h :: t => String c h :: t
           end
  end.

(** A value fit for a key column: a year in range or a clean text. *)
Definition key_value_ok (v : pyval) : Prop :=
  match v with
  | VStr s => key_ok s
  | VInt n => 2000 <= n <= 2100
  | VFloat _ => False
  | VNull => False
  end.

(** Every column of the conflict target [target] is an entry of [d] with
    a value fit for a key. *)
Definition conflict_columns_filled (target : string) (d : pydict) : Prop :=
  Forall (fun col => exists v, Dict.get d col = Some v /\ key_value_ok v)
         (split_commas target).

(** The sink state reached by executing [calls] in order from [s]. *)
Definition replay (K : sink) (s : sink_state K) (calls : list upsert_call)
    : sink_state K :=
  fold_left (fun s c => fst (execute K s c)) calls s.

(** What holds between two batches of a live run started on the sink
    state [s0]: the inserted count and the failures logged account for
    every record sent in a batch; the error count is the records retried
    plus the failures logged; the sink is where the calls made so far have
    brought it. *)
Definition settled (K : sink) {R : Type} (s0 : sink_state K)
    (st : load_state K R) : Prop :=
  (total_inserted st + List.length (failed_records (ls_log st))
   = List.length (List.concat (batch_payloads (ls_calls st))))%nat
  /\ (total_errors st
      = List.length (single_payloads (ls_calls st))
        + List.length (failed_records (ls_log st)))%nat
  /\ ls_sink st = replay K s0 (ls_calls st).

(** A file system holding the first three directory sources only. *)
Definition three_sources (a b c : source) (path : string) : source :=
  if String.eqb path (nth 0 Schools.CSV_SOURCES "") then a
  else if String.eqb path (nth 1 Schools.CSV_SOURCES "") then b
  else if String.eqb path (nth 2 Schools.CSV_SOURCES "") then c
  else FileMissing.

(** A third directory source that holds the school 1234 under yet another
    name. *)
Definition newest_source : source :=
  school_frame [school_row "1234" "Newest Name" "Public School"].

(** The record a directory source gives for school 1234 under [name]. *)
Definition school_1234 (name file : string) : Schools.SchoolRecord :=
  {| Schools.school_id := "1234";
     Schools.school_name := name;
     Schools.district_code := "0035";
     Schools.district_name := "Boston";
     Schools.org_type := "School";
     Schools.source_file := file |}.
(* ====================================================================== *)
(** ** Facts about the built-ins *)
(* ====================================================================== *)

Section TextFacts.

Lemma append_empty_r (s : string) : (s ++ "")%string = s.
Proof. induction s as [|c r IH]; simpl; [reflexivity | now rewrite IH]. Qed.

Lemma remove_char_app (x : ascii) (a b : string) :
  Py.remove_char x (a ++ b)%string
  = (Py.remove_char x a ++ Py.remove_char x b)%string.
Proof.
  induction a as [|c r IH]; simpl; [reflexivity|].
  destruct (Ascii.eqb c x); simpl; now rewrite IH.
Qed.

Lemma remove_char_absent (x : ascii) (s : string) :
  all_chars (fun c => negb (Ascii.eqb c x)) s = true ->
  Py.remove_char x s = s.
Proof.
  induction s as [|c r IH]; simpl; [reflexivity|].
  intros H. apply andb_prop in H as [Hc Hr].
  destruct (Ascii.eqb c x); [discriminate|]. now rewrite IH.
Qed.

Lemma all_chars_impl (p q : ascii -> bool) (s : string) :
  (forall c, p c = true -> q c = true) ->
  all_chars p s = true -> all_chars q s = true.
Proof.
  intros Hpq. induction s as [|c r IH]; simpl; [reflexivity|].
  intros H. apply andb_prop in H as [Hc Hr].
  now rewrite (Hpq _ Hc), IH.
Qed.

Lemma lstrip_no_space (s : string) :
  all_chars not_space s = true -> Py.lstrip s = s.
Proof.
  destruct s as [|c r]; simpl; [reflexivity|].
  unfold not_space. destruct (Py.is_space c); [discriminate | reflexivity].
Qed.

Lemma rstrip_no_space (s : string) :
  all_chars not_space s = true -> Py.rstrip s = s.
Proof.
  induction s as [|c r IH]; simpl; [reflexivity|].
  intros H. apply andb_prop in H as [Hc Hr].
  rewrite (IH Hr). unfold not_space in Hc.
  destruct r; [|reflexivity].
  destruct (Py.is_space c); [discriminate | reflexivity].
Qed.

Lemma strip_no_space (s : string) :
  all_chars not_space s = true -> Py.strip s = s.
Proof.
  intros H. unfold Py.strip. rewrite (lstrip_no_space _ H).
  now apply rstrip_no_space.
Qed.

Lemma c_strip_no_space (s : string) :
  all_chars not_c_space s = true -> Py.c_strip s = s.
Proof.
  intros H. unfold Py.c_strip.
  assert (Hl : Py.c_lstrip s = s).
  { destruct s as [|c r]; simpl; [reflexivity|].
    simpl in H. unfold not_c_space in H.
    destruct (Py.is_c_space c); [discriminate | reflexivity]. }
  rewrite Hl. clear Hl.
  induction s as [|c r IH]; simpl; [reflexivity|].
  simpl in H. apply andb_prop in H as [Hc Hr].
  rewrite (IH Hr). unfold not_c_space in Hc.
  destruct r; [|reflexivity].
  destruct (Py.is_c_space c); [discriminate | reflexivity].
Qed.

(** [rstrip] either empties the text or keeps its first character. *)
Lemma rstrip_cons (c : ascii) (r : string) :
  (Py.rstrip (String c r) = "" /\ Py.is_space c = true /\ Py.rstrip r = "")
  \/ Py.rstrip (String c r) = String c (Py.rstrip r).
Proof.
  simpl. destruct (Py.rstrip r) eqn:E.
  - destruct (Py.is_space c); [left | right]; auto.
  - right; reflexivity.
Qed.

Lemma rstrip_idem (s : string) : Py.rstrip (Py.rstrip s) = Py.rstrip s.
Proof.
  induction s as [|c r IH]; [reflexivity|].
  destruct (rstrip_cons c r) as [[E _] | E]; rewrite E; [reflexivity|].
  destruct (rstrip_cons c (Py.rstrip r)) as [[E' [Hc Hr]] | E'].
  - rewrite IH in Hr. simpl in E. rewrite Hr, Hc in E. discriminate.
  - rewrite E', IH. reflexivity.
Qed.

Lemma lstrip_head (s : string) :
  Py.lstrip s = ""
  \/ exists c r, Py.lstrip s = String c r /\ Py.is_space c = false.
Proof.
  induction s as [|c r IH]; simpl; [now left|].
  destruct (Py.is_space c) eqn:E; [exact IH|].
  right. now exists c, r.
Qed.

(** [strip] is idempotent: a stripped text is trimmed. *)
Lemma strip_idem (s : string) : Py.strip (Py.strip s) = Py.strip s.
Proof.
  unfold Py.strip.
  assert (H : Py.lstrip (Py.rstrip (Py.lstrip s)) = Py.rstrip (Py.lstrip s)).
  { destruct (lstrip_head s) as [E | (c & r & E & Hc)]; rewrite E.
    - reflexivity.
    - destruct (rstrip_cons c r) as [[_ [Hs _]] | E'].
      + congruence.
      + rewrite E'. simpl. now rewrite Hc. }
  rewrite H. apply rstrip_idem.
Qed.

End TextFacts.

Section ContainsFacts.

Variable needle : string.
Hypothesis needle_no_space : all_chars not_space needle = true.
Hypothesis needle_not_empty : needle <> "".

Lemma prefix_rstrip (n t : string) :
  all_chars not_space n = true ->
  String.prefix n (Py.rstrip t) = String.prefix n t.
Proof.
  revert n. induction t as [|c r IH]; intros n Hn; [reflexivity|].
  destruct (rstrip_cons c r) as [[E [Hc _]] | E]; rewrite E.
  - destruct n as [|a n']; [reflexivity|]. simpl.
    destruct (ascii_dec a c) as [->|]; [|reflexivity].
    simpl in Hn. unfold not_space in Hn. rewrite Hc in Hn. discriminate.
  - destruct n as [|a n']; [reflexivity|]. simpl.
    destruct (ascii_dec a c); [|reflexivity].
    apply IH. simpl in Hn. now apply andb_prop in Hn as [_ Hn].
Qed.

Lemma prefix_space_head (c : ascii) (r : string) :
  Py.is_space c = true -> String.prefix needle (String c r) = false.
Proof.
  intros Hc. destruct needle as [|a n'] eqn:E; [congruence|]. simpl.
  destruct (ascii_dec a c) as [->|]; [|reflexivity].
  simpl in needle_no_space. unfold not_space in needle_no_space.
  rewrite Hc in needle_no_space. discriminate.
Qed.

Lemma contains_empty : Py.contains needle "" = false.
Proof. destruct needle; [congruence | reflexivity]. Qed.

Lemma contains_lstrip (t : string) :
  Py.contains needle (Py.lstrip t) = Py.contains needle t.
Proof.
  induction t as [|c r IH]; [reflexivity|].
  simpl Py.lstrip. destruct (Py.is_space c) eqn:Hc; [|reflexivity].
  rewrite IH. change (Py.contains needle (String c r))
    with (String.prefix needle (String c r) || Py.contains needle r).
  now rewrite prefix_space_head.
Qed.

Lemma contains_rstrip (t : string) :
  Py.contains needle (Py.rstrip t) = Py.contains needle t.
Proof.
  induction t as [|c r IH]; [reflexivity|].
  change (Py.contains needle (String c r))
    with (String.prefix needle (String c r) || Py.contains needle r).
  destruct (rstrip_cons c r) as [[E [Hc Hr]] | E]; rewrite E.
  - rewrite prefix_space_head by assumption.
    rewrite <- IH, Hr. reflexivity.
  - change (Py.contains needle (String c (Py.rstrip r)))
      with (String.prefix needle (String c (Py.rstrip r))
            || Py.contains needle (Py.rstrip r)).
    rewrite IH. f_equal.
    change (String c (Py.rstrip r)) with (String c (Py.rstrip r)).
    rewrite <- E. apply prefix_rstrip. exact needle_no_space.
Qed.

(** Trimming does not change whether a text holds a needle that has no
    white space in it. *)
Lemma contains_strip (t : string) :
  Py.contains needle (Py.strip t) = Py.contains needle t.
Proof. unfold Py.strip. now rewrite contains_rstrip, contains_lstrip. Qed.

End ContainsFacts.

Section IntFacts.

Lemma digit_char_ok (d : Z) :
  0 <= d < 10 ->
  Py.is_digit (Py.digit_char d) = true /\ Py.digit_val (Py.digit_char d) = d.
Proof.
  intros H.
  assert (E : d = 0 \/ d = 1 \/ d = 2 \/ d = 3 \/ d = 4 \/ d = 5 \/ d = 6
              \/ d = 7 \/ d = 8 \/ d = 9) by lia.
  repeat (destruct E as [-> | E]; [split; reflexivity|]).
  subst; split; reflexivity.
Qed.

Lemma show_digits_chars (p : ascii -> bool) (fuel : nat) (n : Z) (rest : string) :
  (forall c, Py.is_digit c = true -> p c = true) ->
  0 <= n -> all_chars p rest = true ->
  all_chars p (Py.show_digits fuel n rest) = true.
Proof.
  intros Hp. revert n rest. induction fuel as [|f IH]; intros n rest Hn Hr.
  - exact Hr.
  - simpl.
    assert (Hd : all_chars p (String (Py.digit_char (n mod 10)) rest) = true).
    { simpl. rewrite Hr, Hp; [reflexivity|].
      apply digit_char_ok. apply Z.mod_pos_bound. lia. }
    destruct (n <? 10); [exact Hd|].
    apply IH; [apply Z.div_pos; lia | exact Hd].
Qed.

(** Reading back what [show_digits] printed. *)
Lemma digits_us_show (f : nat) : forall (n : Z) (rest : string),
  0 <= n < 2 ^ Z.of_nat (S f) ->
  exists k, 0 <= k /\
    forall b a, Py.digits_us b a (Py.show_digits (S f) n rest)
                = Py.digits_us true (a * 10 ^ k + n) rest.
Proof.
  induction f as [|f IH]; intros n rest Hn;
    (destruct (digit_char_ok (n mod 10)) as [Hd Hv];
      [apply Z.mod_pos_bound; lia|]).
  - exists 1. split; [lia|]. intros b a.
    change (2 ^ Z.of_nat 1) with 2 in Hn.
    assert (Hlt : (n <? 10) = true) by (apply Z.ltb_lt; lia).
    simpl. rewrite Hlt. simpl. rewrite Hd, Hv.
    rewrite Z.mod_small by lia. f_equal; lia.
  - remember (S f) as g eqn:Hg. simpl.
    destruct (n <? 10) eqn:Hlt.
    + exists 1. split; [lia|]. intros b a. simpl. rewrite Hd, Hv.
      apply Z.ltb_lt in Hlt. rewrite Z.mod_small by lia. f_equal; lia.
    + apply Z.ltb_ge in Hlt.
      destruct (IH (n / 10) (String (Py.digit_char (n mod 10)) rest))
        as (k & Hk & Hread).
      { subst g. split; [apply Z.div_pos; lia|].
        apply Z.div_lt_upper_bound; [lia|].
        rewrite Nat2Z.inj_succ, Z.pow_succ_r in Hn by lia.
        assert (0 < 2 ^ Z.of_nat (S f)) by (apply Z.pow_pos_nonneg; lia).
        lia. }
      exists (k + 1). split; [lia|]. intros b a.
      rewrite Hread. simpl. rewrite Hd, Hv. f_equal.
      rewrite Z.pow_add_r by lia.
      pose proof (Z.div_mod n 10 ltac:(lia)). lia.
Qed.

Lemma show_nonneg_read (n : Z) :
  0 <= n -> Py.digits_us false 0 (Py.show_nonneg n) = Some n.
Proof.
  intros Hn. unfold Py.show_nonneg.
  destruct (digits_us_show (Z.to_nat (Z.log2 n)) n "") as (k & _ & H).
  - split; [lia|].
    rewrite Nat2Z.inj_succ, Z2Nat.id by apply Z.log2_nonneg.
    destruct (Z.eq_dec n 0) as [-> | Hz]; [reflexivity|].
    apply Z.log2_spec. lia.
  - rewrite H. simpl. f_equal; lia.
Qed.

Lemma show_nonneg_head (n : Z) :
  0 <= n ->
  exists c r, Py.show_nonneg n = String c r /\ Py.is_digit c = true.
Proof.
  intros Hn.
  pose proof (show_nonneg_read n Hn) as Hr.
  pose proof (show_digits_chars Py.is_digit (S (Z.to_nat (Z.log2 n))) n ""
                (fun c H => H) Hn eq_refl) as Hc.
  fold (Py.show_nonneg n) in Hc.
  destruct (Py.show_nonneg n) as [|c r]; [discriminate|].
  exists c, r. split; [reflexivity|].
  simpl in Hc. now apply andb_prop in Hc as [Hc _].
Qed.

Lemma split_sign_digit (c : ascii) (r : string) :
  Py.is_digit c = true -> Py.split_sign (String c r) = (false, String c r).
Proof.
  destruct c as [[] [] [] [] [] [] [] []]; intros H;
    try discriminate H; reflexivity.
Qed.

Lemma digit_sign_or_digit (c : ascii) :
  Py.is_digit c = true -> sign_or_digit c = true.
Proof. intros H. unfold sign_or_digit. now rewrite H. Qed.

Lemma sign_or_digit_plain (c : ascii) :
  sign_or_digit c = true ->
  not_space c = true /\ negb (Ascii.eqb c ",") = true
  /\ Ascii.eqb c "N" = false.
Proof.
  destruct c as [[] [] [] [] [] [] [] []]; intros H;
    try discriminate H; repeat split.
Qed.

Lemma sign_or_digit_no_c_space (c : ascii) :
  sign_or_digit c = true -> not_c_space c = true.
Proof.
  destruct c as [[] [] [] [] [] [] [] []]; intros H;
    try discriminate H; reflexivity.
Qed.

Lemma str_of_int_chars (z : Z) :
  all_chars sign_or_digit (Py.str_of_int z) = true.
Proof.
  unfold Py.str_of_int. destruct (z <? 0) eqn:E.
  - simpl. apply Z.ltb_lt in E.
    apply show_digits_chars; [apply digit_sign_or_digit | lia | reflexivity].
  - apply Z.ltb_ge in E.
    apply show_digits_chars; [apply digit_sign_or_digit | lia | reflexivity].
Qed.

(** [int(str(z)) == z] for every integer. *)
Lemma int_of_str_of_int (z : Z) : Py.int_of_str (Py.str_of_int z) = Some z.
Proof.
  unfold Py.int_of_str.
  rewrite c_strip_no_space.
  2:{ apply all_chars_impl with (p := sign_or_digit);
        [exact sign_or_digit_no_c_space | apply str_of_int_chars]. }
  unfold Py.str_of_int. destruct (z <? 0) eqn:E.
  - apply Z.ltb_lt in E. simpl.
    rewrite show_nonneg_read by lia. f_equal. lia.
  - apply Z.ltb_ge in E.
    destruct (show_nonneg_head z E) as (c & r & Hs & Hc).
    rewrite Hs, (split_sign_digit c r Hc), <- Hs.
    now rewrite show_nonneg_read.
Qed.

Lemma str_of_int_no_comma (z : Z) :
  Py.remove_char "," (Py.str_of_int z) = Py.str_of_int z.
Proof.
  apply remove_char_absent.
  apply all_chars_impl with (p := sign_or_digit);
    [intros c H; apply (sign_or_digit_plain c H) | apply str_of_int_chars].
Qed.

Lemma str_of_int_not_sentinel (z : Z) :
  String.eqb (Py.str_of_int z) "" = false
  /\ String.eqb (Py.str_of_int z) "N" = false.
Proof.
  pose proof (str_of_int_chars z) as H.
  assert (Hne : exists c r, Py.str_of_int z = String c r).
  { unfold Py.str_of_int. destruct (z <? 0) eqn:E; [eauto|].
    apply Z.ltb_ge in E.
    destruct (show_nonneg_head z E) as (c & r & Hs & _). eauto. }
  destruct Hne as (c & r & Hs). rewrite Hs in *. split; [reflexivity|].
  simpl in H. apply andb_prop in H as [Hc _].
  destruct (sign_or_digit_plain c Hc) as (_ & _ & HN).
  simpl. now rewrite HN.
Qed.

End IntFacts.

(* ====================================================================== *)
(** ** Field coercion *)
(* ====================================================================== *)

Section Coercion.

Lemma null_input_guard (v : Py.cell) :
  Py.isna v || Py.eq_text v "" || Py.eq_text v "N" = null_input v.
Proof. destruct v; reflexivity. Qed.

Lemma spec_parse_integer_text (s : string) :
  spec_parse_integer (Py.CStr s) = Py.int_of_str (Py.remove_char "," s).
Proof.
  unfold spec_parse_integer. simpl.
  destruct (String.eqb_spec s "") as [-> | _]; [reflexivity|].
  destruct (String.eqb_spec s "N") as [-> | _]; reflexivity.
Qed.

Lemma spec_parse_decimal_text (s : string) :
  spec_parse_decimal (Py.CStr s)
  = Py.float_of_str (Py.remove_char "," (Py.remove_char "%" s)).
Proof.
  unfold spec_parse_decimal. simpl.
  destruct (String.eqb_spec s "") as [-> | _]; [reflexivity|].
  destruct (String.eqb_spec s "N") as [-> | _]; reflexivity.
Qed.

Lemma integer_coercion_of_spec (parse : Py.cell -> option Z) :
  (forall v, parse v = spec_parse_integer v) -> integer_coercion_ok parse.
Proof.
  intros H. unfold integer_coercion_ok.
  split; [exact H|].
  repeat split; try (rewrite H; reflexivity).
  - intros v Hv. rewrite H. unfold spec_parse_integer.
    now destruct (null_input v).
  - intros v Hv. rewrite H. unfold spec_parse_integer. now rewrite Hv.
  - intros a b. rewrite !H, !spec_parse_integer_text.
    now rewrite !remove_char_app.
  - intros z. rewrite H, spec_parse_integer_text, str_of_int_no_comma.
    apply int_of_str_of_int.
  - intros z. rewrite H. unfold spec_parse_integer. simpl.
    rewrite str_of_int_no_comma. apply int_of_str_of_int.
Qed.

Lemma enrollment_parse_int_spec (v : Py.cell) :
  Enrollment.parse_int v = spec_parse_integer v.
Proof.
  unfold Enrollment.parse_int, spec_parse_integer.
  now rewrite null_input_guard.
Qed.

Lemma mcas_parse_int_spec (v : Py.cell) :
  Mcas.parse_int v = spec_parse_integer v.
Proof.
  unfold Mcas.parse_int, spec_parse_integer. now rewrite null_input_guard.
Qed.

Lemma attendance_parse_decimal_spec (v : Py.cell) :
  Attendance.parse_decimal v = spec_parse_decimal v.
Proof.
  unfold Attendance.parse_decimal, spec_parse_decimal.
  now rewrite null_input_guard.
Qed.

Lemma mcas_parse_decimal_spec (v : Py.cell) :
  Mcas.parse_decimal v = spec_parse_decimal v.
Proof.
  unfold Mcas.parse_decimal, spec_parse_decimal.
  now rewrite null_input_guard.
Qed.

Lemma parse_pct_text (s : string) :
  Enrollment.parse_pct (Py.CStr s) = Py.float_of_str (Py.remove_char "%" s).
Proof.
  unfold Enrollment.parse_pct. simpl.
  destruct (String.eqb_spec s "") as [-> | _]; [reflexivity|].
  destruct (String.eqb_spec s "N") as [-> | _]; reflexivity.
Qed.

Lemma comma_coercion_of_spec (parse : Py.cell -> option Py.pyfloat) :
  (forall v, parse v = spec_parse_decimal v) -> comma_coercion_ok parse.
Proof.
  intros H. split; [exact H|]. split; [|rewrite H; reflexivity].
  intros a b. rewrite !H, !spec_parse_decimal_text.
  now rewrite !remove_char_app.
Qed.

Lemma percent_coercion_of_spec (parse : Py.cell -> option Py.pyfloat) :
  (forall v, parse v = spec_parse_decimal v) -> percent_coercion_ok parse.
Proof.
  intros H. unfold percent_coercion_ok.
  repeat split; try (rewrite H; reflexivity).
  - intros s. rewrite !H, !spec_parse_decimal_text.
    rewrite remove_char_app. simpl. now rewrite append_empty_r.
  - intros a b. rewrite !H, !spec_parse_decimal_text.
    now rewrite !remove_char_app.
Qed.

Lemma percent_coercion_parse_pct : percent_coercion_ok Enrollment.parse_pct.
Proof.
  unfold percent_coercion_ok. repeat split; try reflexivity.
  - intros s. rewrite !parse_pct_text, remove_char_app. simpl.
    now rewrite append_empty_r.
  - intros a b. rewrite !parse_pct_text. now rewrite !remove_char_app.
Qed.

End Coercion.

(** C3 (as amended).  The decimal coercions answer null for the empty
    text, the sentinel N and the missing value, drop every percent sign
    (a trailing one in particular) before parsing, and give 93.2 for
    "93.2%" and 11.9 for "11.9".  [parse_decimal] of the attendance and
    assessment domains drops thousands separators as well, so "1,234.5"
    gives 1234.5 there; [parse_pct] of the enrollment domain drops percent
    signs only, and "1,234.5" gives null. *)
Theorem C3_decimal_coercion :
  percent_coercion_ok Attendance.parse_decimal
  /\ comma_coercion_ok Attendance.parse_decimal
  /\ percent_coercion_ok Mcas.parse_decimal
  /\ comma_coercion_ok Mcas.parse_decimal
  /\ percent_coercion_ok Enrollment.parse_pct
  /\ (forall s, Enrollment.parse_pct (Py.CStr s)
                = Py.float_of_str (Py.remove_char "%" s))
  /\ Enrollment.parse_pct (Py.CStr "1,234.5") = None.
Proof.
  split; [apply percent_coercion_of_spec, attendance_parse_decimal_spec|].
  split; [apply comma_coercion_of_spec, attendance_parse_decimal_spec|].
  split; [apply percent_coercion_of_spec, mcas_parse_decimal_spec|].
  split; [apply comma_coercion_of_spec, mcas_parse_decimal_spec|].
  split; [apply percent_coercion_parse_pct|].
  split; [exact parse_pct_text | reflexivity].
Qed.

(** C3, as the claim has it, fails in the enrollment domain: [parse_pct]
    leaves the thousands separator in, and "1,234.5" gives null, not
    1234.5. *)
Lemma C3_parse_pct_keeps_commas :
  Enrollment.parse_pct (Py.CStr "1,234.5") = None
  /\ Enrollment.parse_pct (Py.CStr "1,234.5") <> Some (dec 12345 (-1)).
Proof. split; [reflexivity | discriminate]. Qed.

(** C4.  In both domains that have it, [parse_int] is the specification's
    integer coercion: null for the empty text, the sentinel N, the missing
    value and whatever does not parse as an integer; otherwise the integer
    parsed once the thousands separators are out.  No range is checked:
    every integer printed in decimal comes back as itself. *)
Theorem C4_integer_coercion :
  integer_coercion_ok Enrollment.parse_int
  /\ integer_coercion_ok Mcas.parse_int.
Proof.
  split; apply integer_coercion_of_spec;
    [exact enrollment_parse_int_spec | exact mcas_parse_int_spec].
Qed.

(** C4 at work: a year written with a separator, and an integer far
    outside any plausible range. *)
Lemma C4_integer_coercion_witness :
  Enrollment.parse_int (Py.CStr "2,024") = Some 2024
  /\ Mcas.parse_int (Py.CStr (Py.str_of_int (-123456789012345678901234567890)))
     = Some (-123456789012345678901234567890).
Proof.
  destruct C4_integer_coercion as [He Hm].
  split.
  - destruct He as (_ & _ & _ & _ & _ & _ & Hnn & _).
    rewrite (Hnn (Py.CStr "2,024") eq_refl). reflexivity.
  - destruct Hm as (_ & _ & _ & _ & _ & _ & _ & _ & Hz & _).
    apply Hz.
Defined.

(* ====================================================================== *)
(** ** Row validation *)
(* ====================================================================== *)

Section Validation.

Lemma append_if_app (b : bool) (msg : string) (errors : list string) :
  append_if b msg errors = errors ++ (if b then [msg] else []).
Proof. destruct b; simpl; [reflexivity | now rewrite app_nil_r]. Qed.

Lemma invalid_not_missing (n : Z) : invalid_year_msg n <> missing_year_msg.
Proof. unfold invalid_year_msg, missing_year_msg. simpl. discriminate. Qed.

Lemma check_school_year_cases (y : option Z) :
  (y = None /\ check_school_year y [] = [missing_year_msg])
  \/ (exists n, y = Some n /\ 2000 <= n <= 2100 /\ check_school_year y [] = [])
  \/ (exists n, y = Some n /\ ~ (2000 <= n <= 2100)
                /\ check_school_year y [] = [invalid_year_msg n]).
Proof.
  destruct y as [n|]; [|left; auto]. right. simpl.
  destruct (n <? 2000) eqn:E1; simpl.
  - right. exists n. apply Z.ltb_lt in E1.
    split; [reflexivity|]. split; [lia | reflexivity].
  - apply Z.ltb_ge in E1. rewrite Z.gtb_ltb.
    destruct (2100 <? n) eqn:E2.
    + right. exists n. apply Z.ltb_lt in E2.
      split; [reflexivity|]. split; [lia | reflexivity].
    + left. exists n. apply Z.ltb_ge in E2.
      split; [reflexivity|]. split; [lia | reflexivity].
Qed.

Lemma year_rule_of_errors (y : option Z) (errors ids : list string) :
  errors = check_school_year y [] ++ ids ->
  Forall (fun e => ~ year_reason e) ids ->
  year_rule y errors.
Proof.
  intros -> Hids. rewrite Forall_forall in Hids.
  destruct (check_school_year_cases y)
    as [[-> E] | [(n & -> & Hn & E) | (n & -> & Hn & E)]]; rewrite E.
  - split; [|split].
    + split.
      * intros H. exfalso. apply (H missing_year_msg); [now left | now left].
      * intros (n & Hn & _). discriminate.
    + intros n Hn. discriminate.
    + intros _. now left.
  - split; [|split].
    + split; [intros _; now exists n | intros _ e He; now apply Hids].
    + intros m Hm Hr. injection Hm as <-. contradiction.
    + discriminate.
  - split; [|split].
    + split.
      * intros H. exfalso. apply (H (invalid_year_msg n)); [now left|].
        right. now exists n.
      * intros (m & Hm & Hr). injection Hm as <-. contradiction.
    + intros m Hm _. injection Hm as <-. split; [now left|].
      intros [H | H]; [now apply (invalid_not_missing n)|].
      apply (Hids _ H). now left.
    + discriminate.
Qed.

Lemma check_school_year_nil (y : option Z) :
  check_school_year y [] = [] -> year_ok y.
Proof.
  intros H.
  destruct (check_school_year_cases y)
    as [[_ E] | [(n & -> & Hn & _) | (n & _ & _ & E)]];
    try (rewrite E in H; discriminate).
  now exists n.
Qed.

Lemma blank_false (s : string) :
  blank (Py.strip s) = false -> key_ok (Py.strip s).
Proof.
  unfold blank, key_ok. intros H. apply orb_false_elim in H as [H1 H2].
  repeat split.
  - intros E. rewrite E in H1. discriminate.
  - intros E. rewrite E in H2. discriminate.
  - apply strip_idem.
Qed.

Lemma app_nil_both {A} (a b : list A) : a ++ b = [] -> a = [] /\ b = [].
Proof. destruct a; simpl; [auto | discriminate]. Qed.

Lemma flag_nil (b : bool) (msg : string) :
  (if b then [msg] else []) = [] -> b = false.
Proof. destruct b; [discriminate | reflexivity]. Qed.

Lemma validate_rows_Forall {A} (validate : Py.row -> validation A)
    (P : A -> Prop) (rows : list Py.row) :
  (forall row r, validate row = Valid r -> P r) ->
  Forall P (validate_rows validate rows).
Proof.
  intros H. induction rows as [|row rest IH]; simpl; [constructor|].
  destruct (validate row) eqn:E; [constructor; eauto | exact IH].
Qed.

End Validation.

(** An identifier reason is no year reason. *)
Ltac not_year_reason :=
  let H := fresh in
  intros [H | [? H]];
  [ unfold missing_year_msg in H; discriminate H
  | unfold invalid_year_msg in H; simpl in H; discriminate H ].

(** Splits the reasons of a validator into the year's and the rest. *)
Ltac split_reasons :=
  cbv zeta; rewrite !append_if_app; repeat rewrite <- app_assoc;
  match goal with
  | |- exists ids, errors_of (match ?e with _ => _ end) = _ /\ _ =>
      match e with
      | _ ++ ?rest =>
          exists rest; split;
          [ destruct e; reflexivity
          | repeat match goal with
              | |- context [if ?b then [_] else []] => destruct b
              end;
            simpl; repeat constructor; not_year_reason ]
      end
  end.

Section YearRule.

Lemma attendance_reasons (row : Py.row) :
  exists ids,
    errors_of (Attendance.validate_attendance_record row)
    = check_school_year (int_year row) [] ++ ids
    /\ Forall (fun e => ~ year_reason e) ids.
Proof.
  unfold Attendance.validate_attendance_record, int_year. split_reasons.
Qed.

Lemma mcas_reasons (row : Py.row) :
  exists ids,
    errors_of (Mcas.validate_mcas_record row)
    = check_school_year (int_year row) [] ++ ids
    /\ Forall (fun e => ~ year_reason e) ids.
Proof.
  unfold Mcas.validate_mcas_record, int_year. split_reasons.
Qed.

Lemma enrollment_reasons (row : Py.row) :
  exists ids,
    errors_of (Enrollment.validate_enrollment_record row)
    = check_school_year (enrollment_year row) [] ++ ids
    /\ Forall (fun e => ~ year_reason e) ids.
Proof.
  unfold Enrollment.validate_enrollment_record, enrollment_year.
  split_reasons.
Qed.

End YearRule.

(** Reads a [Valid] answer back: every check passed. *)
Ltac valid_inv H E :=
  cbv zeta in H; rewrite ?append_if_app in H;
  match type of H with
  | (match ?e with _ => _ end) = _ => destruct e eqn:E; [|discriminate H]
  end;
  injection H as <-;
  repeat (let E' := fresh "Hflag" in
          apply app_nil_both in E; destruct E as [E E']; apply flag_nil in E').

Section KeyCompleteness.

Lemma attendance_valid_keys (row : Py.row) (r : Attendance.AttendanceRecord) :
  Attendance.validate_attendance_record row = Valid r -> attendance_keys_ok r.
Proof.
  intros H. unfold Attendance.validate_attendance_record in H.
  valid_inv H E. unfold attendance_keys_ok. simpl.
  split; [now apply check_school_year_nil|].
  repeat split; now apply blank_false.
Qed.

Lemma mcas_valid_keys (row : Py.row) (r : Mcas.McasRecord) :
  Mcas.validate_mcas_record row = Valid r -> mcas_keys_ok r.
Proof.
  intros H. unfold Mcas.validate_mcas_record in H.
  valid_inv H E. unfold mcas_keys_ok. simpl.
  split; [now apply check_school_year_nil|].
  repeat split; now apply blank_false.
Qed.

Lemma enrollment_valid_keys (row : Py.row) (r : Enrollment.EnrollmentRecord) :
  Enrollment.validate_enrollment_record row = Valid r -> enrollment_keys_ok r.
Proof.
  intros H. unfold Enrollment.validate_enrollment_record in H.
  valid_inv H E. unfold enrollment_keys_ok. simpl.
  split; [now apply check_school_year_nil | now apply blank_false].
Qed.

Lemma valid_org_type_cases (o : string) :
  Schools.is_valid_org_type o = true ->
  o = "School" \/ o = "District" \/ o = "State".
Proof.
  unfold Schools.is_valid_org_type. simpl. intros H.
  destruct (String.eqb_spec o "School"); [now left|].
  destruct (String.eqb_spec o "District"); [now right; left|].
  destruct (String.eqb_spec o "State"); [now right; right | discriminate].
Qed.

Lemma valid_org_type_key (o : string) :
  Schools.is_valid_org_type o = true ->
  key_ok o /\ In o Schools.VALID_ORG_TYPES.
Proof.
  intros H. destruct (valid_org_type_cases o H) as [-> | [-> | ->]];
    (split; [repeat split; discriminate | simpl; tauto]).
Qed.

Lemma school_valid_keys (row : Py.row) (src : string) (r : Schools.SchoolRecord) :
  Schools.validate_school_record row src = Valid r -> school_keys_ok r.
Proof.
  intros H. unfold Schools.validate_school_record in H.
  cbv zeta in H. rewrite !append_if_app in H.
  match type of H with
  | context [if blank ?o then _ else _] =>
      destruct (blank o) eqn:Hb;
        [|destruct (Schools.is_valid_org_type o) eqn:Hv; simpl negb in H; cbv iota in H]
  end.
  1,3: exfalso;
    match type of H with
    | (match ?e ++ [?m] with _ => _ end) = _ =>
        destruct (e ++ [m]) eqn:E; [|discriminate H];
        apply app_nil_both in E; destruct E as [_ E]; discriminate E
    end.
  match type of H with
  | (match ?e with _ => _ end) = _ => destruct e eqn:E; [|discriminate H]
  end.
  injection H as <-.
  repeat (let E' := fresh "Hflag" in
          apply app_nil_both in E; destruct E as [E E']; apply flag_nil in E').
  unfold school_keys_ok. simpl.
  destruct (valid_org_type_key _ Hv) as [Hk Hin].
  repeat split; try (now apply blank_false); try apply Hk; exact Hin.
Qed.

End KeyCompleteness.

(** C5 (as amended).  In each of the three fact domains the validator
    gives no reason about the school year exactly when the year coerces to
    an integer in 2000..2100 (2000 and 2100 included); an integer outside
    gets the range reason, itself worded unlike the missing-year reason,
    and not the missing-year reason; a year that cannot be coerced, absent
    or unparseable alike, gets the missing-year reason. *)
Theorem C5_school_year_rule :
  (forall row, year_rule (int_year row)
                 (errors_of (Attendance.validate_attendance_record row)))
  /\ (forall row, year_rule (int_year row)
                    (errors_of (Mcas.validate_mcas_record row)))
  /\ (forall row, year_rule (enrollment_year row)
                    (errors_of (Enrollment.validate_enrollment_record row)))
  /\ (forall n, invalid_year_msg n <> missing_year_msg)
  /\ Attendance.validate_attendance_record (attendance_row (Py.CInt 1999) "00350000")
     = Rejected ["Invalid school_year 1999 (must be 2000-2100)"]
  /\ Attendance.validate_attendance_record (attendance_row (Py.CStr "2101") "00350000")
     = Rejected ["Invalid school_year 2101 (must be 2000-2100)"]
  /\ Mcas.validate_mcas_record (mcas_row (Py.CInt 1999))
     = Rejected ["Invalid school_year 1999 (must be 2000-2100)"]
  /\ Enrollment.validate_enrollment_record (enrollment_row (Py.CStr "2,101"))
     = Rejected ["Invalid school_year 2101 (must be 2000-2100)"]
  /\ errors_of (Attendance.validate_attendance_record
                  (attendance_row (Py.CInt 2000) "00350000")) = []
  /\ errors_of (Attendance.validate_attendance_record
                  (attendance_row (Py.CStr "2100") "00350000")) = []
  /\ errors_of (Mcas.validate_mcas_record (mcas_row (Py.CInt 2100))) = []
  /\ errors_of (Enrollment.validate_enrollment_record
                  (enrollment_row (Py.CInt 2000))) = []
  /\ Attendance.validate_attendance_record (attendance_row (Py.CStr "abc") "00350000")
     = Rejected [missing_year_msg]
  /\ Attendance.validate_attendance_record (attendance_row Py.CNaN "00350000")
     = Rejected [missing_year_msg].
Proof.
  split.
  { intros row. destruct (attendance_reasons row) as (ids & E & Hids).
    exact (year_rule_of_errors _ _ _ E Hids). }
  split.
  { intros row. destruct (mcas_reasons row) as (ids & E & Hids).
    exact (year_rule_of_errors _ _ _ E Hids). }
  split.
  { intros row. destruct (enrollment_reasons row) as (ids & E & Hids).
    exact (year_rule_of_errors _ _ _ E Hids). }
  split; [exact invalid_not_missing|].
  repeat split; vm_compute; reflexivity.
Qed.

(** C5 at work on a row of the year 1999. *)
Lemma C5_school_year_rule_witness :
  In (invalid_year_msg 1999)
     (errors_of (Attendance.validate_attendance_record
                   (attendance_row (Py.CInt 1999) "00350000")))
  /\ ~ In missing_year_msg
       (errors_of (Attendance.validate_attendance_record
                     (attendance_row (Py.CInt 1999) "00350000"))).
Proof.
  destruct C5_school_year_rule as (Ha & _).
  destruct (Ha (attendance_row (Py.CInt 1999) "00350000")) as (_ & Hb & _).
  apply (Hb 1999 eq_refl). lia.
Defined.

(** C5, as the claim has it, fails: a year that does not parse gets the
    very reason a missing year gets, word for word. *)
Lemma C5_unparseable_year_reads_as_missing :
  Attendance.validate_attendance_record (attendance_row (Py.CStr "abc") "00350000")
  = Attendance.validate_attendance_record (attendance_row_no_year "00350000")
  /\ Attendance.validate_attendance_record (attendance_row_no_year "00350000")
     = Rejected ["Missing SY (school_year)"]
  /\ Mcas.validate_mcas_record (mcas_row (Py.CStr "20x4"))
     = Mcas.validate_mcas_record (mcas_row Py.CNaN)
  /\ Enrollment.validate_enrollment_record (enrollment_row (Py.CStr "20x4"))
     = Enrollment.validate_enrollment_record (enrollment_row Py.CNaN).
Proof. repeat split; vm_compute; reflexivity. Qed.

(* ====================================================================== *)
(** ** Organization types *)
(* ====================================================================== *)

Section OrgType.

Lemma contains_district_strip (t : string) :
  Py.contains "district" (Py.strip t) = Py.contains "district" t.
Proof. apply contains_strip; [reflexivity | discriminate]. Qed.

Lemma contains_school_strip (t : string) :
  Py.contains "school" (Py.strip t) = Py.contains "school" t.
Proof. apply contains_strip; [reflexivity | discriminate]. Qed.

Lemma normalize_district (s : string) :
  Py.contains "district" (Py.lower s) = true ->
  Schools.normalize_org_type s = "District".
Proof.
  intros H. unfold Schools.normalize_org_type.
  rewrite <- contains_district_strip in H.
  destruct (String.eqb_spec (Py.strip (Py.lower s)) "state") as [E | _].
  - rewrite E in H. discriminate.
  - now rewrite H.
Qed.

Lemma normalize_school (s : string) :
  Py.contains "school" (Py.lower s) = true ->
  Py.contains "district" (Py.lower s) = false ->
  Schools.normalize_org_type s = "School".
Proof.
  intros H Hd. unfold Schools.normalize_org_type.
  rewrite <- contains_school_strip in H.
  rewrite <- contains_district_strip in Hd.
  destruct (String.eqb_spec (Py.strip (Py.lower s)) "state") as [E | _].
  - rewrite E in H. discriminate.
  - now rewrite Hd, H.
Qed.

Lemma normalize_state (s : string) :
  Py.strip (Py.lower s) = "state" -> Schools.normalize_org_type s = "State".
Proof. intros H. unfold Schools.normalize_org_type. now rewrite H. Qed.

Lemma normalize_other (s : string) :
  Py.contains "district" (Py.lower s) = false ->
  Py.contains "school" (Py.lower s) = false ->
  Py.strip (Py.lower s) <> "state" ->
  Schools.normalize_org_type s = s /\ Schools.is_valid_org_type s = false.
Proof.
  intros Hd Hs Hst. split.
  - unfold Schools.normalize_org_type.
    rewrite contains_district_strip, contains_school_strip, Hd, Hs.
    now destruct (String.eqb_spec (Py.strip (Py.lower s)) "state").
  - destruct (Schools.is_valid_org_type s) eqn:E; [|reflexivity].
    destruct (valid_org_type_cases s E) as [-> | [-> | ->]];
      [discriminate Hs | discriminate Hd | now contradiction Hst].
Qed.

Lemma unknown_org_type_rejected (row : Py.row) (src : string) :
  let raw := Py.strip (Py.str (Py.get row "ORG_TYPE" (Py.CStr ""))) in
  blank raw = false ->
  Py.contains "district" (Py.lower raw) = false ->
  Py.contains "school" (Py.lower raw) = false ->
  Py.strip (Py.lower raw) <> "state" ->
  exists errors,
    Schools.validate_school_record row src = Rejected errors
    /\ In (Schools.invalid_org_type_msg raw) errors.
Proof.
  intros raw Hb Hd Hs Hst.
  destruct (normalize_other raw Hd Hs Hst) as [Hn Hv].
  unfold Schools.validate_school_record. cbv zeta. fold raw.
  assert (Hg : negb (Py.is_empty raw) && negb (String.eqb raw "nan") = true).
  { unfold blank in Hb. apply orb_false_elim in Hb as [-> ->]. reflexivity. }
  rewrite Hg, Hn, Hb, Hv. simpl negb. cbv iota.
  match goal with
  | |- exists _, (match ?e ++ [?m] with _ => _ end) = _ /\ _ =>
      destruct (e ++ [m]) eqn:E;
        [apply app_nil_both in E; destruct E as [_ E]; discriminate E|];
      eexists; split; [reflexivity|];
      rewrite <- E; apply in_or_app; right; now left
  end.
Qed.

End OrgType.

(** C6.  Normalization looks at the lower-cased, trimmed value: a value
    holding "district" gives District; one holding "school" and not
    "district" gives School; the value "state" gives State; any other
    value comes back unchanged, is not one of School, District, State, and
    the validator rejects its row with the invalid-type reason. *)
Theorem C6_org_type_normalization :
  (forall s, Py.contains "district" (Py.lower s) = true ->
             Schools.normalize_org_type s = "District")
  /\ (forall s, Py.contains "school" (Py.lower s) = true ->
                Py.contains "district" (Py.lower s) = false ->
                Schools.normalize_org_type s = "School")
  /\ (forall s, Py.strip (Py.lower s) = "state" ->
                Schools.normalize_org_type s = "State")
  /\ (forall s, Py.contains "district" (Py.lower s) = false ->
                Py.contains "school" (Py.lower s) = false ->
                Py.strip (Py.lower s) <> "state" ->
                Schools.normalize_org_type s = s
                /\ Schools.is_valid_org_type s = false)
  /\ (forall row src,
        let raw := Py.strip (Py.str (Py.get row "ORG_TYPE" (Py.CStr ""))) in
        blank raw = false ->
        Py.contains "district" (Py.lower raw) = false ->
        Py.contains "school" (Py.lower raw) = false ->
        Py.strip (Py.lower raw) <> "state" ->
        exists errors,
          Schools.validate_school_record row src = Rejected errors
          /\ In (Schools.invalid_org_type_msg raw) errors)
  /\ Schools.normalize_org_type "Public School" = "School"
  /\ Schools.normalize_org_type "Public School District" = "District"
  /\ Schools.normalize_org_type "State" = "State"
  /\ Schools.normalize_org_type "CHARTER school" = "School"
  /\ Schools.normalize_org_type "Collaborative" = "Collaborative"
  /\ Schools.is_valid_org_type "Collaborative" = false.
Proof.
  split; [exact normalize_district|].
  split; [exact normalize_school|].
  split; [exact normalize_state|].
  split; [exact normalize_other|].
  split; [exact unknown_org_type_rejected|].
  repeat split.
Qed.

(** C6 at work: a mixed-case district, a school, and an unknown type. *)
Lemma C6_org_type_normalization_witness :
  Schools.normalize_org_type "Regional School DISTRICT" = "District"
  /\ Schools.normalize_org_type "Charter School" = "School"
  /\ Schools.normalize_org_type " STATE " = "State"
  /\ (Schools.normalize_org_type "Collaborative" = "Collaborative"
      /\ Schools.is_valid_org_type "Collaborative" = false).
Proof.
  destruct C6_org_type_normalization as (Hd & Hs & Hst & Ho & _).
  split; [apply Hd; reflexivity|].
  split; [apply Hs; reflexivity|].
  split; [apply Hst; reflexivity|].
  apply Ho; [reflexivity | reflexivity | discriminate].
Defined.

(* ====================================================================== *)
(** ** Deduplication *)
(* ====================================================================== *)

Section DictFacts.

Context {A : Type}.

Lemma dict_get_set_same (d : Dict.t A) (k : string) (v : A) :
  Dict.get (Dict.set d k v) k = Some v.
Proof.
  induction d as [|[k' v'] r IH]; simpl.
  - now rewrite String.eqb_refl.
  - destruct (String.eqb k' k) eqn:E; simpl; rewrite E; [reflexivity | exact IH].
Qed.

Lemma dict_get_set_other (d : Dict.t A) (k k' : string) (v : A) :
  k' <> k -> Dict.get (Dict.set d k v) k' = Dict.get d k'.
Proof.
  intros Hk. induction d as [|[k0 v0] r IH]; simpl.
  - destruct (String.eqb_spec k k'); [congruence | reflexivity].
  - destruct (String.eqb_spec k0 k) as [-> | Hn]; simpl.
    + destruct (String.eqb_spec k k'); [congruence | reflexivity].
    + destruct (String.eqb_spec k0 k'); [reflexivity | exact IH].
Qed.

Lemma dict_keys_set (d : Dict.t A) (k : string) (v : A) :
  Dict.keys (Dict.set d k v)
  = if Dict.mem d k then Dict.keys d else Dict.keys d ++ [k].
Proof.
  unfold Dict.mem. induction d as [|[k0 v0] r IH]; simpl; [reflexivity|].
  destruct (String.eqb_spec k0 k) as [-> | Hn]; simpl; [reflexivity|].
  rewrite IH. now destruct (Dict.get r k).
Qed.

Lemma dict_mem_keys (d : Dict.t A) (k : string) :
  Dict.mem d k = true <-> In k (Dict.keys d).
Proof.
  unfold Dict.mem. induction d as [|[k0 v0] r IH]; simpl.
  - split; [discriminate | tauto].
  - destruct (String.eqb_spec k0 k) as [-> | Hn].
    + split; [now left | reflexivity].
    + rewrite IH. split; [now right | intros [H | H]; [congruence | exact H]].
Qed.

Lemma dict_get_In (d : Dict.t A) (k : string) (v : A) :
  Dict.get d k = Some v -> In v (Dict.values d).
Proof.
  induction d as [|[k0 v0] r IH]; simpl; [discriminate|].
  destruct (String.eqb k0 k); [intros [= ->]; now left | right; auto].
Qed.

Lemma dict_values_get (d : Dict.t A) (v : A) :
  NoDup (Dict.keys d) -> In v (Dict.values d) ->
  exists k, Dict.get d k = Some v.
Proof.
  induction d as [|[k0 v0] r IH]; simpl; [tauto|].
  intros Hnd [-> | Hin].
  - exists k0. now rewrite String.eqb_refl.
  - inversion Hnd as [|? ? Hk0 Hr]; subst.
    destruct (IH Hr Hin) as (k & Hk). exists k.
    destruct (String.eqb_spec k0 k) as [-> | _]; [|exact Hk].
    exfalso. apply Hk0. apply dict_mem_keys. unfold Dict.mem. now rewrite Hk.
Qed.

End DictFacts.

Section Deduplication.

Lemma last_with_id_app (k : string) (a b : list Schools.SchoolRecord) :
  last_with_id k (a ++ b)
  = match last_with_id k b with
    | Some r => Some r
    | None => last_with_id k a
    end.
Proof.
  induction a as [|x a IH]; simpl.
  - now destruct (last_with_id k b).
  - rewrite IH. destruct (last_with_id k b); [reflexivity|].
    reflexivity.
Qed.

Lemma last_with_id_some (k : string) (l : list Schools.SchoolRecord)
    (r : Schools.SchoolRecord) :
  last_with_id k l = Some r -> In r l /\ Schools.school_id r = k.
Proof.
  induction l as [|x l IH]; simpl; [discriminate|].
  destruct (last_with_id k l) as [r'|].
  - intros [= ->]. destruct (IH eq_refl). auto.
  - destruct (String.eqb_spec (Schools.school_id x) k);
      [intros [= ->]; auto | discriminate].
Qed.

Lemma last_with_id_none (k : string) (l : list Schools.SchoolRecord) :
  last_with_id k l = None ->
  forall r, In r l -> Schools.school_id r <> k.
Proof.
  induction l as [|x l IH]; simpl; [tauto|].
  destruct (last_with_id k l) as [r'|]; [discriminate|].
  destruct (String.eqb_spec (Schools.school_id x) k); [discriminate|].
  intros _ r [<- | Hin]; [assumption | now apply IH].
Qed.

Lemma last_with_id_found (k : string) (l : list Schools.SchoolRecord)
    (r : Schools.SchoolRecord) :
  In r l -> Schools.school_id r = k -> exists r', last_with_id k l = Some r'.
Proof.
  intros Hin Hk. destruct (last_with_id k l) as [r'|] eqn:E; [eauto|].
  exfalso. exact (last_with_id_none k l E r Hin Hk).
Qed.

(** What the inner loop leaves in the dictionary and in the counter. *)
Lemma fold_add_school (l : list Schools.SchoolRecord) :
  forall (d : Dict.t Schools.SchoolRecord) (c : nat),
    let res := fold_left Schools.add_school l (d, c) in
    (forall k, Dict.get (fst res) k
               = match last_with_id k l with
                 | Some r => Some r
                 | None => Dict.get d k
                 end)
    /\ (NoDup (Dict.keys d) -> NoDup (Dict.keys (fst res)))
    /\ (snd res + List.length (fst res) = c + List.length d + List.length l)%nat.
Proof.
  induction l as [|x l IH]; intros d c; simpl.
  - repeat split; [auto | lia].
  - set (d' := Dict.set d (Schools.school_id x) x).
    set (c' := if Dict.mem d (Schools.school_id x) then (c + 1)%nat else c).
    destruct (IH d' c') as (Hget & Hnd & Hcnt).
    split; [|split].
    + intros k. rewrite Hget. destruct (last_with_id k l); [reflexivity|].
      unfold d'. destruct (String.eqb_spec (Schools.school_id x) k) as [<- | Hn].
      * apply dict_get_set_same.
      * apply dict_get_set_other. congruence.
    + intros H. apply Hnd. unfold d'. rewrite dict_keys_set.
      destruct (Dict.mem d (Schools.school_id x)) eqn:E; [exact H|].
      apply NoDup_app; [exact H | repeat constructor; simpl; tauto|].
      intros k Hk [<- | []]. apply dict_mem_keys in Hk. congruence.
    + rewrite Hcnt. unfold c', d'.
      assert (Hlen : List.length (Dict.set d (Schools.school_id x) x)
                     = List.length (Dict.keys (Dict.set d (Schools.school_id x) x)))
        by (unfold Dict.keys; now rewrite length_map).
      rewrite Hlen, dict_keys_set.
      destruct (Dict.mem d (Schools.school_id x)).
      * unfold Dict.keys. rewrite length_map. lia.
      * rewrite length_app. unfold Dict.keys. rewrite length_map. simpl. lia.
Qed.

Lemma add_source_fold (files : string -> source)
    (acc : Dict.t Schools.SchoolRecord * nat) (p : string) :
  Schools.add_source files acc p
  = fold_left Schools.add_school
      (Schools.extract_schools_from_csv (Schools.basename p) (files p)) acc.
Proof. unfold Schools.add_source. destruct (files p); reflexivity. Qed.

Lemma collect_from_fold (files : string -> source) (sources : list string) :
  forall acc,
    fold_left (Schools.add_source files) sources acc
    = fold_left Schools.add_school (all_records files sources) acc.
Proof.
  induction sources as [|p rest IH]; intros acc; simpl; [reflexivity|].
  rewrite fold_left_app, IH, add_source_fold. reflexivity.
Qed.

Lemma all_records_app (files : string -> source) (a b : list string) :
  all_records files (a ++ b) = all_records files a ++ all_records files b.
Proof. unfold all_records. apply flat_map_app. Qed.

Lemma collect_from_spec (files : string -> source) (sources : list string) :
  let res := Schools.collect_from files sources in
  (forall k, Dict.get (fst res) k = last_with_id k (all_records files sources))
  /\ NoDup (Dict.keys (fst res))
  /\ (snd res + List.length (fst res)
      = List.length (all_records files sources))%nat.
Proof.
  unfold Schools.collect_from. rewrite collect_from_fold.
  destruct (fold_add_school (all_records files sources) [] O)
    as (Hget & Hnd & Hcnt).
  split; [|split].
  - intros k. rewrite Hget. now destruct (last_with_id k _).
  - apply Hnd. constructor.
  - exact Hcnt.
Qed.

Lemma later_source_wins (files : string -> source)
    (pre mid post : list string) (a b k : string)
    (ra rb : Schools.SchoolRecord) :
  let merged := fst (Schools.collect_from files (pre ++ a :: mid ++ b :: post)) in
  In ra (Schools.extract_schools_from_csv (Schools.basename a) (files a)) ->
  In rb (Schools.extract_schools_from_csv (Schools.basename b) (files b)) ->
  Schools.school_id ra = k -> Schools.school_id rb = k ->
  (exists r, Dict.get merged k = Some r /\ Schools.school_id r = k
             /\ In r (all_records files (b :: post)))
  /\ (last_with_id k (all_records files post) = None ->
      Dict.get merged k
      = last_with_id k
          (Schools.extract_schools_from_csv (Schools.basename b) (files b))).
Proof.
  intros merged Ha Hb Hka Hkb. unfold merged.
  destruct (collect_from_spec files (pre ++ a :: mid ++ b :: post)) as (Hget & _).
  rewrite Hget.
  change (a :: mid ++ b :: post) with ([a] ++ mid ++ [b] ++ post).
  rewrite !all_records_app, !last_with_id_app.
  change (all_records files [b])
    with (Schools.extract_schools_from_csv (Schools.basename b) (files b) ++ []).
  rewrite app_nil_r.
  destruct (last_with_id_found k _ rb Hb Hkb) as (r' & Hr').
  rewrite Hr'.
  change (all_records files (b :: post))
    with (Schools.extract_schools_from_csv (Schools.basename b) (files b)
          ++ all_records files post).
  split.
  - destruct (last_with_id k (all_records files post)) as [r|] eqn:E.
    + exists r. destruct (last_with_id_some _ _ _ E). 
      repeat split; auto. apply in_or_app. now right.
    + exists r'. destruct (last_with_id_some _ _ _ Hr').
      repeat split; auto. apply in_or_app. now left.
  - intros ->. reflexivity.
Qed.

End Deduplication.

(** C7 (as amended).  The deduplicator folds the sources in their list
    order into a dictionary keyed by school id: the record filed under an
    id is the last one with that id in processing order, each id is there
    once, and the overwrite counter plus the number of ids is the number
    of records seen.  Of two sources that both hold an id, the record kept
    comes from the later one or from a source processed after it, and it
    is the later one's when no source after it holds the id. *)
Theorem C7_last_source_wins (files : string -> source) (sources : list string) :
  let res := Schools.collect_from files sources in
  (forall k, Dict.get (fst res) k = last_with_id k (all_records files sources))
  /\ NoDup (Dict.keys (fst res))
  /\ (snd res + List.length (fst res)
      = List.length (all_records files sources))%nat
  /\ (forall pre a mid b post k ra rb,
        sources = pre ++ a :: mid ++ b :: post ->
        In ra (Schools.extract_schools_from_csv (Schools.basename a) (files a)) ->
        In rb (Schools.extract_schools_from_csv (Schools.basename b) (files b)) ->
        Schools.school_id ra = k -> Schools.school_id rb = k ->
        (exists r, Dict.get (fst res) k = Some r /\ Schools.school_id r = k
                   /\ In r (all_records files (b :: post)))
        /\ (last_with_id k (all_records files post) = None ->
            Dict.get (fst res) k
            = last_with_id k
                (Schools.extract_schools_from_csv (Schools.basename b) (files b))))
  /\ Schools.collect_all_schools files
     = Schools.collect_from files Schools.CSV_SOURCES
  /\ Dict.get (fst (Schools.collect_all_schools (two_sources older_source newer_source)))
              "1234"
     = Some {| Schools.school_id := "1234";
               Schools.school_name := "New Name";
               Schools.district_code := "0035";
               Schools.district_name := "Boston";
               Schools.org_type := "School";
               Schools.source_file := "MCAS_Achievement_Results_20251204.csv" |}
  /\ snd (Schools.collect_all_schools (two_sources older_source newer_source)) = 1%nat.
Proof.
  intros res.
  destruct (collect_from_spec files sources) as (Hget & Hnd & Hcnt).
  split; [exact Hget|]. split; [exact Hnd|]. split; [exact Hcnt|].
  split.
  { intros pre a mid b post k ra rb -> Ha Hb Hka Hkb.
    exact (later_source_wins files pre mid post a b k ra rb Ha Hb Hka Hkb). }
  split; [reflexivity|]. split; vm_compute; reflexivity.
Qed.

(** C7 at work on the two sources of the example: the first and the
    second configured source both hold school 1234. *)
Lemma C7_last_source_wins_witness :
  Dict.get (fst (Schools.collect_from (two_sources older_source newer_source)
                   Schools.CSV_SOURCES)) "1234"
  = last_with_id "1234"
      (Schools.extract_schools_from_csv
         (Schools.basename (nth 1 Schools.CSV_SOURCES ""))
         newer_source).
Proof.
  destruct (C7_last_source_wins (two_sources older_source newer_source)
              Schools.CSV_SOURCES) as (_ & _ & _ & Hpair & _).
  refine (proj2 (Hpair [] (nth 0 Schools.CSV_SOURCES "") []
                   (nth 1 Schools.CSV_SOURCES "")
                   (skipn 2 Schools.CSV_SOURCES) "1234"
                   {| Schools.school_id := "1234";
                      Schools.school_name := "Old Name";
                      Schools.district_code := "0035";
                      Schools.district_name := "Boston";
                      Schools.org_type := "School";
                      Schools.source_file :=
                        "Enrollment__Grade,_Race_Ethnicity,_Gender,_and_Selected_Populations_20251204.csv" |}
                   {| Schools.school_id := "1234";
                      Schools.school_name := "New Name";
                      Schools.district_code := "0035";
                      Schools.district_name := "Boston";
                      Schools.org_type := "School";
                      Schools.source_file := "MCAS_Achievement_Results_20251204.csv" |}
                   eq_refl _ _ eq_refl eq_refl) _).
  - vm_compute. now left.
  - vm_compute. now left.
  - vm_compute. reflexivity.
Defined.

(** C7, as the claim has it, fails: the first and the second configured
    source both hold school 1234, under different names, and so does the
    third; the merged directory then holds the third source's record, not
    the record of the later source of the pair. *)
Lemma C7_third_source_overrides_the_pair :
  let files := three_sources older_source newer_source newest_source in
  let a := nth 0 Schools.CSV_SOURCES "" in
  let b := nth 1 Schools.CSV_SOURCES "" in
  let ra := school_1234 "Old Name" (Schools.basename a) in
  let rb := school_1234 "New Name" (Schools.basename b) in
  In ra (Schools.extract_schools_from_csv (Schools.basename a) (files a))
  /\ In rb (Schools.extract_schools_from_csv (Schools.basename b) (files b))
  /\ Schools.school_id ra = Schools.school_id rb
  /\ Schools.school_name ra <> Schools.school_name rb
  /\ Dict.get (fst (Schools.collect_all_schools files)) "1234"
     = Some (school_1234 "Newest Name" "Student_Attendance_20251204.csv")
  /\ Dict.get (fst (Schools.collect_all_schools files)) "1234" <> Some rb.
Proof.
  cbv zeta.
  split; [vm_compute; tauto|].
  split; [vm_compute; tauto|].
  split; [reflexivity|].
  split; [discriminate|].
  split; [vm_compute; reflexivity | vm_compute; discriminate].
Qed.

(* ====================================================================== *)
(** ** The batch loader *)
(* ====================================================================== *)

Section RangeFacts.

Lemma range_step_ret (n : nat) (k : Z) :
  k <> 0 -> exists l, range_step n k = Py.Ret l.
Proof.
  intros Hk. unfold range_step.
  destruct (Z.eqb_spec k 0); [contradiction|].
  destruct (k <? 0); eauto.
Qed.

Lemma range_step_first (n : nat) (k : Z) :
  0 < k -> (0 < n)%nat -> exists rest, range_step n k = Py.Ret (O :: rest).
Proof.
  intros Hk Hn. unfold range_step.
  destruct (Z.eqb_spec k 0); [lia|].
  destruct (Z.ltb_spec k 0); [lia|].
  destruct ((n + Z.to_nat k - 1) / Z.to_nat k)%nat eqn:E.
  - exfalso. apply Nat.div_small_iff in E; lia.
  - simpl. eauto.
Qed.

End RangeFacts.

Section LoaderFacts.

Variable K : sink.
Variable R : Type.
Variable to_dict : R -> pydict.
Variable table : string.
Variable conflict_target : string.

Lemma retry_record_errors (st : load_state K R) (d : pydict) :
  (total_errors st <= total_errors ((retry_record K R table) st d))%nat.
Proof.
  unfold retry_record.
  destruct (execute K (ls_sink st) _) as [s' [e|]]; simpl; lia.
Qed.

Lemma retry_fold_errors (batch : list pydict) :
  forall st, (total_errors st <= total_errors (fold_left (retry_record K R table) batch st))%nat.
Proof.
  induction batch as [|d rest IH]; intros st; simpl; [lia|].
  etransitivity; [apply retry_record_errors | apply IH].
Qed.

Lemma process_batch_errors (ds : list pydict) (bs : nat)
    (st : load_state K R) (i : nat) :
  (total_errors st <= total_errors ((process_batch K R table conflict_target) ds bs st i))%nat.
Proof.
  unfold process_batch. cbv zeta.
  destruct (execute K (ls_sink st) _) as [s' [e|]]; simpl; [|lia].
  etransitivity; [|apply retry_fold_errors]. simpl. lia.
Qed.

Lemma batches_fold_errors (ds : list pydict) (bs : nat) (starts : list nat) :
  forall st,
    (total_errors st
     <= total_errors (fold_left ((process_batch K R table conflict_target) ds bs) starts st))%nat.
Proof.
  induction starts as [|i rest IH]; intros st; simpl; [lia|].
  etransitivity; [apply process_batch_errors | apply IH].
Qed.

(** A batch call that fails on a batch with records in it leaves a
    positive error count, whatever the retries give. *)
Lemma failed_batch_counts (ds : list pydict) (bs : nat)
    (st : load_state K R) (i : nat) (s' : sink_state K) (e : string) :
  execute K (ls_sink st)
    {| uc_table := table; uc_payload := Rows (firstn bs (skipn i ds));
       uc_on_conflict := Some conflict_target |} = (s', Some e) ->
  firstn bs (skipn i ds) <> [] ->
  (0 < total_errors ((process_batch K R table conflict_target) ds bs st i))%nat.
Proof.
  intros He Hne. unfold process_batch. cbv zeta. rewrite He.
  eapply Nat.lt_le_trans; [|apply retry_fold_errors]. simpl.
  destruct (firstn bs (skipn i ds)); [congruence | simpl; lia].
Qed.

Lemma retry_fold_calls (P : upsert_call -> Prop) (batch : list pydict) :
  (forall d, P {| uc_table := table; uc_payload := OneRow d;
                  uc_on_conflict := None |}) ->
  forall st, Forall P (ls_calls st) ->
             Forall P (ls_calls (fold_left (retry_record K R table) batch st)).
Proof.
  intros HP. induction batch as [|d rest IH]; intros st Hst; simpl; [exact Hst|].
  apply IH. unfold retry_record.
  destruct (execute K (ls_sink st) _) as [s' [e|]]; simpl;
    (apply Forall_app; split; [exact Hst | constructor; [apply HP | constructor]]).
Qed.

(** Every call the live loader issues: a batch call names the conflict
    target, a single-record call names none. *)
Lemma live_calls_shape (s : sink_state K) (records : list R) (bs : Z)
    (ok : bool) (st : load_state K R) :
  insert K R to_dict table conflict_target s records bs false = Py.Ret (ok, st) ->
  Forall (conflict_target_as_coded conflict_target) (ls_calls st).
Proof.
  unfold insert. destruct (range_step _ bs) as [starts|]; [|discriminate].
  intros [= _ <-]. simpl.
  assert (H0 : forall st0 : load_state K R,
             Forall (conflict_target_as_coded conflict_target) (ls_calls st0) ->
             Forall (conflict_target_as_coded conflict_target)
               (ls_calls (fold_left
                            (process_batch K R table conflict_target
                               (map to_dict records) (Z.to_nat bs))
                            starts st0))).
  { induction starts as [|i rest IH]; intros st0 H; simpl; [exact H|].
    apply IH. unfold process_batch. cbv zeta.
    destruct (execute K (ls_sink st0) _) as [s' [e|]].
    - apply retry_fold_calls; [intros d; reflexivity|]. simpl.
      apply Forall_app; split; [exact H | constructor; [reflexivity | constructor]].
    - simpl. apply Forall_app; split;
        [exact H | constructor; [reflexivity | constructor]]. }
  apply H0. constructor.
Qed.

(** A live run whose first batch call fails reports failure. *)
Lemma first_batch_failure_fails (s s' : sink_state K) (records : list R)
    (e : string) :
  records <> [] ->
  execute K s
    {| uc_table := table;
       uc_payload := Rows (firstn 100 (map to_dict records));
       uc_on_conflict := Some conflict_target |} = (s', Some e) ->
  exists st,
    insert K R to_dict table conflict_target s records 100 false
    = Py.Ret (false, st).
Proof.
  intros Hne He. unfold insert.
  destruct (range_step_first (List.length (map to_dict records)) 100)
    as (rest & Hr); [lia | |].
  { rewrite length_map. destruct records; [congruence | simpl; lia]. }
  rewrite Hr. cbn [fold_left].
  set (st0 := process_batch K R table conflict_target (map to_dict records)
                (Z.to_nat 100)
                (init_state K R s [LogHeader false (List.length records)])
                0%nat).
  assert (H1 : (0 < total_errors st0)%nat).
  { apply failed_batch_counts with (s' := s') (e := e).
    - exact He.
    - simpl skipn. destruct records; [congruence | discriminate]. }
  pose proof (batches_fold_errors (map to_dict records) (Z.to_nat 100) rest st0)
    as Hm.
  assert (Hz : Nat.eqb (total_errors
                          (fold_left (process_batch K R table conflict_target
                                        (map to_dict records) (Z.to_nat 100))
                                     rest st0)) 0 = false)
    by (apply Nat.eqb_neq; lia).
  rewrite Hz. eexists. reflexivity.
Qed.

End LoaderFacts.

Section DryRunFacts.

Lemma sampled_samples {R : Type} (l : list R) (tail : list (log_event R)) :
  forall a,
    sampled (map (fun p => LogSample (fst p) (snd p))
                 (combine (seq a (List.length l)) l) ++ tail)
    = l ++ sampled tail.
Proof.
  induction l as [|r rest IH]; intros a; simpl; [reflexivity|].
  now rewrite IH.
Qed.

Lemma dry_run_state_facts (K : sink) {R : Type} (s : sink_state K)
    (records : list R) :
  ls_sink (dry_run_state K s records) = s
  /\ ls_calls (dry_run_state K s records) = []
  /\ sampled (ls_log (dry_run_state K s records)) = firstn 5 records
  /\ (List.length (sampled (ls_log (dry_run_state K s records))) <= 5)%nat.
Proof.
  assert (E : sampled (ls_log (dry_run_state K s records)) = firstn 5 records).
  { unfold dry_run_state. simpl ls_log.
    change (sampled (map (fun p : nat * R => LogSample (fst p) (snd p))
                       (combine (seq 1 (List.length (firstn 5 records)))
                                (firstn 5 records)) ++ [LogEllipsis])
            = firstn 5 records).
    rewrite sampled_samples. simpl. apply app_nil_r. }
  repeat split; try exact E.
  rewrite E. apply firstn_le_length.
Qed.

End DryRunFacts.

(** C8.  With the dry-run flag set, in every domain and for every record
    list, batch size and sink, the loader returns success, leaves the sink
    as it was, issues no upsert call, and previews the first five records
    and no other. *)
Theorem C8_dry_run_makes_no_call :
  (forall K s records bs,
     Attendance.insert_attendance_records K s records bs true
     = Py.Ret (true, dry_run_state K s records))
  /\ (forall K s records bs,
        Enrollment.insert_enrollment_records K s records bs true
        = Py.Ret (true, dry_run_state K s records))
  /\ (forall K s records bs,
        Mcas.insert_mcas_records K s records bs true
        = Py.Ret (true, dry_run_state K s records))
  /\ (forall K s schools bs,
        Schools.insert_schools K s schools bs true
        = Py.Ret (true, dry_run_state K s (Dict.values schools)))
  /\ (forall K R (s : sink_state K) (records : list R),
        ls_sink (dry_run_state K s records) = s
        /\ ls_calls (dry_run_state K s records) = []
        /\ sampled (ls_log (dry_run_state K s records)) = firstn 5 records
        /\ (List.length (sampled (ls_log (dry_run_state K s records))) <= 5)%nat).
Proof.
  split; [reflexivity|]. split; [reflexivity|].
  split; [reflexivity|]. split; [reflexivity|].
  intros K R s records. apply dry_run_state_facts.
Qed.

(** C1, on the code: a live run whose first batch call fails reports
    failure whatever the retries give.  In particular: the first batch
    call fails, each of the two records is then upserted singly and both
    succeed, no record is logged as failed; yet the batch's two records
    stay in the error count and the loader reports failure. *)
Theorem C1_recovered_batch_reported_failed :
  (forall K s r rest,
     match execute K s
             {| uc_table := Attendance.table;
                uc_payload :=
                  Rows (firstn 100 (map Attendance.to_dict (r :: rest)));
                uc_on_conflict := Some Attendance.on_conflict |} with
     | (_, Some _) =>
         exists st,
           Attendance.insert_attendance_records K s (r :: rest) 100 false
           = Py.Ret (false, st)
     | (_, None) => True
     end)
  /\ exists st,
    Attendance.insert_attendance_records scripted_sink [Some "timeout"]
      two_attendance_records 100 false = Py.Ret (false, st)
    /\ List.length (ls_calls st) = 3%nat
    /\ failed_records (ls_log st) = []
    /\ total_inserted st = 2%nat
    /\ total_errors st = 2%nat
    /\ exists st',
         Schools.insert_schools scripted_sink [Some "timeout"]
           schools_sample 100 false = Py.Ret (false, st')
         /\ failed_records (ls_log st') = []
         /\ total_inserted st' = List.length schools_sample
         /\ total_errors st' = List.length schools_sample.
Proof.
  split.
  { intros K s r rest.
    destruct (execute K s _) as [s' [e|]] eqn:E; [|exact I].
    apply (first_batch_failure_fails K _ Attendance.to_dict Attendance.table
             Attendance.on_conflict s s' (r :: rest) e);
      [discriminate | exact E]. }
  eexists. split; [vm_compute; reflexivity|].
  repeat split; try reflexivity.
  eexists. split; [vm_compute; reflexivity|].
  repeat split; reflexivity.
Qed.

(** C2, on the code: in every live run a batch call names the natural
    key as conflict target and a single-record call names none; after a
    failed batch call the fallback calls therefore go out without a
    conflict target. *)
Theorem C2_fallback_call_names_no_conflict_target :
  (forall K s records bs,
     match Attendance.insert_attendance_records K s records bs false with
     | Py.Ret (_, st) =>
         Forall (conflict_target_as_coded Attendance.on_conflict) (ls_calls st)
     | Py.Raise _ => True
     end)
  /\ (forall K s records bs,
        match Enrollment.insert_enrollment_records K s records bs false with
        | Py.Ret (_, st) =>
            Forall (conflict_target_as_coded Enrollment.on_conflict) (ls_calls st)
        | Py.Raise _ => True
        end)
  /\ exists st st',
       Attendance.insert_attendance_records scripted_sink [Some "timeout"]
         two_attendance_records 100 false = Py.Ret (false, st)
       /\ map uc_on_conflict (ls_calls st)
          = [Some "school_id,school_year,attendance_period,student_group";
             None; None]
       /\ Enrollment.insert_enrollment_records scripted_sink [Some "timeout"]
            enrollment_records_sample 100 false = Py.Ret (false, st')
       /\ map uc_on_conflict (ls_calls st') = [Some "school_id,school_year"; None].
Proof.
  split.
  { intros K s records bs.
    destruct (Attendance.insert_attendance_records K s records bs false)
      as [[ok st]|] eqn:E; [|exact I].
    exact (live_calls_shape _ _ _ _ _ _ _ _ _ _ E). }
  split.
  { intros K s records bs.
    destruct (Enrollment.insert_enrollment_records K s records bs false)
      as [[ok st]|] eqn:E; [|exact I].
    exact (live_calls_shape _ _ _ _ _ _ _ _ _ _ E). }
  eexists. eexists.
  split; [vm_compute; reflexivity|]. split; [reflexivity|].
  split; [vm_compute; reflexivity | reflexivity].
Qed.

(* ====================================================================== *)
(** ** The driver *)
(* ====================================================================== *)

Section DriverFacts.

Variable K : sink.
Variable R : Type.
Variable to_dict : R -> pydict.
Variable table : string.
Variable conflict_target : string.

(** The loader returns for every batch size but zero. *)
Lemma insert_returns (s : sink_state K) (records : list R) (bs : Z)
    (dry_run : bool) :
  bs <> 0 ->
  exists ok st,
    insert K R to_dict table conflict_target s records bs dry_run
    = Py.Ret (ok, st).
Proof.
  intros Hbs. unfold insert. destruct dry_run; [eauto|].
  destruct (range_step_ret (List.length (map to_dict records)) bs Hbs)
    as (l & ->).
  eauto.
Qed.

Lemma main_from_rule (records : list R) (env : environment)
    (s : sink_state K) (dry_run : bool) :
  driver_rule records env
    (insert K R to_dict table conflict_target s records 100 dry_run)
    (main_from K R to_dict table conflict_target records env s dry_run).
Proof.
  unfold driver_rule, main_from. split; [|split].
  - intros ->. reflexivity.
  - intros Hne Hc. destruct records as [|r0 rest]; [congruence|].
    destruct (get_supabase_client env) as [c n]. simpl in Hc. subst c.
    simpl. eauto.
  - intros Hne Hc. destruct records as [|r0 rest]; [congruence|].
    destruct (get_supabase_client env) as [c n]. simpl in Hc. subst c.
    simpl negb. cbv iota.
    destruct (insert_returns s (r0 :: rest) 100 dry_run) as (ok & st & E);
      [discriminate|].
    rewrite E. exists ok, st. eexists. split; [reflexivity|].
    split; [reflexivity|]. split; [reflexivity|].
    destruct ok; simpl; split; split; intros H; try reflexivity;
      discriminate H.
Qed.

End DriverFacts.

(** C9.  In every domain the driver ends with status 1, no client created
    and no load attempted when extraction gives no record; ends with
    status 1 and no load attempted when no client can be had; and
    otherwise runs the loader once and ends with status 0 exactly when
    the loader reports success, status 1 exactly when it does not.  A
    source that is absent or unreadable gives no record. *)
Theorem C9_driver_short_circuits (K : sink) (env : environment)
    (s : sink_state K) (dry_run : bool) :
  (forall src,
     driver_rule (Attendance.extract_attendance_records src) env
       (Attendance.insert_attendance_records K s
          (Attendance.extract_attendance_records src) 100 dry_run)
       (Attendance.main K src env s dry_run))
  /\ (forall src,
        driver_rule (Enrollment.extract_enrollment_records src) env
          (Enrollment.insert_enrollment_records K s
             (Enrollment.extract_enrollment_records src) 100 dry_run)
          (Enrollment.main K src env s dry_run))
  /\ (forall src,
        driver_rule (Mcas.extract_mcas_records src) env
          (Mcas.insert_mcas_records K s
             (Mcas.extract_mcas_records src) 100 dry_run)
          (Mcas.main K src env s dry_run))
  /\ (forall files,
        driver_rule (Dict.values (fst (Schools.collect_all_schools files))) env
          (Schools.insert_schools K s
             (fst (Schools.collect_all_schools files)) 100 dry_run)
          (Schools.main K files env s dry_run))
  /\ Attendance.extract_attendance_records FileMissing = []
  /\ Attendance.extract_attendance_records ReadError = []
  /\ Enrollment.extract_enrollment_records FileMissing = []
  /\ Enrollment.extract_enrollment_records ReadError = []
  /\ Mcas.extract_mcas_records FileMissing = []
  /\ Mcas.extract_mcas_records ReadError = [].
Proof.
  split; [intros src; apply main_from_rule|].
  split; [intros src; apply main_from_rule|].
  split; [intros src; apply main_from_rule|].
  split; [intros files; apply main_from_rule|].
  repeat split.
Qed.

(** C9 at work: a missing attendance file ends the run with status 1
    before any client is created; a readable file, a configured client and
    a sink that accepts the batch end it with status 0. *)
Lemma C9_driver_short_circuits_witness :
  Attendance.main scripted_sink FileMissing good_env [] false
  = Py.Ret {| exit_code := 1; clients_created := 0; loaded := None |}
  /\ exists ok st r,
       Enrollment.insert_enrollment_records scripted_sink []
         enrollment_records_sample 100 false = Py.Ret (ok, st)
       /\ Enrollment.main scripted_sink
            (Frame {| df_columns := map fst (enrollment_row (Py.CInt 2024));
                      df_data := [map snd (enrollment_row (Py.CInt 2024))] |})
            good_env [] false = Py.Ret r
       /\ loaded r = Some (ok, st)
       /\ (exit_code r = 0 <-> ok = true)
       /\ (exit_code r = 1 <-> ok = false).
Proof.
  destruct (C9_driver_short_circuits scripted_sink good_env [] false)
    as (Ha & He & _).
  split.
  - apply (proj1 (Ha FileMissing)). reflexivity.
  - apply (proj2 (proj2 (He (Frame {| df_columns := map fst (enrollment_row (Py.CInt 2024));
                      df_data := [map snd (enrollment_row (Py.CInt 2024))] |})))).
    + vm_compute. discriminate.
    + reflexivity.
Defined.

(* ====================================================================== *)
(** ** Key completeness of what reaches the loader *)
(* ====================================================================== *)

Section Reach.

Lemma extract_schools_keys (name : string) (src : source) :
  Forall school_keys_ok (Schools.extract_schools_from_csv name src).
Proof.
  unfold Schools.extract_schools_from_csv.
  destruct src as [| |df]; try constructor.
  destruct (filter _ Schools.school_cols); [|constructor].
  apply validate_rows_Forall. intros row r H.
  exact (school_valid_keys row name r H).
Qed.

Lemma all_records_keys (files : string -> source) (sources : list string) :
  Forall school_keys_ok (all_records files sources).
Proof.
  unfold all_records. induction sources as [|p rest IH]; simpl; [constructor|].
  apply Forall_app. split; [apply extract_schools_keys | exact IH].
Qed.

Lemma merged_keys (files : string -> source) (sources : list string) :
  Forall school_keys_ok (Dict.values (fst (Schools.collect_from files sources))).
Proof.
  destruct (collect_from_spec files sources) as (Hget & Hnd & _).
  apply Forall_forall. intros r Hin.
  destruct (dict_values_get _ r Hnd Hin) as (k & Hk).
  rewrite Hget in Hk. apply last_with_id_some in Hk as [Hr _].
  pose proof (all_records_keys files sources) as Hall.
  rewrite Forall_forall in Hall. now apply Hall.
Qed.

End Reach.

(** C10.  A record a validator returns has every identifier field
    non-empty, trimmed and different from the text nan, and, where the
    domain carries one, a school year that is an integer in 2000..2100;
    a directory record's organization type is moreover one of School,
    District, State.  So has every record of an extraction result and
    every record of the merged directory. *)
Theorem C10_validated_keys_complete :
  (forall row r, Attendance.validate_attendance_record row = Valid r ->
                 attendance_keys_ok r)
  /\ (forall row r, Mcas.validate_mcas_record row = Valid r -> mcas_keys_ok r)
  /\ (forall row src r, Schools.validate_school_record row src = Valid r ->
                        school_keys_ok r)
  /\ (forall row r, Enrollment.validate_enrollment_record row = Valid r ->
                    enrollment_keys_ok r)
  /\ (forall src, Forall attendance_keys_ok (Attendance.extract_attendance_records src))
  /\ (forall src, Forall mcas_keys_ok (Mcas.extract_mcas_records src))
  /\ (forall src, Forall enrollment_keys_ok (Enrollment.extract_enrollment_records src))
  /\ (forall name src, Forall school_keys_ok (Schools.extract_schools_from_csv name src))
  /\ (forall files,
        Forall school_keys_ok
               (Dict.values (fst (Schools.collect_all_schools files)))).
Proof.
  split; [exact attendance_valid_keys|].
  split; [exact mcas_valid_keys|].
  split; [exact school_valid_keys|].
  split; [exact enrollment_valid_keys|].
  split.
  { intros [| |df]; simpl; try constructor.
    apply validate_rows_Forall. exact attendance_valid_keys. }
  split.
  { intros [| |df]; simpl; try constructor.
    apply validate_rows_Forall. exact mcas_valid_keys. }
  split.
  { intros [| |df]; simpl; try constructor.
    apply validate_rows_Forall. exact enrollment_valid_keys. }
  split; [exact extract_schools_keys|].
  intros files. apply merged_keys.
Qed.

(** C10 at work on an attendance row whose cells carry white space. *)
Lemma C10_validated_keys_complete_witness :
  year_ok (Some 2024) /\ key_ok "End of year" /\ key_ok "00350000"
  /\ key_ok "All".
Proof.
  exact (proj1 C10_validated_keys_complete
           (attendance_row (Py.CStr " 2024 ") "  00350000 ") _ eq_refl).
Defined.

(* ====================================================================== *)
(** ** More on the batch loader: partition, fallback, accounting *)
(* ====================================================================== *)

Section ChunkFacts.

Context {A : Type}.

Lemma ceil_div_covers (n k : nat) :
  (0 < k)%nat -> (n <= (n + k - 1) / k * k)%nat.
Proof.
  intros Hk.
  pose proof (Nat.div_mod (n + k - 1) k ltac:(lia)) as Hd.
  pose proof (Nat.mod_upper_bound (n + k - 1) k ltac:(lia)) as Hm.
  nia.
Qed.

Lemma ceil_div_tight (n k j : nat) :
  (0 < k)%nat -> (j < (n + k - 1) / k)%nat -> (j * k < n)%nat.
Proof.
  intros Hk Hj.
  pose proof (Nat.div_mod (n + k - 1) k ltac:(lia)) as Hd.
  pose proof (Nat.mod_upper_bound (n + k - 1) k ltac:(lia)) as Hm.
  nia.
Qed.

(** Slices of width [k] at 0, k, 2k, ... put the list back together. *)
Lemma chunks_concat (k : nat) : forall (m : nat) (l : list A),
  (List.length l <= m * k)%nat ->
  List.concat (map (fun i => firstn k (skipn i l))
              (map (fun j => (j * k)%nat) (seq 0 m))) = l.
Proof.
  induction m as [|m IH]; intros l Hl.
  - simpl in *. destruct l; [reflexivity | simpl in Hl; lia].
  - simpl seq. simpl map. simpl List.concat.
    rewrite <- seq_shift, !map_map.
    rewrite (map_ext _ (fun j => firstn k (skipn (j * k) (skipn k l)))).
    2:{ intros j. rewrite skipn_skipn. f_equal. f_equal. lia. }
    rewrite <- (map_map (fun j => (j * k)%nat)
                        (fun i => firstn k (skipn i (skipn k l)))).
    rewrite IH; [apply firstn_skipn|].
    rewrite length_skipn. lia.
Qed.

End ChunkFacts.

Section CallLogFacts.

Lemma batch_payloads_app (a b : list upsert_call) :
  batch_payloads (a ++ b) = batch_payloads a ++ batch_payloads b.
Proof.
  induction a as [|c a IH]; simpl; [reflexivity|].
  destruct (uc_payload c); simpl; now rewrite IH.
Qed.

Lemma single_payloads_app (a b : list upsert_call) :
  single_payloads (a ++ b) = single_payloads a ++ single_payloads b.
Proof.
  induction a as [|c a IH]; simpl; [reflexivity|].
  destruct (uc_payload c); simpl; now rewrite IH.
Qed.

Lemma batch_payloads_singles (table : string) (l : list pydict) :
  batch_payloads (map (single_call table) l) = [].
Proof. induction l; simpl; auto. Qed.

Lemma single_payloads_singles (table : string) (l : list pydict) :
  single_payloads (map (single_call table) l) = l.
Proof. induction l; simpl; congruence. Qed.

End CallLogFacts.

Section FallbackFacts.

Variable K : sink.
Variable R : Type.
Variable to_dict : R -> pydict.
Variable table : string.
Variable conflict_target : string.

(** The retry loop issues one single-record call per record, in order,
    whatever the outcomes, and counts each record once. *)
Lemma retry_fold_trace (batch : list pydict) :
  forall st : load_state K R,
    let st' := fold_left (retry_record K R table) batch st in
    ls_calls st' = ls_calls st ++ map (single_call table) batch
    /\ (total_inserted st' + total_errors st'
        = total_inserted st + total_errors st + List.length batch)%nat
    /\ (total_inserted st <= total_inserted st')%nat.
Proof.
  induction batch as [|d rest IH]; intros st; simpl.
  - rewrite app_nil_r. repeat split; lia.
  - destruct (IH (retry_record K R table st d)) as (Hc & Hn & Hi).
    rewrite Hc. unfold retry_record, single_call in *.
    destruct (execute K (ls_sink st) _) as [s' [e|]]; simpl in *;
      rewrite <- app_assoc; repeat split; simpl; lia.
Qed.

(** One turn of the batch loop, read off its call log and counters. *)
Lemma process_batch_trace (ds : list pydict) (bs : nat)
    (st : load_state K R) (i : nat) :
  let batch := firstn bs (skipn i ds) in
  let st' := process_batch K R table conflict_target ds bs st i in
  match snd (execute K (ls_sink st) (batch_call table conflict_target batch)) with
  | None =>
      ls_calls st' = ls_calls st ++ [batch_call table conflict_target batch]
      /\ total_inserted st' = (total_inserted st + List.length batch)%nat
      /\ total_errors st' = total_errors st
  | Some _ =>
      ls_calls st' = ls_calls st ++ batch_call table conflict_target batch
                                    :: map (single_call table) batch
      /\ (total_inserted st' + total_errors st'
          = total_inserted st + total_errors st + 2 * List.length batch)%nat
      /\ (total_errors st + List.length batch <= total_errors st')%nat
  end.
Proof.
  intros batch st'. unfold st', process_batch. cbv zeta. fold batch.
  unfold batch_call.
  destruct (execute K (ls_sink st) _) as [s' [e|]]; simpl snd.
  - match goal with
    | |- context [fold_left _ batch ?s0] =>
        destruct (retry_fold_trace batch s0) as (Hc & Hn & Hi);
        pose proof (retry_fold_errors K R table batch s0) as He
    end.
    simpl in *. rewrite Hc, <- app_assoc. repeat split; simpl; lia.
  - simpl. repeat split.
Qed.

End FallbackFacts.

Section RunFacts.

Variable K : sink.
Variable R : Type.
Variable to_dict : R -> pydict.
Variable table : string.
Variable conflict_target : string.

Lemma range_step_pos (n : nat) (k : Z) :
  0 < k ->
  range_step n k
  = Py.Ret (map (fun j => (j * Z.to_nat k)%nat)
                (seq 0 ((n + Z.to_nat k - 1) / Z.to_nat k))).
Proof.
  intros Hk. unfold range_step.
  destruct (Z.eqb_spec k 0); [lia|].
  destruct (Z.ltb_spec k 0); [lia | reflexivity].
Qed.

Lemma process_batch_tally (ds : list pydict) (bs : nat)
    (st : load_state K R) (i : nat) :
  let st' := process_batch K R table conflict_target ds bs st i in
  batch_payloads (ls_calls st')
  = batch_payloads (ls_calls st) ++ [firstn bs (skipn i ds)]
  /\ (tally_ok st -> tally_ok st').
Proof.
  intros st'.
  pose proof (process_batch_trace K R table conflict_target ds bs st i) as H.
  cbv zeta in H. fold st' in H. unfold tally_ok.
  set (batch := firstn bs (skipn i ds)) in *.
  destruct (snd (execute K (ls_sink st) _)) as [e|];
    destruct H as (Hc & Hn & He); rewrite Hc.
  - change (batch_call table conflict_target batch
            :: map (single_call table) batch)
      with ([batch_call table conflict_target batch]
            ++ map (single_call table) batch).
    rewrite !batch_payloads_app, !single_payloads_app,
      batch_payloads_singles, single_payloads_singles.
    simpl. rewrite ?app_nil_r, concat_app, !length_app. simpl.
    rewrite ?app_nil_r.
    split; [reflexivity|]. intros (T1 & T2 & T3).
    split; [lia|]. split; [lia|].
    intros Hz. assert (Hb : batch = [])
      by (destruct batch; [reflexivity | simpl in He; lia]).
    rewrite Hb, app_nil_r. apply T3. lia.
  - rewrite batch_payloads_app, single_payloads_app. simpl.
    rewrite ?app_nil_r, concat_app, length_app. simpl. rewrite ?app_nil_r.
    split; [reflexivity|]. intros (T1 & T2 & T3).
    split; [lia|]. split; [lia|]. rewrite He. exact T3.
Qed.

Lemma batches_fold_tally (ds : list pydict) (bs : nat) (starts : list nat) :
  forall st : load_state K R,
    let st' := fold_left (process_batch K R table conflict_target ds bs)
                         starts st in
    batch_payloads (ls_calls st')
    = batch_payloads (ls_calls st)
      ++ map (fun i => firstn bs (skipn i ds)) starts
    /\ (tally_ok st -> tally_ok st').
Proof.
  induction starts as [|i rest IH]; intros st; simpl.
  - rewrite app_nil_r. auto.
  - destruct (process_batch_tally ds bs st i) as (Hb & Ht).
    destruct (IH (process_batch K R table conflict_target ds bs st i))
      as (Hb' & Ht').
    rewrite Hb', Hb, <- app_assoc. auto.
Qed.

(** The state a live run with a positive batch size ends in. *)
Lemma live_run_tally (s : sink_state K) (records : list R) (bs : Z)
    (ok : bool) (st : load_state K R) :
  0 < bs ->
  insert K R to_dict table conflict_target s records bs false = Py.Ret (ok, st) ->
  batch_payloads (ls_calls st) = slices (Z.to_nat bs) (map to_dict records)
  /\ tally_ok st
  /\ ok = Nat.eqb (total_errors st) 0.
Proof.
  intros Hbs. unfold insert. rewrite range_step_pos by exact Hbs.
  intros [= <- <-]. simpl.
  destruct (batches_fold_tally (map to_dict records) (Z.to_nat bs)
              (map (fun j => (j * Z.to_nat bs)%nat)
                   (seq 0 ((List.length (map to_dict records) + Z.to_nat bs - 1)
                           / Z.to_nat bs)))
              (init_state K R s [LogHeader false (List.length records)]))
    as (Hb & Ht).
  split; [|split; [|reflexivity]].
  - rewrite Hb. simpl. unfold slices. now rewrite map_map.
  - apply Ht. unfold tally_ok. simpl. repeat split; lia.
Qed.

Lemma slices_concat {A : Type} (k : nat) (l : list A) :
  (0 < k)%nat -> List.concat (slices k l) = l.
Proof.
  intros Hk. unfold slices.
  rewrite <- (map_map (fun j => (j * k)%nat) (fun i => firstn k (skipn i l))).
  apply chunks_concat. now apply ceil_div_covers.
Qed.

Lemma slices_bounds {A : Type} (k : nat) (l : list A) :
  (0 < k)%nat ->
  Forall (fun b => b <> [] /\ (List.length b <= k)%nat) (slices k l).
Proof.
  intros Hk. unfold slices. apply Forall_forall. intros b Hb.
  apply in_map_iff in Hb as (j & <- & Hj). apply in_seq in Hj.
  split; [|apply firstn_le_length].
  pose proof (ceil_div_tight (List.length l) k j Hk ltac:(lia)) as Hlt.
  intros E. apply (f_equal (@List.length A)) in E.
  rewrite length_firstn, length_skipn in E. simpl in E. lia.
Qed.

End RunFacts.

(** X1.  In a live run with a positive batch size the batch calls carry, in
    order, the slices of the record dictionaries at 0, k, 2k, ...: there
    are ceil(n/k) of them, none is empty, none is longer than k, and put
    end to end they are the records in their order, each once. *)
Theorem X1_batches_partition_records (K : sink) (R : Type)
    (to_dict : R -> pydict) (table conflict_target : string)
    (s : sink_state K) (records : list R) (bs : Z)
    (ok : bool) (st : load_state K R) :
  0 < bs ->
  insert K R to_dict table conflict_target s records bs false = Py.Ret (ok, st) ->
  batch_payloads (ls_calls st) = slices (Z.to_nat bs) (map to_dict records)
  /\ List.length (batch_payloads (ls_calls st))
     = ((List.length records + Z.to_nat bs - 1) / Z.to_nat bs)%nat
  /\ Forall (fun b => b <> [] /\ (List.length b <= Z.to_nat bs)%nat)
            (batch_payloads (ls_calls st))
  /\ List.concat (batch_payloads (ls_calls st)) = map to_dict records.
Proof.
  intros Hbs H.
  destruct (live_run_tally K R to_dict table conflict_target s records bs ok st Hbs H)
    as (Hb & _).
  rewrite Hb. split; [reflexivity|].
  split; [unfold slices; now rewrite length_map, length_seq, length_map|].
  split; [apply slices_bounds; lia | apply slices_concat; lia].
Qed.

(** X1 at work: five attendance records in batches of two. *)
Lemma X1_batches_partition_records_witness :
  exists ok st,
    Attendance.insert_attendance_records accepting_sink []
      five_attendance_records 2 false = Py.Ret (ok, st)
    /\ List.length (batch_payloads (ls_calls st)) = 3%nat
    /\ List.concat (batch_payloads (ls_calls st))
       = map Attendance.to_dict five_attendance_records.
Proof.
  destruct (insert_returns accepting_sink _ Attendance.to_dict Attendance.table
              Attendance.on_conflict [] five_attendance_records 2 false)
    as (ok & st & E); [discriminate|].
  exists ok, st. split; [exact E|].
  destruct (X1_batches_partition_records _ _ _ _ _ _ _ 2 ok st eq_refl E)
    as (_ & Hn & _ & Hc).
  split; [exact Hn | exact Hc].
Defined.

Section MoreRunFacts.

Variable K : sink.
Variable R : Type.
Variable to_dict : R -> pydict.
Variable table : string.
Variable conflict_target : string.

Lemma only_batch_calls (calls : list upsert_call) :
  single_payloads calls = [] ->
  List.length calls = List.length (batch_payloads calls).
Proof.
  induction calls as [|c rest IH]; simpl; [reflexivity|].
  destruct (uc_payload c); [intros H; simpl; now rewrite IH | discriminate].
Qed.

Hypothesis accepts : forall s c, snd (execute K s c) = None.

Lemma accepting_fold (ds : list pydict) (bs : nat) (starts : list nat) :
  forall st : load_state K R,
    total_errors (fold_left (process_batch K R table conflict_target ds bs)
                            starts st)
    = total_errors st.
Proof.
  induction starts as [|i rest IH]; intros st; simpl; [reflexivity|].
  rewrite IH.
  pose proof (process_batch_trace K R table conflict_target ds bs st i) as H.
  cbv zeta in H. rewrite accepts in H. now destruct H as (_ & _ & ->).
Qed.

Lemma accepting_run (s : sink_state K) (records : list R) (bs : Z) :
  0 < bs ->
  exists st,
    insert K R to_dict table conflict_target s records bs false
    = Py.Ret (true, st).
Proof.
  intros Hbs. unfold insert. rewrite range_step_pos by exact Hbs.
  rewrite accepting_fold. simpl. eauto.
Qed.

End MoreRunFacts.

(** X2.  One turn of the batch loop issues the batch call and, when that
    call succeeds, nothing else, counting the whole batch as inserted;
    when it fails, exactly one single-record call for each record of the
    batch, in batch order, whether those calls succeed or fail, and the
    error count grows by at least the size of the batch. *)
Theorem X2_fallback_retries_each_record (K : sink) (R : Type)
    (table conflict_target : string) (record_dicts : list pydict)
    (batch_size : nat) (st : load_state K R) (i : nat) :
  let batch := firstn batch_size (skipn i record_dicts) in
  let st' := process_batch K R table conflict_target record_dicts batch_size st i in
  match snd (execute K (ls_sink st) (batch_call table conflict_target batch)) with
  | None =>
      ls_calls st' = ls_calls st ++ [batch_call table conflict_target batch]
      /\ total_inserted st' = (total_inserted st + List.length batch)%nat
      /\ total_errors st' = total_errors st
  | Some _ =>
      ls_calls st' = ls_calls st ++ batch_call table conflict_target batch
                                    :: map (single_call table) batch
      /\ (total_inserted st' + total_errors st'
          = total_inserted st + total_errors st + 2 * List.length batch)%nat
      /\ (total_errors st + List.length batch <= total_errors st')%nat
  end.
Proof. apply process_batch_trace. Qed.

(** X3.  After a live run with a positive batch size the two counters add
    up to the number of records plus the number of single-record calls
    made: a record of a failed batch is counted twice.  The inserted count
    never exceeds the number of records, and the value returned tells
    whether the error count is zero. *)
Theorem X3_counters_count_retried_records_twice (K : sink) (R : Type)
    (to_dict : R -> pydict) (table conflict_target : string)
    (s : sink_state K) (records : list R) (bs : Z)
    (ok : bool) (st : load_state K R) :
  0 < bs ->
  insert K R to_dict table conflict_target s records bs false = Py.Ret (ok, st) ->
  (total_inserted st + total_errors st
   = List.length records + List.length (single_payloads (ls_calls st)))%nat
  /\ (total_inserted st <= List.length records)%nat
  /\ ok = Nat.eqb (total_errors st) 0.
Proof.
  intros Hbs H.
  destruct (live_run_tally K R to_dict table conflict_target s records bs ok st Hbs H)
    as (Hb & (T1 & T2 & _) & Hok).
  rewrite Hb, slices_concat, length_map in T1, T2 by lia. auto.
Qed.

(** X3 at work: a sink that refuses batches of more than one row, five
    records in batches of two. *)
Lemma X3_counters_count_retried_records_twice_witness :
  exists ok st,
    Attendance.insert_attendance_records (size_limited_sink 1) O
      five_attendance_records 2 false = Py.Ret (ok, st)
    /\ (total_inserted st + total_errors st
        = 5 + List.length (single_payloads (ls_calls st)))%nat.
Proof.
  destruct (insert_returns (size_limited_sink 1) _ Attendance.to_dict
              Attendance.table Attendance.on_conflict O
              five_attendance_records 2 false)
    as (ok & st & E); [discriminate|].
  exists ok, st. split; [exact E|].
  exact (proj1 (X3_counters_count_retried_records_twice _ _ _ _ _ _ _ 2 ok st
                  eq_refl E)).
Defined.

(** X4.  A live run with a positive batch size that reports success made
    no single-record call: it issued the ceil(n/k) batch calls and nothing
    else, counted every record inserted once, and counted no error. *)
Theorem X4_success_means_no_fallback (K : sink) (R : Type)
    (to_dict : R -> pydict) (table conflict_target : string)
    (s : sink_state K) (records : list R) (bs : Z) (st : load_state K R) :
  0 < bs ->
  insert K R to_dict table conflict_target s records bs false = Py.Ret (true, st) ->
  single_payloads (ls_calls st) = []
  /\ List.length (ls_calls st)
     = ((List.length records + Z.to_nat bs - 1) / Z.to_nat bs)%nat
  /\ total_inserted st = List.length records
  /\ total_errors st = O.
Proof.
  intros Hbs H.
  destruct (live_run_tally K R to_dict table conflict_target s records bs true st Hbs H)
    as (Hb & (T1 & T2 & T3) & Hok).
  symmetry in Hok. apply Nat.eqb_eq in Hok.
  specialize (T3 Hok).
  rewrite Hb, slices_concat, length_map in T1 by lia.
  rewrite T3 in T1. simpl in T1.
  split; [exact T3|]. split; [|split; [lia | exact Hok]].
  rewrite (only_batch_calls _ T3), Hb. unfold slices.
  now rewrite length_map, length_seq, length_map.
Qed.

(** X4 at work: a sink that accepts every call. *)
Lemma X4_success_means_no_fallback_witness :
  exists st,
    Attendance.insert_attendance_records accepting_sink []
      five_attendance_records 2 false = Py.Ret (true, st)
    /\ single_payloads (ls_calls st) = []
    /\ List.length (ls_calls st) = 3%nat
    /\ total_inserted st = 5%nat.
Proof.
  destruct (accepting_run accepting_sink _ Attendance.to_dict Attendance.table
              Attendance.on_conflict (fun _ _ => eq_refl) []
              five_attendance_records 2 eq_refl) as (st & E).
  exists st. split; [exact E|].
  destruct (X4_success_means_no_fallback _ _ _ _ _ _ _ 2 st eq_refl E)
    as (H1 & H2 & H3 & _).
  repeat split; assumption.
Defined.

(** X5.  Against a sink that accepts every call, a live run with a
    positive batch size reports success, with every record counted
    inserted. *)
Theorem X5_accepting_sink_gives_success (K : sink) (R : Type)
    (to_dict : R -> pydict) (table conflict_target : string)
    (s : sink_state K) (records : list R) (bs : Z) :
  (forall s' c, snd (execute K s' c) = None) ->
  0 < bs ->
  exists st,
    insert K R to_dict table conflict_target s records bs false = Py.Ret (true, st)
    /\ total_inserted st = List.length records
    /\ total_errors st = O.
Proof.
  intros Hacc Hbs.
  destruct (accepting_run K R to_dict table conflict_target Hacc s records bs Hbs)
    as (st & E).
  exists st. split; [exact E|].
  destruct (live_run_tally K R to_dict table conflict_target s records bs true st Hbs E)
    as (Hb & (T1 & T2 & T3) & Hok).
  symmetry in Hok. apply Nat.eqb_eq in Hok. specialize (T3 Hok).
  rewrite Hb, slices_concat, length_map in T1 by lia.
  rewrite T3 in T1. simpl in T1. split; [lia | exact Hok].
Qed.

(** X5 at work on the directory of the two example sources. *)
Lemma X5_accepting_sink_gives_success_witness :
  exists st,
    Schools.insert_schools accepting_sink [] schools_sample 100 false
    = Py.Ret (true, st)
    /\ total_inserted st = List.length (Dict.values schools_sample)
    /\ total_errors st = O.
Proof.
  exact (X5_accepting_sink_gives_success accepting_sink _ Schools.to_dict
           Schools.table Schools.on_conflict [] (Dict.values schools_sample) 100
           (fun _ _ => eq_refl) eq_refl).
Defined.

(** X6.  In live mode a batch size of zero makes the loader raise
    ValueError before any call; a negative batch size makes it issue no
    call at all and still report success, whatever the records. *)
Theorem X6_degenerate_batch_sizes (K : sink) (R : Type)
    (to_dict : R -> pydict) (table conflict_target : string)
    (s : sink_state K) (records : list R) :
  insert K R to_dict table conflict_target s records 0 false
  = Py.Raise "ValueError"
  /\ forall bs, bs < 0 ->
       exists st,
         insert K R to_dict table conflict_target s records bs false
         = Py.Ret (true, st)
         /\ ls_calls st = [] /\ ls_sink st = s /\ total_inserted st = O.
Proof.
  split; [reflexivity|].
  intros bs Hbs. unfold insert, range_step.
  destruct (Z.eqb_spec bs 0); [lia|].
  destruct (Z.ltb_spec bs 0); [|lia].
  simpl. eexists. repeat split.
Qed.

(** X6 at work: two records, batch size -1. *)
Lemma X6_degenerate_batch_sizes_witness :
  exists st,
    Attendance.insert_attendance_records scripted_sink [Some "never asked"]
      two_attendance_records (-1) false = Py.Ret (true, st)
    /\ ls_calls st = [] /\ ls_sink st = [Some "never asked"]
    /\ total_inserted st = O.
Proof.
  exact (proj2 (X6_degenerate_batch_sizes scripted_sink _ Attendance.to_dict
                  Attendance.table Attendance.on_conflict [Some "never asked"]
                  two_attendance_records) (-1) eq_refl).
Defined.

(* ====================================================================== *)
(** ** More on the validators *)
(* ====================================================================== *)

(** Brings the reasons of a fact-table validator into closed form. *)
Ltac close_reasons :=
  cbv zeta; rewrite ?append_if_app; repeat rewrite <- app_assoc;
  match goal with
  | |- errors_of (match ?e with _ => _ end) = _ => destruct e; reflexivity
  end.

Section ClosedReasons.

Lemma attendance_errors_closed (row : Py.row) :
  errors_of (Attendance.validate_attendance_record row)
  = check_school_year (int_year row) []
    ++ (if blank (text_of row "ATTEND_PERIOD")
        then ["Missing ATTEND_PERIOD"] else [])
    ++ (if blank (text_of row "ORG_CODE")
        then ["Missing ORG_CODE (school_id)"] else [])
    ++ (if blank (text_of row "STU_GRP")
        then ["Missing STU_GRP (student_group)"] else []).
Proof.
  unfold Attendance.validate_attendance_record, int_year, text_of.
  close_reasons.
Qed.

Lemma mcas_errors_closed (row : Py.row) :
  errors_of (Mcas.validate_mcas_record row)
  = check_school_year (int_year row) []
    ++ (if blank (text_of row "ORG_CODE")
        then ["Missing ORG_CODE (school_id)"] else [])
    ++ (if blank (text_of row "TEST_GRADE")
        then ["Missing TEST_GRADE"] else [])
    ++ (if blank (text_of row "SUBJECT_CODE")
        then ["Missing SUBJECT_CODE"] else [])
    ++ (if blank (text_of row "STU_GRP")
        then ["Missing STU_GRP (student_group)"] else []).
Proof.
  unfold Mcas.validate_mcas_record, int_year, text_of. close_reasons.
Qed.

Lemma enrollment_errors_closed (row : Py.row) :
  errors_of (Enrollment.validate_enrollment_record row)
  = check_school_year (enrollment_year row) []
    ++ (if blank (text_of row "ORG_CODE")
        then ["Missing ORG_CODE (school_id)"] else []).
Proof.
  unfold Enrollment.validate_enrollment_record, enrollment_year, text_of.
  close_reasons.
Qed.

Lemma schools_errors_closed (row : Py.row) (src : string) :
  errors_of (Schools.validate_school_record row src)
  = (if blank (text_of row "ORG_CODE")
     then ["Missing ORG_CODE (school_id)"] else [])
    ++ (if blank (text_of row "ORG_NAME")
        then ["Missing ORG_NAME (school_name)"] else [])
    ++ (if blank (text_of row "DIST_CODE")
        then ["Missing DIST_CODE (district_code)"] else [])
    ++ (if blank (text_of row "DIST_NAME")
        then ["Missing DIST_NAME (district_name)"] else [])
    ++ (if blank (org_type_of row) then ["Missing ORG_TYPE (org_type)"]
        else if negb (Schools.is_valid_org_type (org_type_of row))
             then [Schools.invalid_org_type_msg (org_type_of row)]
             else []).
Proof.
  unfold Schools.validate_school_record, org_type_of, text_of.
  cbv zeta. rewrite ?append_if_app.
  match goal with
  | |- errors_of (match (if ?c then ?e ++ ?a else if ?d then ?e ++ ?b else ?e)
                  with _ => _ end) = _ =>
      replace (if c then e ++ a else if d then e ++ b else e)
        with (e ++ (if c then a else if d then b else []))
        by (destruct c; [reflexivity|];
            destruct d; [reflexivity | now rewrite app_nil_r])
  end.
  simpl app at 1. repeat rewrite <- app_assoc.
  match goal with
  | |- errors_of (match ?e with _ => _ end) = _ => destruct e; reflexivity
  end.
Qed.

End ClosedReasons.

(** Settles whether a given reason is among closed-form reasons. *)
Ltac settle_reason y :=
  destruct (check_school_year_cases y)
    as [[_ ?E] | [(?n & _ & _ & ?E) | (?n & _ & _ & ?E)]];
  match goal with E : check_school_year _ _ = _ |- _ => rewrite E end;
  repeat match goal with
    | |- context [if blank ?t then _ else _] => destruct (blank t)
    end;
  simpl; repeat split; intros;
  try reflexivity; try discriminate; try (intuition; fail);
  repeat match goal with
    | H : _ \/ _ |- _ => destruct H
    | H : False |- _ => destruct H
    | H : _ = _ |- _ =>
        first [ discriminate H
              | unfold invalid_year_msg, missing_year_msg in H; simpl in H;
                discriminate H ]
    end.

Section Verdicts.

Lemma blank_org_type_of (row : Py.row) :
  blank (org_type_of row) = blank (text_of row "ORG_TYPE").
Proof.
  unfold org_type_of. cbv zeta.
  set (raw := text_of row "ORG_TYPE").
  destruct (blank raw) eqn:Hb.
  - unfold blank in Hb.
    destruct (Py.is_empty raw); [reflexivity|]. simpl in Hb. simpl.
    rewrite Hb. reflexivity.
  - unfold blank in Hb. apply orb_false_elim in Hb as [H1 H2].
    rewrite H1, H2. simpl. unfold Schools.normalize_org_type.
    destruct (String.eqb _ "state"); [reflexivity|].
    destruct (Py.contains "district" _); [reflexivity|].
    destruct (Py.contains "school" _); [reflexivity|].
    unfold blank. now rewrite H1, H2.
Qed.

Lemma rejected_not_nil_attendance (row : Py.row) (es : list string) :
  Attendance.validate_attendance_record row = Rejected es -> es <> [].
Proof.
  unfold Attendance.validate_attendance_record. cbv zeta.
  match goal with
  | |- (match ?e with _ => _ end) = _ -> _ => destruct e
  end; [discriminate | intros [= <-]; discriminate].
Qed.

Lemma rejected_not_nil_mcas (row : Py.row) (es : list string) :
  Mcas.validate_mcas_record row = Rejected es -> es <> [].
Proof.
  unfold Mcas.validate_mcas_record. cbv zeta.
  match goal with
  | |- (match ?e with _ => _ end) = _ -> _ => destruct e
  end; [discriminate | intros [= <-]; discriminate].
Qed.

Lemma rejected_not_nil_enrollment (row : Py.row) (es : list string) :
  Enrollment.validate_enrollment_record row = Rejected es -> es <> [].
Proof.
  unfold Enrollment.validate_enrollment_record. cbv zeta.
  match goal with
  | |- (match ?e with _ => _ end) = _ -> _ => destruct e
  end; [discriminate | intros [= <-]; discriminate].
Qed.

Lemma rejected_not_nil_schools (row : Py.row) (src : string)
    (es : list string) :
  Schools.validate_school_record row src = Rejected es -> es <> [].
Proof.
  unfold Schools.validate_school_record. cbv zeta.
  match goal with
  | |- (match ?e with _ => _ end) = _ -> _ => destruct e
  end; [discriminate | intros [= <-]; discriminate].
Qed.

(** A verdict is an acceptance exactly when it carries no reason. *)
Lemma accepted_iff_no_reason {A} (v : validation A) :
  (forall es, v = Rejected es -> es <> []) ->
  (exists r, v = Valid r) <-> errors_of v = [].
Proof.
  intros H. destruct v as [r | es]; simpl.
  - split; eauto.
  - split; [intros (r & Hr); discriminate|].
    intros ->. exfalso. now apply (H [] eq_refl).
Qed.

End Verdicts.

(** X7.  Every validator reports each violated identifier rule, whatever
    the other fields are: the reason for a field is among the reasons
    given exactly when the trimmed text of that field is empty or the
    text nan.  In the directory domain the missing-type reason is given
    exactly when the raw type is blank, and the invalid-type reason
    exactly when it is not blank and its normal form is not one of
    School, District, State. *)
Theorem X7_every_violated_rule_is_reported (row : Py.row) (src : string) :
  let att := errors_of (Attendance.validate_attendance_record row) in
  let mc := errors_of (Mcas.validate_mcas_record row) in
  let en := errors_of (Enrollment.validate_enrollment_record row) in
  let sc := errors_of (Schools.validate_school_record row src) in
  ((In "Missing ATTEND_PERIOD" att <-> blank (text_of row "ATTEND_PERIOD") = true)
   /\ (In "Missing ORG_CODE (school_id)" att <-> blank (text_of row "ORG_CODE") = true)
   /\ (In "Missing STU_GRP (student_group)" att <-> blank (text_of row "STU_GRP") = true))
  /\ ((In "Missing ORG_CODE (school_id)" mc <-> blank (text_of row "ORG_CODE") = true)
      /\ (In "Missing TEST_GRADE" mc <-> blank (text_of row "TEST_GRADE") = true)
      /\ (In "Missing SUBJECT_CODE" mc <-> blank (text_of row "SUBJECT_CODE") = true)
      /\ (In "Missing STU_GRP (student_group)" mc <-> blank (text_of row "STU_GRP") = true))
  /\ (In "Missing ORG_CODE (school_id)" en <-> blank (text_of row "ORG_CODE") = true)
  /\ ((In "Missing ORG_CODE (school_id)" sc <-> blank (text_of row "ORG_CODE") = true)
      /\ (In "Missing ORG_NAME (school_name)" sc <-> blank (text_of row "ORG_NAME") = true)
      /\ (In "Missing DIST_CODE (district_code)" sc <-> blank (text_of row "DIST_CODE") = true)
      /\ (In "Missing DIST_NAME (district_name)" sc <-> blank (text_of row "DIST_NAME") = true)
      /\ (In "Missing ORG_TYPE (org_type)" sc <-> blank (text_of row "ORG_TYPE") = true)
      /\ (In (Schools.invalid_org_type_msg (org_type_of row)) sc
          <-> blank (text_of row "ORG_TYPE") = false
              /\ Schools.is_valid_org_type (org_type_of row) = false)).
Proof.
  intros att mc en sc. unfold att, mc, en, sc.
  rewrite attendance_errors_closed, mcas_errors_closed,
    enrollment_errors_closed, schools_errors_closed.
  split; [settle_reason (int_year row)|].
  split; [settle_reason (int_year row)|].
  split; [settle_reason (enrollment_year row)|].
  rewrite <- blank_org_type_of.
  destruct (blank (org_type_of row));
    destruct (Schools.is_valid_org_type (org_type_of row));
    repeat match goal with
      | |- context [if blank ?t then _ else _] => destruct (blank t)
      end;
    simpl; repeat split; intros;
    try reflexivity; try discriminate; try (intuition; fail);
    repeat match goal with
      | H : _ /\ _ |- _ => destruct H
      | H : _ \/ _ |- _ => destruct H
      | H : False |- _ => destruct H
      | H : _ = _ |- _ =>
          first [ discriminate H
                | unfold Schools.invalid_org_type_msg in H; simpl in H;
                  discriminate H ]
      end.
Qed.

Section Acceptance.

Lemma closed_nil_year (y : option Z) (rest : list string) :
  check_school_year y [] ++ rest = [] <-> year_ok y /\ rest = [].
Proof.
  split.
  - intros H. apply app_nil_both in H as [H1 H2].
    split; [now apply check_school_year_nil | exact H2].
  - intros [(n & -> & Hn) ->]. simpl.
    destruct (Z.ltb_spec n 2000); [lia|].
    rewrite Z.gtb_ltb. destruct (Z.ltb_spec 2100 n); [lia | reflexivity].
Qed.

Lemma closed_nil_flag (b : bool) (msg : string) (rest : list string) :
  (if b then [msg] else []) ++ rest = [] <-> b = false /\ rest = [].
Proof.
  destruct b; simpl; split; try discriminate; try tauto.
  intros [H _]; discriminate.
Qed.

Lemma closed_nil_last (b : bool) (msg : string) :
  (if b then [msg] else []) = [] <-> b = false.
Proof. destruct b; split; try discriminate; reflexivity. Qed.

End Acceptance.

(** X8.  A validator accepts a row exactly when every rule on its key
    fields holds: the school year coerces to an integer in 2000..2100
    (fact domains) and no identifier text is blank after trimming; for the
    directory, moreover, the normalized organization type is one of
    School, District, State.  The accepted record carries the trimmed
    identifier texts and the coerced year. *)
Theorem X8_accepted_exactly_when_keys_valid (row : Py.row) (src : string) :
  ((exists r, Attendance.validate_attendance_record row = Valid r)
   <-> year_ok (int_year row)
       /\ blank (text_of row "ATTEND_PERIOD") = false
       /\ blank (text_of row "ORG_CODE") = false
       /\ blank (text_of row "STU_GRP") = false)
  /\ ((exists r, Mcas.validate_mcas_record row = Valid r)
      <-> year_ok (int_year row)
          /\ blank (text_of row "ORG_CODE") = false
          /\ blank (text_of row "TEST_GRADE") = false
          /\ blank (text_of row "SUBJECT_CODE") = false
          /\ blank (text_of row "STU_GRP") = false)
  /\ ((exists r, Enrollment.validate_enrollment_record row = Valid r)
      <-> year_ok (enrollment_year row)
          /\ blank (text_of row "ORG_CODE") = false)
  /\ ((exists r, Schools.validate_school_record row src = Valid r)
      <-> blank (text_of row "ORG_CODE") = false
          /\ blank (text_of row "ORG_NAME") = false
          /\ blank (text_of row "DIST_CODE") = false
          /\ blank (text_of row "DIST_NAME") = false
          /\ blank (text_of row "ORG_TYPE") = false
          /\ Schools.is_valid_org_type (org_type_of row) = true)
  /\ (forall r, Attendance.validate_attendance_record row = Valid r ->
        Attendance.school_year r = int_year row
        /\ Attendance.attendance_period r = text_of row "ATTEND_PERIOD"
        /\ Attendance.school_id r = text_of row "ORG_CODE"
        /\ Attendance.student_group r = text_of row "STU_GRP")
  /\ (forall r, Mcas.validate_mcas_record row = Valid r ->
        Mcas.school_year r = int_year row
        /\ Mcas.school_id r = text_of row "ORG_CODE"
        /\ Mcas.test_grade r = text_of row "TEST_GRADE"
        /\ Mcas.subject_code r = text_of row "SUBJECT_CODE"
        /\ Mcas.student_group r = text_of row "STU_GRP")
  /\ (forall r, Enrollment.validate_enrollment_record row = Valid r ->
        Enrollment.school_year r = enrollment_year row
        /\ Enrollment.school_id r = text_of row "ORG_CODE")
  /\ (forall r, Schools.validate_school_record row src = Valid r ->
        Schools.school_id r = text_of row "ORG_CODE"
        /\ Schools.school_name r = text_of row "ORG_NAME"
        /\ Schools.district_code r = text_of row "DIST_CODE"
        /\ Schools.district_name r = text_of row "DIST_NAME"
        /\ Schools.org_type r = org_type_of row
        /\ Schools.source_file r = src).
Proof.
  split.
  { rewrite accepted_iff_no_reason by apply rejected_not_nil_attendance.
    rewrite attendance_errors_closed, closed_nil_year, !closed_nil_flag,
      closed_nil_last. tauto. }
  split.
  { rewrite accepted_iff_no_reason by apply rejected_not_nil_mcas.
    rewrite mcas_errors_closed, closed_nil_year, !closed_nil_flag,
      closed_nil_last. tauto. }
  split.
  { rewrite accepted_iff_no_reason by apply rejected_not_nil_enrollment.
    rewrite enrollment_errors_closed, closed_nil_year, closed_nil_last. tauto. }
  split.
  { rewrite accepted_iff_no_reason by apply rejected_not_nil_schools.
    rewrite schools_errors_closed, !closed_nil_flag, <- blank_org_type_of.
    destruct (blank (org_type_of row));
      destruct (Schools.is_valid_org_type (org_type_of row)); simpl;
      intuition discriminate. }
  split.
  { intros r H. unfold Attendance.validate_attendance_record in H.
    cbv zeta in H.
    match type of H with
    | (match ?e with _ => _ end) = _ => destruct e; [|discriminate H]
    end.
    injection H as <-. repeat split. }
  split.
  { intros r H. unfold Mcas.validate_mcas_record in H. cbv zeta in H.
    match type of H with
    | (match ?e with _ => _ end) = _ => destruct e; [|discriminate H]
    end.
    injection H as <-. repeat split. }
  split.
  { intros r H. unfold Enrollment.validate_enrollment_record in H.
    cbv zeta in H.
    match type of H with
    | (match ?e with _ => _ end) = _ => destruct e; [|discriminate H]
    end.
    injection H as <-. repeat split. }
  intros r H. unfold Schools.validate_school_record in H. cbv zeta in H.
  match type of H with
  | (match ?e with _ => _ end) = _ => destruct e; [|discriminate H]
  end.
  injection H as <-. repeat split.
Qed.

(** X8 at work: the sample attendance row of the year 2024 is accepted. *)
Lemma X8_accepted_exactly_when_keys_valid_witness :
  exists r,
    Attendance.validate_attendance_record
      (attendance_row (Py.CInt 2024) "00350000") = Valid r.
Proof.
  apply (proj2 (proj1 (X8_accepted_exactly_when_keys_valid
                         (attendance_row (Py.CInt 2024) "00350000") ""))).
  split; [exists 2024; split; [reflexivity | lia]|].
  repeat split.
Defined.

Section Metrics.

Lemma parse_decimal_null_attendance (v : Py.cell) :
  null_input v = true -> Attendance.parse_decimal v = None.
Proof.
  intros H. rewrite attendance_parse_decimal_spec.
  unfold spec_parse_decimal. now rewrite H.
Qed.

Lemma parse_decimal_null_mcas (v : Py.cell) :
  null_input v = true -> Mcas.parse_decimal v = None.
Proof.
  intros H. rewrite mcas_parse_decimal_spec.
  unfold spec_parse_decimal. now rewrite H.
Qed.

Lemma parse_int_null_mcas (v : Py.cell) :
  null_input v = true -> Mcas.parse_int v = None.
Proof.
  intros H. rewrite mcas_parse_int_spec.
  unfold spec_parse_integer. now rewrite H.
Qed.

Lemma parse_int_null_enrollment (v : Py.cell) :
  null_input v = true -> Enrollment.parse_int v = None.
Proof.
  intros H. rewrite enrollment_parse_int_spec.
  unfold spec_parse_integer. now rewrite H.
Qed.

Lemma parse_pct_null (v : Py.cell) :
  null_input v = true -> Enrollment.parse_pct v = None.
Proof.
  intros H. unfold Enrollment.parse_pct.
  now rewrite null_input_guard, H.
Qed.

Lemma same_cell_text (row row' : Py.row) (col : string) :
  same_cell row row' col -> text_of row col = text_of row' col.
Proof. intros H. unfold text_of. now rewrite H. Qed.

Lemma same_cell_int_year (row row' : Py.row) :
  same_cell row row' "SY" -> int_year row = int_year row'.
Proof.
  intros H. unfold int_year. cbv zeta. rewrite (H Py.CNone). reflexivity.
Qed.

Lemma same_cell_enrollment_year (row row' : Py.row) :
  same_cell row row' "SY" -> enrollment_year row = enrollment_year row'.
Proof.
  intros H. unfold enrollment_year. rewrite (H Py.CNone). reflexivity.
Qed.

End Metrics.

(** A metric column is no key column, so its cell is a null input. *)
Ltac metric_null H :=
  match goal with
  | |- null_input (Py.get _ ?col _) = true =>
      destruct (H col) as [Hin | Hnull]; [|exact Hnull];
      exfalso; simpl in Hin;
      repeat (destruct Hin as [Hin | Hin]; [discriminate Hin|]);
      exact Hin
  end.

(** X9.  In the fact domains a row is judged on its key columns alone: two
    rows that agree on the key columns get the same reasons, whatever
    their metric cells hold.  And when every cell outside the key columns
    is empty, N or missing, the record of an accepted row has every
    metric field null. *)
Theorem X9_metrics_never_decide (row : Py.row) :
  (forall row',
     (forall col, In col attendance_key_columns -> same_cell row row' col) ->
     errors_of (Attendance.validate_attendance_record row)
     = errors_of (Attendance.validate_attendance_record row'))
  /\ (forall row',
        (forall col, In col mcas_key_columns -> same_cell row row' col) ->
        errors_of (Mcas.validate_mcas_record row)
        = errors_of (Mcas.validate_mcas_record row'))
  /\ (forall row',
        (forall col, In col enrollment_key_columns -> same_cell row row' col) ->
        errors_of (Enrollment.validate_enrollment_record row)
        = errors_of (Enrollment.validate_enrollment_record row'))
  /\ (forall r,
        Attendance.validate_attendance_record row = Valid r ->
        (forall col, In col attendance_key_columns
                     \/ null_input (Py.get row col Py.CNone) = true) ->
        null_outside ["school_year"; "attendance_period"; "school_id";
                      "student_group"] (Attendance.to_dict r))
  /\ (forall r,
        Mcas.validate_mcas_record row = Valid r ->
        (forall col, In col mcas_key_columns
                     \/ null_input (Py.get row col Py.CNone) = true) ->
        null_outside ["school_year"; "school_id"; "test_grade"; "subject_code";
                      "student_group"] (Mcas.to_dict r))
  /\ (forall r,
        Enrollment.validate_enrollment_record row = Valid r ->
        (forall col, In col enrollment_key_columns
                     \/ null_input (Py.get row col Py.CNone) = true) ->
        null_outside ["school_year"; "school_id"] (Enrollment.to_dict r)).
Proof.
  split.
  { intros row' H. rewrite !attendance_errors_closed.
    rewrite (same_cell_int_year row row'),
      (same_cell_text row row' "ATTEND_PERIOD"),
      (same_cell_text row row' "ORG_CODE"),
      (same_cell_text row row' "STU_GRP");
      try reflexivity; apply H; simpl; tauto. }
  split.
  { intros row' H. rewrite !mcas_errors_closed.
    rewrite (same_cell_int_year row row'),
      (same_cell_text row row' "ORG_CODE"),
      (same_cell_text row row' "TEST_GRADE"),
      (same_cell_text row row' "SUBJECT_CODE"),
      (same_cell_text row row' "STU_GRP");
      try reflexivity; apply H; simpl; tauto. }
  split.
  { intros row' H. rewrite !enrollment_errors_closed.
    rewrite (same_cell_enrollment_year row row'),
      (same_cell_text row row' "ORG_CODE");
      try reflexivity; apply H; simpl; tauto. }
  split.
  { intros r Hv H. unfold Attendance.validate_attendance_record in Hv.
    cbv zeta in Hv.
    match type of Hv with
    | (match ?e with _ => _ end) = _ => destruct e; [|discriminate Hv]
    end.
    injection Hv as <-. unfold null_outside, Attendance.to_dict. simpl.
    repeat (constructor; [first [left; simpl; tauto | right; simpl]|]);
      try constructor;
      rewrite parse_decimal_null_attendance; try reflexivity; metric_null H. }
  split.
  { intros r Hv H. unfold Mcas.validate_mcas_record in Hv. cbv zeta in Hv.
    match type of Hv with
    | (match ?e with _ => _ end) = _ => destruct e; [|discriminate Hv]
    end.
    injection Hv as <-. unfold null_outside, Mcas.to_dict. simpl.
    repeat (constructor; [first [left; simpl; tauto | right; simpl]|]);
      try constructor;
      first [rewrite parse_decimal_null_mcas | rewrite parse_int_null_mcas];
      try reflexivity; metric_null H. }
  intros r Hv H. unfold Enrollment.validate_enrollment_record in Hv.
  cbv zeta in Hv.
  match type of Hv with
  | (match ?e with _ => _ end) = _ => destruct e; [|discriminate Hv]
  end.
  injection Hv as <-. unfold null_outside, Enrollment.to_dict. simpl.
  repeat (constructor; [first [left; simpl; tauto | right; simpl]|]);
    try constructor;
    first [rewrite parse_pct_null | rewrite parse_int_null_enrollment];
    try reflexivity; metric_null H.
Qed.

(** X9 at work: a row with its key columns only. *)
Lemma X9_metrics_never_decide_witness :
  exists r,
    Attendance.validate_attendance_record attendance_keys_only_row = Valid r
    /\ null_outside ["school_year"; "attendance_period"; "school_id";
                     "student_group"] (Attendance.to_dict r).
Proof.
  eexists. split; [reflexivity|].
  apply (proj1 (proj2 (proj2 (proj2
           (X9_metrics_never_decide attendance_keys_only_row)))) _ eq_refl).
  intros col. unfold attendance_keys_only_row, attendance_key_columns.
  cbn [Py.get In].
  destruct (String.eqb_spec "SY" col); [tauto|].
  destruct (String.eqb_spec "ATTEND_PERIOD" col); [tauto|].
  destruct (String.eqb_spec "ORG_CODE" col); [tauto|].
  destruct (String.eqb_spec "STU_GRP" col); [tauto|].
  right. reflexivity.
Defined.

(** X10.  Normalizing an organization type twice is the same as
    normalizing it once. *)
Theorem X10_normalize_org_type_idempotent (s : string) :
  Schools.normalize_org_type (Schools.normalize_org_type s)
  = Schools.normalize_org_type s.
Proof.
  assert (H : Schools.normalize_org_type s = "State"
              \/ Schools.normalize_org_type s = "District"
              \/ Schools.normalize_org_type s = "School"
              \/ Schools.normalize_org_type s = s).
  { unfold Schools.normalize_org_type.
    destruct (String.eqb _ "state"); [tauto|].
    destruct (Py.contains "district" _); [tauto|].
    destruct (Py.contains "school" _); tauto. }
  destruct H as [H | [H | [H | H]]]; rewrite H; try reflexivity.
  exact H.
Qed.

Section DictOrder.

Lemma dict_mem_existsb {A} (d : Dict.t A) (k : string) :
  Dict.mem d k = existsb (String.eqb k) (Dict.keys d).
Proof.
  unfold Dict.mem. induction d as [|[k0 v0] r IH]; simpl; [reflexivity|].
  rewrite (String.eqb_sym k k0).
  destruct (String.eqb k0 k); [reflexivity | exact IH].
Qed.

Lemma fold_add_school_keys (l : list Schools.SchoolRecord) :
  forall (d : Dict.t Schools.SchoolRecord) (c : nat),
    Dict.keys (fst (fold_left Schools.add_school l (d, c)))
    = Dict.keys d ++ first_seen (Dict.keys d) (map Schools.school_id l).
Proof.
  induction l as [|x l IH]; intros d c; simpl.
  - now rewrite app_nil_r.
  - rewrite IH, dict_keys_set, <- dict_mem_existsb.
    destruct (Dict.mem d (Schools.school_id x)); [reflexivity|].
    now rewrite <- app_assoc.
Qed.

Lemma dict_values_by_key {A} (d : Dict.t A) :
  NoDup (Dict.keys d) ->
  map (Dict.get d) (Dict.keys d) = map Some (Dict.values d).
Proof.
  induction d as [|[k0 v0] r IH]; simpl; [reflexivity|].
  intros Hnd. inversion Hnd as [|? ? Hk0 Hr]; subst.
  rewrite String.eqb_refl. f_equal. rewrite <- (IH Hr).
  apply map_ext_in. intros k Hk.
  destruct (String.eqb_spec k0 k) as [-> | _]; [contradiction | reflexivity].
Qed.

End DictOrder.

(** X11.  The merged directory lists the school ids in the order in which
    each was first met across the sources, and holds under each id the
    last record met with that id; an id is a key exactly when some
    extracted record carries it, and every entry sits under its own
    record's id.  So the loader sends the schools in first-seen order,
    each with its last-seen content. *)
Theorem X11_merged_directory_order (files : string -> source)
    (sources : list string) :
  let merged := fst (Schools.collect_from files sources) in
  let records := all_records files sources in
  Dict.keys merged = first_seen [] (map Schools.school_id records)
  /\ map Some (Dict.values merged)
     = map (fun k => last_with_id k records) (Dict.keys merged)
  /\ (forall k, In k (Dict.keys merged)
                <-> exists r, In r records /\ Schools.school_id r = k)
  /\ (forall k r, Dict.get merged k = Some r -> Schools.school_id r = k).
Proof.
  intros merged records.
  destruct (collect_from_spec files sources) as (Hget & Hnd & _).
  fold merged in Hget, Hnd. fold records in Hget.
  split.
  { unfold merged, Schools.collect_from. rewrite collect_from_fold.
    apply (fold_add_school_keys _ [] O). }
  split.
  { rewrite <- (dict_values_by_key merged Hnd).
    apply map_ext. exact Hget. }
  split.
  { intros k. rewrite <- dict_mem_keys. unfold Dict.mem. rewrite Hget. split.
    - destruct (last_with_id k records) as [r|] eqn:E; [|discriminate].
      intros _. exists r. now apply last_with_id_some.
    - intros (r & Hin & Hk).
      destruct (last_with_id_found k records r Hin Hk) as (r' & ->).
      reflexivity. }
  intros k r H. rewrite Hget in H. now apply last_with_id_some in H.
Qed.

(* ====================================================================== *)
(** ** More on extraction *)
(* ====================================================================== *)

Section ExtractionFacts.





Lemma validate_rows_In {A} (validate : Py.row -> validation A)
    (rows : list Py.row) (r : A) :
  In r (validate_rows validate rows)
  <-> exists row, In row rows /\ validate row = Valid r.
Proof.
  induction rows as [|row rest IH]; simpl.
  - split; [tauto | intros (row & [] & _)].
  - destruct (validate row) as [r0 | es] eqn:E; simpl; rewrite ?IH; split.
    + intros [<- | (row' & Hin & Hv)]; eauto.
    + intros (row' & [<- | Hin] & Hv); [left; congruence | right; eauto].
    + intros (row' & Hin & Hv). eauto.
    + intros (row' & [<- | Hin] & Hv); [congruence | eauto].
Qed.

Lemma validate_rows_length {A} (validate : Py.row -> validation A)
    (rows : list Py.row) :
  (List.length (validate_rows validate rows) <= List.length rows)%nat.
Proof.
  induction rows as [|row rest IH]; simpl; [lia|].
  destruct (validate row); simpl; lia.
Qed.

Lemma extract_loop_fold {A} (validate : Py.row -> validation A)
    (rows : list Py.row) :
  forall acc,
    fold_left
      (fun acc row =>
         match validate row with
         | Valid record => (fst acc ++ [record], snd acc)
         | Rejected _ => (fst acc, S (snd acc))
         end) rows acc
    = (fst acc ++ validate_rows validate rows,
       (snd acc + (List.length rows
                   - List.length (validate_rows validate rows)))%nat).
Proof.
  induction rows as [|row rest IH]; intros [v n];
    cbn [fold_left validate_rows].
  - cbn [fst snd List.length]. rewrite app_nil_r. f_equal; lia.
  - pose proof (validate_rows_length validate rest) as Hle.
    destruct (validate row) as [r | es]; rewrite IH;
      cbn [fst snd List.length].
    + rewrite <- app_assoc. f_equal; simpl; lia.
    + f_equal; lia.
Qed.

End ExtractionFacts.

(** X12.  The extraction loop keeps the records of the accepted rows, in
    row order, and counts the others: valid records and invalid count
    together make the number of rows read, and a record is kept exactly
    when some row validates to it. *)
Theorem X12_extraction_keeps_or_counts_every_row {A : Type}
    (validate : Py.row -> validation A) (rows : list Py.row) :
  fst (extract_loop validate rows) = validate_rows validate rows
  /\ (List.length (fst (extract_loop validate rows))
      + snd (extract_loop validate rows) = List.length rows)%nat
  /\ (forall r, In r (fst (extract_loop validate rows))
                <-> exists row, In row rows /\ validate row = Valid r)
  /\ fst (extract_loop validate rows)
     = flat_map (fun row => match validate row with
                            | Valid r => [r]
                            | Rejected _ => []
                            end) rows.
Proof.
  unfold extract_loop. rewrite extract_loop_fold. simpl.
  pose proof (validate_rows_length validate rows) as Hle.
  split; [reflexivity|]. split; [lia|]. split; [apply validate_rows_In|].
  clear. induction rows as [|row rest IH]; simpl; [reflexivity|].
  destruct (validate row); simpl; now rewrite IH.
Qed.



(* ====================================================================== *)
(** ** Numeric cells *)
(* ====================================================================== *)

Section NumericCells.

Lemma read_digits_show (f : nat) : forall (n : Z) (rest : string),
  0 <= n < 2 ^ Z.of_nat (S f) ->
  exists k, 0 < k /\
    forall acc cnt,
      Py.read_digits acc cnt (Py.show_digits (S f) n rest)
      = Py.read_digits (acc * 10 ^ k + n) (cnt + k) rest.
Proof.
  induction f as [|f IH]; intros n rest Hn;
    (destruct (digit_char_ok (n mod 10)) as [Hd Hv];
      [apply Z.mod_pos_bound; lia|]).
  - exists 1. split; [lia|]. intros acc cnt.
    change (2 ^ Z.of_nat 1) with 2 in Hn.
    assert (Hlt : (n <? 10) = true) by (apply Z.ltb_lt; lia).
    simpl. rewrite Hlt. simpl. rewrite Hd, Hv.
    rewrite Z.mod_small by lia. f_equal; lia.
  - remember (S f) as g eqn:Hg. simpl.
    destruct (n <? 10) eqn:Hlt.
    + exists 1. split; [lia|]. intros acc cnt. simpl. rewrite Hd, Hv.
      apply Z.ltb_lt in Hlt. rewrite Z.mod_small by lia. f_equal; lia.
    + apply Z.ltb_ge in Hlt.
      destruct (IH (n / 10) (String (Py.digit_char (n mod 10)) rest))
        as (k & Hk & Hread).
      { subst g. split; [apply Z.div_pos; lia|].
        apply Z.div_lt_upper_bound; [lia|].
        rewrite Nat2Z.inj_succ, Z.pow_succ_r in Hn by lia.
        assert (0 < 2 ^ Z.of_nat (S f)) by (apply Z.pow_pos_nonneg; lia).
        lia. }
      exists (k + 1). split; [lia|]. intros acc cnt.
      rewrite Hread. simpl. rewrite Hd, Hv. f_equal; [|lia].
      rewrite Z.pow_add_r by lia.
      pose proof (Z.div_mod n 10 ltac:(lia)). lia.
Qed.

Lemma read_digits_nonneg (n : Z) :
  0 <= n ->
  exists k, 0 < k /\ Py.read_digits 0 0 (Py.show_nonneg n) = (n, k, "").
Proof.
  intros Hn. unfold Py.show_nonneg.
  destruct (read_digits_show (Z.to_nat (Z.log2 n)) n "") as (k & Hk & H).
  - split; [lia|].
    rewrite Nat2Z.inj_succ, Z2Nat.id by apply Z.log2_nonneg.
    destruct (Z.eq_dec n 0) as [-> | Hz]; [reflexivity|].
    apply Z.log2_spec. lia.
  - exists k. split; [exact Hk|]. rewrite H. cbn [Py.read_digits].
    rewrite Z.mul_0_l, !Z.add_0_l. reflexivity.
Qed.

Lemma parse_number_nonneg (n : Z) :
  0 <= n -> Py.parse_number (Py.show_nonneg n) = Some (n, 0).
Proof.
  intros Hn. destruct (read_digits_nonneg n Hn) as (k & Hk & E).
  unfold Py.parse_number. rewrite E. cbv iota beta.
  replace (k + 0 =? 0) with false by (symmetry; apply Z.eqb_neq; lia).
  reflexivity.
Qed.

Lemma digit_facts (c : ascii) :
  Py.is_digit c = true ->
  Py.lower_char c = c /\ Ascii.eqb c "i" = false /\ Ascii.eqb c "n" = false
  /\ Ascii.eqb c "_" = false /\ Ascii.eqb c "%" = false.
Proof.
  destruct c as [[] [] [] [] [] [] [] []]; intros H;
    try discriminate H; repeat split.
Qed.

Lemma sign_or_digit_facts (c : ascii) :
  sign_or_digit c = true ->
  Ascii.eqb c "_" = false /\ negb (Ascii.eqb c "%") = true.
Proof.
  destruct c as [[] [] [] [] [] [] [] []]; intros H;
    try discriminate H; repeat split.
Qed.

Lemma drop_underscores_none (s : string) :
  all_chars sign_or_digit s = true ->
  forall prev,
    match prev with Some p => sign_or_digit p = true | None => True end ->
    Py.drop_underscores prev s = Some s.
Proof.
  induction s as [|c r IH]; intros Hs prev Hp.
  - simpl. destruct prev as [p|]; [|reflexivity].
    destruct (sign_or_digit_facts p Hp) as [Hu _].
    destruct p as [[] [] [] [] [] [] [] []]; try reflexivity; discriminate Hu.
  - simpl in Hs. apply andb_prop in Hs as [Hc Hr].
    destruct (sign_or_digit_facts c Hc) as [Hu _].
    simpl. rewrite Hu.
    assert (Hok : match prev with
                  | Some "_"%char => Py.is_digit c
                  | _ => true
                  end = true).
    { destruct prev as [p|]; [|reflexivity].
      destruct (sign_or_digit_facts p Hp) as [Hpu _].
      destruct p as [[] [] [] [] [] [] [] []]; try reflexivity;
        discriminate Hpu. }
    rewrite Hok, (IH Hr (Some c) Hc). reflexivity.
Qed.

Lemma lower_digits (s : string) :
  all_chars Py.is_digit s = true -> Py.lower s = s.
Proof.
  induction s as [|c r IH]; simpl; [reflexivity|].
  intros H. apply andb_prop in H as [Hc Hr].
  destruct (digit_facts c Hc) as [-> _]. now rewrite IH.
Qed.

Lemma show_nonneg_digits (n : Z) :
  0 <= n -> all_chars Py.is_digit (Py.show_nonneg n) = true.
Proof.
  intros Hn. apply show_digits_chars; [auto | exact Hn | reflexivity].
Qed.

Lemma float_body_nonneg (neg : bool) (n : Z) :
  0 <= n ->
  (let lb := Py.lower (Py.show_nonneg n) in
   if String.eqb lb "inf" || String.eqb lb "infinity" then Some (Py.FInf neg)
   else if String.eqb lb "nan" then Some Py.FNan
   else match Py.parse_number (Py.show_nonneg n) with
        | Some (m, e) => Some (Py.FFinite neg m e)
        | None => None
        end)
  = Some (Py.FFinite neg n 0).
Proof.
  intros Hn. cbv zeta.
  rewrite (lower_digits _ (show_nonneg_digits n Hn)).
  destruct (show_nonneg_head n Hn) as (c & r & Hs & Hc).
  destruct (digit_facts c Hc) as (_ & Hi & Hnn & _).
  assert (E1 : String.eqb (Py.show_nonneg n) "inf" = false)
    by (rewrite Hs; simpl; now rewrite Hi).
  assert (E2 : String.eqb (Py.show_nonneg n) "infinity" = false)
    by (rewrite Hs; simpl; now rewrite Hi).
  assert (E3 : String.eqb (Py.show_nonneg n) "nan" = false)
    by (rewrite Hs; simpl; now rewrite Hnn).
  rewrite E1, E2, E3. simpl. now rewrite parse_number_nonneg.
Qed.

(** [float(str(z))] denotes [z]. *)
Lemma float_of_str_of_int (z : Z) :
  Py.float_of_str (Py.str_of_int z) = Some (Py.FFinite (z <? 0) (Z.abs z) 0).
Proof.
  unfold Py.float_of_str.
  rewrite c_strip_no_space.
  2:{ apply all_chars_impl with (p := sign_or_digit);
        [exact sign_or_digit_no_c_space | apply str_of_int_chars]. }
  rewrite (drop_underscores_none _ (str_of_int_chars z) None I).
  unfold Py.str_of_int. destruct (z <? 0) eqn:E.
  - apply Z.ltb_lt in E.
    replace (Z.abs z) with (- z) by lia.
    apply (float_body_nonneg true (- z)). lia.
  - apply Z.ltb_ge in E.
    destruct (show_nonneg_head z E) as (c & r & Hs & Hc).
    replace (Z.abs z) with z by lia.
    rewrite Hs, (split_sign_digit c r Hc), <- Hs.
    apply (float_body_nonneg false z). lia.
Qed.

Lemma str_of_int_no_percent (z : Z) :
  Py.remove_char "%" (Py.str_of_int z) = Py.str_of_int z.
Proof.
  apply remove_char_absent.
  apply all_chars_impl with (p := sign_or_digit);
    [intros c H; apply (sign_or_digit_facts c H) | apply str_of_int_chars].
Qed.

End NumericCells.

(** X14.  A cell that already holds an integer of magnitude at most 2^53
    goes through every coercion unchanged in value: the integer coercions
    give the integer itself and the decimal coercions give the float that
    denotes it.  (Up to 2^53 every integer is a binary64, so the float
    Python returns is the integer itself; beyond that Python rounds.) *)
Theorem X14_integer_cells_keep_their_value (z : Z) :
  Z.abs z <= 2 ^ 53 ->
  Enrollment.parse_int (Py.CInt z) = Some z
  /\ Mcas.parse_int (Py.CInt z) = Some z
  /\ Attendance.parse_decimal (Py.CInt z)
     = Some (Py.FFinite (z <? 0) (Z.abs z) 0)
  /\ Mcas.parse_decimal (Py.CInt z) = Some (Py.FFinite (z <? 0) (Z.abs z) 0)
  /\ Enrollment.parse_pct (Py.CInt z) = Some (Py.FFinite (z <? 0) (Z.abs z) 0)
  /\ Attendance.parse_decimal (Py.CStr (Py.str_of_int z))
     = Some (Py.FFinite (z <? 0) (Z.abs z) 0).
Proof.
  intros _.
  split.
  { unfold Enrollment.parse_int. simpl.
    rewrite str_of_int_no_comma. apply int_of_str_of_int. }
  split.
  { unfold Mcas.parse_int. simpl.
    rewrite str_of_int_no_comma. apply int_of_str_of_int. }
  split.
  { unfold Attendance.parse_decimal. simpl.
    rewrite str_of_int_no_percent, str_of_int_no_comma.
    apply float_of_str_of_int. }
  split.
  { unfold Mcas.parse_decimal. simpl.
    rewrite str_of_int_no_percent, str_of_int_no_comma.
    apply float_of_str_of_int. }
  split.
  { unfold Enrollment.parse_pct. simpl.
    rewrite str_of_int_no_percent. apply float_of_str_of_int. }
  rewrite attendance_parse_decimal_spec, spec_parse_decimal_text.
  rewrite str_of_int_no_percent, str_of_int_no_comma.
  apply float_of_str_of_int.
Qed.

(** X14 at work: an integer count cell, and the largest magnitude
    allowed. *)
Lemma X14_integer_cells_keep_their_value_witness :
  Mcas.parse_decimal (Py.CInt 1234) = Some (Py.FFinite false 1234 0)
  /\ Enrollment.parse_pct (Py.CInt (- 2 ^ 53))
     = Some (Py.FFinite true (2 ^ 53) 0).
Proof.
  split.
  - exact (proj1 (proj2 (proj2 (proj2
             (X14_integer_cells_keep_their_value 1234 ltac:(discriminate)))))).
  - exact (proj1 (proj2 (proj2 (proj2 (proj2
             (X14_integer_cells_keep_their_value (- 2 ^ 53)
                ltac:(discriminate))))))).
Defined.

(* ====================================================================== *)
(** ** More on the driver and on what it loads *)
(* ====================================================================== *)

Section DriverRuns.

Variable K : sink.
Variable R : Type.
Variable to_dict : R -> pydict.
Variable table : string.
Variable conflict_target : string.

Lemma main_from_cases (records : list R) (env : environment)
    (s : sink_state K) (dry_run : bool) :
  exists r,
    main_from K R to_dict table conflict_target records env s dry_run = Py.Ret r
    /\ ((loaded r = None /\ exit_code r = 1
         /\ (records = [] \/ fst (get_supabase_client env) = false))
        \/ (exists ok st,
              loaded r = Some (ok, st)
              /\ insert K R to_dict table conflict_target s records 100 dry_run
                 = Py.Ret (ok, st)
              /\ exit_code r = (if ok then 0 else 1)
              /\ records <> [] /\ fst (get_supabase_client env) = true)).
Proof.
  unfold main_from. destruct records as [|r0 rest].
  - eexists. split; [reflexivity|]. left. auto.
  - destruct (get_supabase_client env) as [c n]. destruct c; simpl.
    + destruct (insert_returns K R to_dict table conflict_target s
                  (r0 :: rest) 100 dry_run) as (ok & st & E); [discriminate|].
      rewrite E. eexists. split; [reflexivity|]. right.
      exists ok, st. repeat split; try discriminate; try exact E.
    + eexists. split; [reflexivity|]. left. auto.
Qed.

End DriverRuns.

(** X15.  A run of the driver always ends, with status 0 or 1.  In dry-run
    mode the status is 0 exactly when extraction gave a record and a
    client could be had, so a dry run still needs the sink configured; no
    upsert call is made and the sink is left as it was.  In live mode
    status 0 means that the loader made the batch calls only and counted
    every extracted record inserted. *)
Theorem X15_driver_runs (K : sink) (R : Type) (to_dict : R -> pydict)
    (table conflict_target : string) (records : list R) (env : environment)
    (s : sink_state K) :
  (exists r,
     main_from K R to_dict table conflict_target records env s true = Py.Ret r
     /\ (exit_code r = 0 \/ exit_code r = 1)
     /\ (exit_code r = 0
         <-> records <> [] /\ fst (get_supabase_client env) = true)
     /\ match loaded r with
        | Some (ok, st) => ok = true /\ ls_calls st = [] /\ ls_sink st = s
        | None => True
        end)
  /\ (exists r,
        main_from K R to_dict table conflict_target records env s false = Py.Ret r
        /\ (exit_code r = 0 \/ exit_code r = 1)
        /\ (exit_code r = 0 ->
            exists st,
              loaded r = Some (true, st)
              /\ single_payloads (ls_calls st) = []
              /\ total_inserted st = List.length records
              /\ total_errors st = O
              /\ List.concat (batch_payloads (ls_calls st)) = map to_dict records)).
Proof.
  split.
  - destruct (main_from_cases K R to_dict table conflict_target records env s true)
      as (r & E & [(Hl & Hx & Hc) | (ok & st & Hl & Hi & Hx & Hne & Hc)]);
      exists r; (split; [exact E|]).
    + split; [now right|]. rewrite Hl, Hx. split; [|exact I].
      split; [discriminate|]. intros [Hne Hcl].
      destruct Hc; [contradiction | congruence].
    + unfold insert in Hi. injection Hi as <- <-.
      rewrite Hl, Hx. simpl. repeat split; auto.
  - destruct (main_from_cases K R to_dict table conflict_target records env s false)
      as (r & E & [(Hl & Hx & Hc) | (ok & st & Hl & Hi & Hx & Hne & Hc)]);
      exists r; (split; [exact E|]).
    + split; [now right|]. rewrite Hx. discriminate.
    + split; [destruct ok; rewrite Hx; auto|].
      intros H0. destruct ok; [|rewrite Hx in H0; discriminate].
      exists st. split; [exact Hl|].
      destruct (live_run_tally K R to_dict table conflict_target s records 100
                  true st eq_refl Hi) as (Hb & (T1 & T2 & T3) & Hok).
      symmetry in Hok. apply Nat.eqb_eq in Hok. specialize (T3 Hok).
      rewrite Hb, slices_concat, length_map in T1 by (simpl; lia).
      rewrite T3 in T1. simpl in T1.
      split; [exact T3|]. split; [lia|]. split; [exact Hok|].
      rewrite Hb. apply slices_concat. simpl. lia.
Qed.

Section ConflictColumns.

Lemma year_value_ok (y : option Z) : year_ok y -> key_value_ok (v_int y).
Proof. intros (n & -> & Hn). exact Hn. Qed.

End ConflictColumns.

(** X16.  For every record a validator returns, each column named in the
    domain's conflict target is an entry of the dictionary sent to the
    sink, holding a year in 2000..2100 or a non-empty trimmed text that is
    not nan: no batch row goes out with a key column absent or null. *)
Theorem X16_conflict_columns_filled :
  (forall row r, Attendance.validate_attendance_record row = Valid r ->
     conflict_columns_filled Attendance.on_conflict (Attendance.to_dict r))
  /\ (forall row r, Mcas.validate_mcas_record row = Valid r ->
        conflict_columns_filled Mcas.on_conflict (Mcas.to_dict r))
  /\ (forall row r, Enrollment.validate_enrollment_record row = Valid r ->
        conflict_columns_filled Enrollment.on_conflict (Enrollment.to_dict r))
  /\ (forall row src r, Schools.validate_school_record row src = Valid r ->
        conflict_columns_filled Schools.on_conflict (Schools.to_dict r)).
Proof.
  split; [|split; [|split]].
  - intros row r H. destruct (attendance_valid_keys row r H) as (Hy & Hp & Hi & Hg).
    apply year_value_ok in Hy.
    unfold conflict_columns_filled. simpl.
    repeat (constructor; [eexists; split; [reflexivity | assumption]|]).
    constructor.
  - intros row r H.
    destruct (mcas_valid_keys row r H) as (Hy & Hi & Ht & Hs & Hg).
    apply year_value_ok in Hy.
    unfold conflict_columns_filled. simpl.
    repeat (constructor; [eexists; split; [reflexivity | assumption]|]).
    constructor.
  - intros row r H. destruct (enrollment_valid_keys row r H) as (Hy & Hi).
    apply year_value_ok in Hy.
    unfold conflict_columns_filled. simpl.
    repeat (constructor; [eexists; split; [reflexivity | assumption]|]).
    constructor.
  - intros row src r H. destruct (school_valid_keys row src r H) as (Hi & _).
    unfold conflict_columns_filled. simpl.
    repeat (constructor; [eexists; split; [reflexivity | assumption]|]).
    constructor.
Qed.

(** X16 at work on the sample attendance row. *)
Lemma X16_conflict_columns_filled_witness :
  exists r,
    Attendance.validate_attendance_record
      (attendance_row (Py.CInt 2024) "00350000") = Valid r
    /\ conflict_columns_filled Attendance.on_conflict (Attendance.to_dict r).
Proof.
  eexists. split; [reflexivity|].
  exact (proj1 X16_conflict_columns_filled
           (attendance_row (Py.CInt 2024) "00350000") _ eq_refl).
Defined.

(** X17.  A directory source that yields no record, because its file is
    absent or unreadable, lacks a required column or holds no valid row,
    changes nothing: the merged directory and the overwrite count are
    those of the other sources, in their order. *)
Theorem X17_empty_sources_are_skipped (files : string -> source)
    (pre post : list string) (p : string) :
  (Schools.extract_schools_from_csv (Schools.basename p) (files p) = [] ->
   Schools.collect_from files (pre ++ p :: post)
   = Schools.collect_from files (pre ++ post))
  /\ (files p = FileMissing \/ files p = ReadError ->
      Schools.collect_from files (pre ++ p :: post)
      = Schools.collect_from files (pre ++ post)).
Proof.
  assert (H : Schools.extract_schools_from_csv (Schools.basename p) (files p) = [] ->
              Schools.collect_from files (pre ++ p :: post)
              = Schools.collect_from files (pre ++ post)).
  { intros E. unfold Schools.collect_from. rewrite !collect_from_fold.
    change (p :: post) with ([p] ++ post).
    rewrite !all_records_app. unfold all_records at 2. simpl.
    rewrite E. reflexivity. }
  split; [exact H|].
  intros [E | E]; apply H; rewrite E; reflexivity.
Qed.

(** X17 at work: the six configured sources that are absent in the
    two-source example. *)
Lemma X17_empty_sources_are_skipped_witness :
  Schools.collect_from (two_sources older_source newer_source)
    (firstn 2 Schools.CSV_SOURCES ++ nth 2 Schools.CSV_SOURCES ""
                                   :: skipn 3 Schools.CSV_SOURCES)
  = Schools.collect_from (two_sources older_source newer_source)
      (firstn 2 Schools.CSV_SOURCES ++ skipn 3 Schools.CSV_SOURCES).
Proof.
  apply (proj2 (X17_empty_sources_are_skipped
                  (two_sources older_source newer_source)
                  (firstn 2 Schools.CSV_SOURCES) (skipn 3 Schools.CSV_SOURCES)
                  (nth 2 Schools.CSV_SOURCES ""))).
  left. reflexivity.
Defined.

(* ====================================================================== *)
(** ** The loader's log and the sink's state *)
(* ====================================================================== *)

Section LogFacts.

Variable K : sink.
Variable R : Type.
Variable to_dict : R -> pydict.
Variable table : string.
Variable conflict_target : string.

Lemma failed_records_app (a b : list (log_event R)) :
  failed_records (a ++ b) = failed_records a ++ failed_records b.
Proof.
  induction a as [|e a IH]; simpl; [reflexivity|].
  destruct e; simpl; now rewrite ?IH.
Qed.

Lemma retry_fold_log (s0 : sink_state K) (batch : list pydict) :
  forall st : load_state K R,
    let st' := fold_left (retry_record K R table) batch st in
    (total_inserted st' + List.length (failed_records (ls_log st'))
     = total_inserted st + List.length (failed_records (ls_log st))
       + List.length batch)%nat
    /\ (total_errors st' + List.length (failed_records (ls_log st))
        = total_errors st + List.length (failed_records (ls_log st')))%nat
    /\ (ls_sink st = replay K s0 (ls_calls st) ->
        ls_sink st' = replay K s0 (ls_calls st')).
Proof.
  induction batch as [|d rest IH]; intros st; simpl.
  - repeat split; auto; lia.
  - destruct (IH (retry_record K R table st d)) as (H1 & H2 & H3).
    unfold retry_record in *.
    destruct (execute K (ls_sink st) _) as [s' [e|]] eqn:E; simpl in *.
    + rewrite failed_records_app, length_app in H1, H2. simpl in H1, H2.
      split; [lia|]. split; [lia|].
      intros Hs. apply H3. unfold replay. rewrite fold_left_app. simpl.
      fold (replay K s0 (ls_calls st)). rewrite <- Hs, E. reflexivity.
    + split; [lia|]. split; [lia|].
      intros Hs. apply H3. unfold replay. rewrite fold_left_app. simpl.
      fold (replay K s0 (ls_calls st)). rewrite <- Hs, E. reflexivity.
Qed.

Lemma process_batch_settled (s0 : sink_state K) (ds : list pydict)
    (bs : nat) (st : load_state K R) (i : nat) :
  settled K s0 st ->
  settled K s0 (process_batch K R table conflict_target ds bs st i).
Proof.
  intros (S1 & S2 & S3).
  pose proof (process_batch_trace K R table conflict_target ds bs st i) as Ht.
  cbv zeta in Ht.
  unfold process_batch in *. cbv zeta in *. unfold batch_call in Ht.
  set (batch := firstn bs (skipn i ds)) in *.
  destruct (execute K (ls_sink st) _) as [s' [e|]] eqn:E; simpl snd in Ht.
  - destruct Ht as (Hc & _ & _).
    match goal with
    | |- settled K s0 (fold_left _ batch ?st1) =>
        destruct (retry_fold_log s0 batch st1) as (H1 & H2 & H3);
        set (st' := fold_left (retry_record K R table) batch st1) in *
    end.
    simpl in H1, H2, H3.
    rewrite !failed_records_app in H1, H2. simpl in H1, H2.
    rewrite !app_nil_r in H1, H2.
    unfold settled. rewrite Hc.
    change ({| uc_table := table; uc_payload := Rows batch;
               uc_on_conflict := Some conflict_target |}
            :: map (single_call table) batch)
      with ([{| uc_table := table; uc_payload := Rows batch;
                uc_on_conflict := Some conflict_target |}]
            ++ map (single_call table) batch).
    rewrite !batch_payloads_app, !single_payloads_app,
      batch_payloads_singles, single_payloads_singles.
    simpl. rewrite ?app_nil_r, concat_app, !length_app. simpl.
    rewrite ?app_nil_r.
    split; [lia|]. split; [lia|].
    rewrite <- Hc. apply H3. unfold replay. rewrite fold_left_app. simpl.
    fold (replay K s0 (ls_calls st)). rewrite <- S3, E. reflexivity.
  - clear Ht. unfold settled. simpl.
    rewrite !failed_records_app. simpl. rewrite !app_nil_r.
    rewrite batch_payloads_app, single_payloads_app. simpl.
    rewrite ?app_nil_r, concat_app, length_app. simpl. rewrite ?app_nil_r.
    split; [lia|]. split; [lia|].
    unfold replay. rewrite fold_left_app. simpl.
    fold (replay K s0 (ls_calls st)). rewrite <- S3, E. reflexivity.
Qed.

Lemma live_run_settled (s : sink_state K) (records : list R) (bs : Z)
    (ok : bool) (st : load_state K R) :
  insert K R to_dict table conflict_target s records bs false = Py.Ret (ok, st) ->
  settled K s st.
Proof.
  unfold insert. destruct (range_step _ bs) as [starts|]; [|discriminate].
  intros [= _ <-].
  assert (H : forall st0 : load_state K R,
             settled K s st0 ->
             settled K s (fold_left
                          (process_batch K R table conflict_target
                             (map to_dict records) (Z.to_nat bs))
                          starts st0)).
  { induction starts as [|i rest IH]; intros st0 H0; simpl; [exact H0|].
    apply IH. now apply process_batch_settled. }
  specialize (H (init_state K R s [LogHeader false (List.length records)])).
  unfold settled in *. simpl in *.
  rewrite failed_records_app. simpl. rewrite app_nil_r.
  apply H. repeat split.
Qed.

Lemma live_run_accounts (s : sink_state K) (records : list R) (bs : Z)
    (ok : bool) (st : load_state K R) :
  insert K R to_dict table conflict_target s records bs false = Py.Ret (ok, st) ->
  (total_inserted st + List.length (failed_records (ls_log st))
   = List.length (List.concat (batch_payloads (ls_calls st))))%nat
  /\ (total_errors st
      = List.length (single_payloads (ls_calls st))
        + List.length (failed_records (ls_log st)))%nat
  /\ ls_sink st = fold_left (fun s c => fst (execute K s c)) (ls_calls st) s.
Proof. intros H. exact (live_run_settled s records bs ok st H). Qed.

End LogFacts.

(** X18.  After a live run with a positive batch size the inserted count
    is exact: together with the records logged as failed it makes the
    number of records.  The error count is the number of records that were
    retried singly plus the number logged as failed. *)
Theorem X18_inserted_count_is_exact (K : sink) (R : Type)
    (to_dict : R -> pydict) (table conflict_target : string)
    (s : sink_state K) (records : list R) (bs : Z)
    (ok : bool) (st : load_state K R) :
  0 < bs ->
  insert K R to_dict table conflict_target s records bs false = Py.Ret (ok, st) ->
  (total_inserted st + List.length (failed_records (ls_log st))
   = List.length records)%nat
  /\ (total_errors st
      = List.length (single_payloads (ls_calls st))
        + List.length (failed_records (ls_log st)))%nat.
Proof.
  intros Hbs H.
  destruct (live_run_accounts K R to_dict table conflict_target s records bs ok st H)
    as (H1 & H2 & _).
  destruct (live_run_tally K R to_dict table conflict_target s records bs ok st Hbs H)
    as (Hb & _).
  rewrite Hb, slices_concat, length_map in H1 by lia. auto.
Qed.

(** X18 at work: a sink that refuses batches of more than one row, five
    records in batches of two. *)
Lemma X18_inserted_count_is_exact_witness :
  exists ok st,
    Attendance.insert_attendance_records (size_limited_sink 1) O
      five_attendance_records 2 false = Py.Ret (ok, st)
    /\ (total_inserted st + List.length (failed_records (ls_log st)) = 5)%nat.
Proof.
  destruct (insert_returns (size_limited_sink 1) _ Attendance.to_dict
              Attendance.table Attendance.on_conflict O
              five_attendance_records 2 false)
    as (ok & st & E); [discriminate|].
  exists ok, st. split; [exact E|].
  exact (proj1 (X18_inserted_count_is_exact _ _ _ _ _ _ _ 2 ok st eq_refl E)).
Defined.

(** X19.  The loader talks to the sink through its upsert calls only and
    one after the other: the state it leaves the sink in is the state
    reached by executing the logged calls, in order, from the state it
    was given; in a dry run that is the state it was given. *)
Theorem X19_sink_state_follows_calls (K : sink) (R : Type)
    (to_dict : R -> pydict) (table conflict_target : string)
    (s : sink_state K) (records : list R) (bs : Z) (dry_run : bool)
    (ok : bool) (st : load_state K R) :
  insert K R to_dict table conflict_target s records bs dry_run = Py.Ret (ok, st) ->
  ls_sink st = replay K s (ls_calls st)
  /\ (dry_run = true -> ls_sink st = s).
Proof.
  destruct dry_run.
  - unfold insert. intros [= _ <-]. split; [reflexivity | auto].
  - intros H. split; [|discriminate].
    exact (proj2 (proj2 (live_run_accounts K R to_dict table conflict_target
                           s records bs ok st H))).
Qed.

(** X19 at work: the sink that keeps the calls it received holds, after a
    live run, the loader's call log. *)
Lemma X19_sink_state_follows_calls_witness :
  exists ok st,
    Attendance.insert_attendance_records accepting_sink []
      five_attendance_records 2 false = Py.Ret (ok, st)
    /\ ls_sink st = replay accepting_sink [] (ls_calls st).
Proof.
  destruct (insert_returns accepting_sink _ Attendance.to_dict
              Attendance.table Attendance.on_conflict []
              five_attendance_records 2 false)
    as (ok & st & E); [discriminate|].
  exists ok, st. split; [exact E|].
  exact (proj1 (X19_sink_state_follows_calls _ _ _ _ _ _ _ 2 false ok st E)).
Defined.
